(** * mcd2dh5: the MCD file accessor and the MCD-to-HDF5 converter

    A shallow embedding of [neuroshare_mcd.py] (classes [MCDFile] and
    [MCD2HDF5Converter]) together with the properties its specification
    states about it.

    The Python code is a wrapper around three external collaborators:
    the operating system ([os.path.exists], [sys.platform], ...), the
    python-neuroshare binding ([ns.Library], [ns.File], the entity
    objects and their [get_data] methods) and the HDF5 / numpy writers
    ([h5py], [np.array]).  None of them belongs to the repository, so
    all three are parameters of the development (record [Env] and the
    records [NsFile] / [NsEntity]); every theorem about the wrapper is
    proved for all of their behaviours.

    Methods that can raise or that call an external collaborator live
    in the monad [M]: a computation takes the trace of external calls
    made so far and returns either a value or a Python exception,
    together with the extended trace. *)

From Stdlib Require Import ZArith String Ascii List Lia.
From Stdlib Require Import DecimalString DecimalNat.
From Stdlib Require Import Floats.PrimFloat.
From stdpp Require Import base option list gmap strings.

Open Scope Z_scope.

(** ** Python values *)

(** A Python [float] (IEEE 754 binary64); no theorem below computes
    with floats, they are only stored and moved around. *)
Definition pyfloat : Set := PrimFloat.float.

(** Values an event entity can carry ([entity.get_data(i)] returns a
    [(timestamp, value)] pair whose second component is untyped). *)
Inductive pyval :=
| PyInt (z : Z)
| PyFloat (x : pyfloat)
| PyStr (s : string)
| PyNone.

(** The ["date"] entry of the [info()] dictionary. *)
Record FileDate := {
  year : pyval; month : pyval; day : pyval;
  hour : pyval; minute : pyval; second : pyval
}.

(** A numpy array of values, as built by [np.array]. *)
Record ndarray := NdArray { nd_items : list pyval }.

(** ** Python exceptions *)

(** Only subclasses of [Exception] are modelled.  [ExternalError cls msg]
    stands for any exception class raised by external code that the
    wrapper does not raise itself. *)
Inductive exn :=
| FileNotFoundError (msg : string)
| RuntimeError (msg : string)
| ValueError (msg : string)
| ImportError (msg : string)
| ExternalError (cls msg : string).

(** [str(e)], as interpolated by an f-string. *)
Definition exn_str (e : exn) : string :=
  match e with
  | FileNotFoundError m | RuntimeError m | ValueError m | ImportError m => m
  | ExternalError _ m => m
  end.

Inductive result (A : Type) :=
| Ok (a : A)
| Raise (e : exn).
Arguments Ok {A} a.
Arguments Raise {A} e.

Definition is_ok {A} (r : result A) : bool :=
  match r with Ok _ => true | Raise _ => false end.

Definition result_map {A B} (f : A → B) (r : result A) : result B :=
  match r with Ok a => Ok (f a) | Raise e => Raise e end.

(** ** The error taxonomy of the specification, as the code raises it *)

Definition NotOpen : exn := RuntimeError "File is not open".
Definition NotFound (filename : string) : exn :=
  FileNotFoundError ("MCD file not found: " +:+ filename).
Definition OpenError (cause : exn) : exn :=
  RuntimeError ("Failed to open MCD file: " +:+ exn_str cause).
Definition InvalidArgument (name : string) : exn :=
  ValueError ("Invalid entity type: " +:+ name).

(** Decimal rendering of a Python [int] inside an f-string. *)
Definition str_of_Z (z : Z) : string := NilZero.string_of_int (Z.to_int z).

(** [kind] is the article and noun of the message: "an analog",
    "an event", "a segment", "a neural". *)
Definition TypeMismatch (entity_id : Z) (kind : string) : exn :=
  ValueError ("Entity " +:+ str_of_Z entity_id +:+ " is not " +:+ kind +:+ " entity").

(** ** The external collaborators *)

(** *** The python-neuroshare binding

    An entity object.  The binding gives every entity class its own
    [get_data] signature; the wrapper only calls the one that belongs
    to the class it has checked for, so the four methods are separate
    fields.  Counts are the unsigned counters of the Neuroshare API. *)
Record NsEntity := {
  label : string;
  entity_type : Z;
  item_count : nat;
  metadata_raw : gmap string pyval;
  sample_rate : pyfloat;
  min_value : pyfloat;
  max_value : pyfloat;
  units : string;
  resolution : pyfloat;
  location_x : pyfloat;
  location_y : pyfloat;
  location_z : pyfloat;
  source_count : Z;
  max_sample_count : Z;
  event_type : Z;
  (* AnalogEntity.get_data(start_index, count) -> (data, timestamps, cont_count) *)
  analog_get_data : Z → Z → result (list pyfloat * list pyfloat * Z);
  (* EventEntity.get_data(index) -> (timestamp, value) *)
  event_get_data : Z → result (pyfloat * pyval);
  (* SegmentEntity.get_data(index) -> (data, timestamp, sample_count, unit_id) *)
  segment_get_data : Z → result (list (list pyfloat) * pyfloat * Z * Z);
  (* NeuralEntity.get_data(start_index, count) -> timestamps *)
  neural_get_data : Z → Z → result (list pyfloat)
}.

(** An [ns.File] object: the file attributes and [get_entity]. *)
Record NsFile := {
  file_type : string;
  entity_count : nat;
  time_stamp_resolution : pyfloat;
  time_span : pyfloat;
  app_name : string;
  comment : string;
  file_metadata_raw : gmap string pyval;
  get_entity : Z → result NsEntity
}.

(** An [ns.Library] object. *)
Record NsLibrary := { lib_name : string; lib_dir : string }.

(** *** The HDF5 writer *)

(** Values assigned to an attribute: [h5.attrs[key] = value]. *)
Inductive attrval :=
| AttrStr (s : string)
| AttrInt (z : Z)
| AttrFloat (x : pyfloat)
| AttrDict (d : FileDate).

Inductive h5data :=
| DataFloats (xs : list pyfloat)
| DataMatrix (rows : list (list pyfloat))
| DataArray (a : ndarray).

(** Operations on the open container; a group is named by its path
    from the root. *)
Inductive h5op :=
| H5SetAttr (grp : list string) (key : string) (v : attrval)
| H5CreateGroup (parent : list string) (name : string)
| H5CreateDataset (grp : list string) (name : string) (data : h5data).

(** *** The trace of external calls *)

Inductive event :=
| EvPathExists (p : string)               (* os.path.exists / Path.exists *)
| EvPrependPath (dir : string)            (* os.environ["PATH"] = dir + ... *)
| EvNsLibrary (name dir : string)         (* ns.Library(name, dir) *)
| EvNsFile (filename : string)            (* ns.File(filename) *)
| EvGetEntity (entity_id : Z)             (* file.get_entity(id) *)
| EvGetData (entity_id : Z) (args : list Z) (* entity.get_data(...) *)
| EvImportH5py                            (* import h5py *)
| EvH5Open (filename : string)            (* h5py.File(filename, "w") *)
| EvH5 (op : h5op)
| EvH5Close
| EvProgress (current total : Z) (msg : string) (* progress_callback(...) *)
| EvPrint (line : string).                (* print(...) *)

Definition trace := list event.

(** *** The environment

    The answers of the operating system and of the libraries.  The
    recording is read-only while it is open, so the binding's answers
    are functions of their arguments; the HDF5 container is written
    to, so the outcome of an operation on it may depend on everything
    that happened before.

    [os.path.exists] never raises (it answers [False] where the test
    itself fails); [Path.exists()] and [Path.cwd()] can raise (a
    directory that may not be searched, a working directory that was
    removed), and so can [print] (a closed standard output). *)
Record Env := {
  path_exists : string → bool;            (* os.path.exists *)
  Path_exists : string → result bool;     (* pathlib.Path.exists *)
  platform : string;                      (* sys.platform *)
  script_dir : string;                    (* Path(__file__).parent.parent *)
  Path_cwd : result string;               (* Path.cwd() *)
  stdout_write : string → result unit;    (* print *)
  path_join : string → string → string;   (* pathlib's "/" *)
  dirname : string → string;              (* os.path.dirname *)
  basename : string → string;             (* os.path.basename *)
  ns_Library : string → string → result NsLibrary;
  ns_File : string → result NsFile;
  h5py_installed : bool;
  h5_File : string → result unit;
  h5_exec : trace → h5op → result unit;
  np_array : list pyval → result ndarray
}.

(** ** The monad of wrapper code *)

Definition M (A : Type) : Type := trace → result A * trace.

Definition ret {A} (a : A) : M A := λ tr, (Ok a, tr).

Definition bind {A B} (c : M A) (k : A → M B) : M B :=
  λ tr, match c tr with
        | (Ok a, tr') => k a tr'
        | (Raise e, tr') => (Raise e, tr')
        end.

Definition raise {A} (e : exn) : M A := λ tr, (Raise e, tr).

(** Record an external call. *)
Definition emit (ev : event) : M unit := λ tr, (Ok tt, tr ++ [ev]).

(** An external call with a given outcome. *)
Definition call {A} (ev : event) (r : result A) : M A := λ tr, (r, tr ++ [ev]).

(** A value the environment supplies, or the exception it raises
    instead, outside the calls the trace records. *)
Definition outcome {A} (r : result A) : M A := λ tr, (r, tr).

(** [try: c  except Exception as e: h e] (also the bare [except:]). *)
Definition try_except {A} (c : M A) (h : exn → M A) : M A :=
  λ tr, match c tr with
        | (Ok a, tr') => (Ok a, tr')
        | (Raise e, tr') => h e tr'
        end.

(** [with ... :] runs [body] and then [exit] on every path; the
    [__exit__] methods used here return [None], so an exception of the
    body is raised again afterwards. *)
Definition with_exit {A} (body : M A) (exit : M unit) : M A :=
  λ tr, match body tr with
        | (Ok a, tr') => match exit tr' with
                         | (Ok _, tr'') => (Ok a, tr'')
                         | (Raise e, tr'') => (Raise e, tr'')
                         end
        | (Raise e, tr') => match exit tr' with
                            | (Ok _, tr'') => (Raise e, tr'')
                            | (Raise e', tr'') => (Raise e', tr'')
                            end
        end.

Declare Scope py_scope.
Delimit Scope py_scope with py.
Notation "x <- c ;; k" := (bind c (λ x, k))
  (at level 100, c at next level, right associativity) : py_scope.
Notation "c ;; k" := (bind c (λ _, k))
  (at level 100, right associativity) : py_scope.
Open Scope py_scope.

(** [for x in xs: body x], collecting what the bodies return (the
    loops of the wrapper append one item per iteration). *)
Fixpoint for_collect {A B} (xs : list A) (body : A → M B) : M (list B) :=
  match xs with
  | [] => ret []
  | x :: xs' => y <- body x ;; ys <- for_collect xs' body ;; ret (y :: ys)
  end.

(** [for x in xs: body x], for the effects only. *)
Fixpoint for_each {A} (xs : list A) (body : A → M unit) : M unit :=
  match xs with
  | [] => ret tt
  | x :: xs' => body x ;; for_each xs' body
  end.

(** [for x in xs: acc = body acc x]. *)
Fixpoint for_fold {A S} (xs : list A) (acc : S) (body : S → A → M S) : M S :=
  match xs with
  | [] => ret acc
  | x :: xs' => acc' <- body acc x ;; for_fold xs' acc' body
  end.

(** [range(n)] and [enumerate(xs)]. *)
Definition range (n : nat) : list Z := Z.of_nat <$> seq 0 n.

Definition enumerate {A} (xs : list A) : list (Z * A) :=
  imap (λ i x, (Z.of_nat i, x)) xs.

(** Truth value of a Python [str]. *)
Definition truthy (s : string) : bool := negb (String.eqb s "").

(** ** Class [MCDFile] *)

Definition ENTITY_UNKNOWN : Z := 0.
Definition ENTITY_EVENT : Z := 1.
Definition ENTITY_ANALOG : Z := 2.
Definition ENTITY_SEGMENT : Z := 3.
Definition ENTITY_NEURAL : Z := 4.

Definition ENTITY_TYPE_NAMES : gmap Z string :=
  <[4 := "neural"]> (<[3 := "segment"]> (<[2 := "analog"]>
    (<[1 := "event"]> (<[0 := "unknown"]> ∅)))).

(** [ENTITY_TYPE_NAMES.get(t, "unknown")]. *)
Definition type_name_of (t : Z) : string := default "unknown" (ENTITY_TYPE_NAMES !! t).

(** [{v: k for k, v in ENTITY_TYPE_NAMES.items()}]: one insertion per
    item (the names of the table are pairwise distinct, so the order
    of the items does not matter). *)
Definition type_map : gmap string Z :=
  foldl (λ m kv, <[kv.2 := kv.1]> m) ∅ (map_to_list ENTITY_TYPE_NAMES).

(** [str.lower] on the ASCII letters.  Strings are byte strings here;
    the names of the table are ASCII, and on a string of ASCII
    characters this is [str.lower].  Python also lower-cases letters
    outside ASCII (the Kelvin sign becomes [k]); the bytes of such
    letters are left as they are here, so what is said below about a
    name with a character outside ASCII is said of this function
    only. *)
Definition lower_ascii (c : ascii) : ascii :=
  let n := nat_of_ascii c in
  if (65 <=? n)%nat && (n <=? 90)%nat then ascii_of_nat (n + 32) else c.

Fixpoint lower (s : string) : string :=
  match s with
  | EmptyString => EmptyString
  | String c s' => String (lower_ascii c) (lower s')
  end.

(** The object state: [self.filename], [self.library_path],
    [self._lib], [self._file]. *)
Record MCDFile := {
  filename : string;
  library_path : string;
  _lib : option NsLibrary;
  _file : option NsFile
}.

(** The dictionaries the methods return. *)
Record EntitySummary := {
  es_id : Z;
  es_label : string;
  es_type : Z;
  es_type_name : string;
  es_item_count : nat
}.

#[global] Instance EntitySummary_eq_dec : EqDecision EntitySummary.
Proof. solve_decision. Defined.

Record FileInfo := {
  fi_file_type : string;
  fi_entity_count : nat;
  fi_time_stamp_resolution : pyfloat;
  fi_time_span : pyfloat;
  fi_app_name : string;
  fi_comment : string;
  fi_date : FileDate
}.

Inductive TypeSpecific :=
| AnalogFields (sample_rate min_value max_value : pyfloat) (units : string)
               (resolution : pyfloat)
| SegmentFields (source_count max_sample_count : Z) (sample_rate : pyfloat)
| NoFields.

Record EntityDetail := {
  ed_id : Z;
  ed_label : string;
  ed_type : Z;
  ed_type_name : string;
  ed_item_count : nat;
  ed_metadata_raw : gmap string pyval;
  ed_specific : TypeSpecific
}.

Record AnalogMetadata := {
  am_min_value : pyfloat; am_max_value : pyfloat; am_resolution : pyfloat;
  am_location_x : pyfloat; am_location_y : pyfloat; am_location_z : pyfloat
}.

Record AnalogRecord := {
  an_data : list pyfloat;
  an_timestamps : list pyfloat;
  an_continuous_count : Z;
  an_sample_rate : pyfloat;
  an_units : string;
  an_label : string;
  an_metadata : AnalogMetadata
}.

(** The ["values"] entry of an event record: a numpy array when
    [np.array] accepted the list, the list itself otherwise. *)
Inductive EventValues :=
| ValuesArray (a : ndarray)
| ValuesList (l : list pyval).

Record EventRecord := {
  ev_timestamps : list pyfloat;
  ev_values : EventValues;
  ev_event_type : Z;
  ev_label : string
}.

Record SegmentRecord := {
  sg_data : list (list pyfloat);
  sg_timestamp : pyfloat;
  sg_sample_count : Z;
  sg_unit_id : Z;
  sg_source_count : Z;
  sg_sample_rate : pyfloat;
  sg_label : string
}.

Record NeuralRecord := {
  ne_timestamps : list pyfloat;
  ne_label : string
}.

(** The argument of [get_entities_by_type]: [Union[str, int]]. *)
Inductive TypeFilter :=
| TypeName (name : string)
| TypeCode (code : Z).

(** [close]: forget the file and the library. *)
Definition close (self : MCDFile) : MCDFile :=
  let self1 :=
    match _file self with
    | Some _ => {| filename := filename self; library_path := library_path self;
                   _lib := _lib self; _file := None |}
    | None => self
    end in
  {| filename := filename self1; library_path := library_path self1;
     _lib := None; _file := _file self1 |}.

(** [if self._file is None: raise RuntimeError("File is not open")]. *)
Definition require_open (self : MCDFile) : M NsFile :=
  match _file self with
  | None => raise NotOpen
  | Some f => ret f
  end.

(** [self._file.get_entity(entity_id)]. *)
Definition ns_get_entity (f : NsFile) (entity_id : Z) : M NsEntity :=
  call (EvGetEntity entity_id) (get_entity f entity_id).

(** [self._file.metadata_raw.get(key, 0)]. *)
Definition metadata_get (f : NsFile) (key : string) : pyval :=
  default (PyInt 0) (file_metadata_raw f !! key).

Definition info (self : MCDFile) : M FileInfo :=
  f <- require_open self ;;
  ret {| fi_file_type := file_type f;
         fi_entity_count := entity_count f;
         fi_time_stamp_resolution := time_stamp_resolution f;
         fi_time_span := time_span f;
         fi_app_name := app_name f;
         fi_comment := comment f;
         fi_date := {| year := metadata_get f "Time_Year";
                       month := metadata_get f "Time_Month";
                       day := metadata_get f "Time_Day";
                       hour := metadata_get f "Time_Hour";
                       minute := metadata_get f "Time_Min";
                       second := metadata_get f "Time_Sec" |} |}.

Definition list_entities (self : MCDFile) : M (list EntitySummary) :=
  f <- require_open self ;;
  for_collect (range (entity_count f)) (λ i,
    entity <- ns_get_entity f i ;;
    ret {| es_id := i;
           es_label := label entity;
           es_type := entity_type entity;
           es_type_name := type_name_of (entity_type entity);
           es_item_count := item_count entity |}).

Definition get_entities_by_type (self : MCDFile) (entity_type : TypeFilter)
  : M (list EntitySummary) :=
  type_num <- match entity_type with
              | TypeName name =>
                  let name := lower name in
                  match type_map !! name with
                  | None => raise (InvalidArgument name)
                  | Some t => ret t
                  end
              | TypeCode t => ret t
              end ;;
  all_entities <- list_entities self ;;
  ret (filter (λ e, es_type e = type_num) all_entities).

Definition get_entity_info (self : MCDFile) (entity_id : Z) : M EntityDetail :=
  f <- require_open self ;;
  entity <- ns_get_entity f entity_id ;;
  ret {| ed_id := entity_id;
         ed_label := label entity;
         ed_type := entity_type entity;
         ed_type_name := type_name_of (entity_type entity);
         ed_item_count := item_count entity;
         ed_metadata_raw := metadata_raw entity;
         ed_specific :=
           if bool_decide (entity_type entity = ENTITY_ANALOG) then
             AnalogFields (sample_rate entity) (min_value entity) (max_value entity)
                          (units entity) (resolution entity)
           else if bool_decide (entity_type entity = ENTITY_SEGMENT) then
             SegmentFields (source_count entity) (max_sample_count entity)
                           (sample_rate entity)
           else NoFields |}.

(** The check every typed accessor starts with:
    [if entity.entity_type != expected: raise ValueError(...)]. *)
Definition check_type (entity : NsEntity) (entity_id expected : Z) (kind : string)
  : M unit :=
  if bool_decide (entity_type entity ≠ expected)
  then raise (TypeMismatch entity_id kind)
  else ret tt.

Definition get_analog_data (self : MCDFile) (entity_id start_index count : Z)
  : M AnalogRecord :=
  f <- require_open self ;;
  entity <- ns_get_entity f entity_id ;;
  check_type entity entity_id ENTITY_ANALOG "an analog" ;;
  r <- call (EvGetData entity_id [start_index; count])
            (analog_get_data entity start_index count) ;;
  let '(data, timestamps, cont_count) := r in
  ret {| an_data := data;
         an_timestamps := timestamps;
         an_continuous_count := cont_count;
         an_sample_rate := sample_rate entity;
         an_units := units entity;
         an_label := label entity;
         an_metadata := {| am_min_value := min_value entity;
                           am_max_value := max_value entity;
                           am_resolution := resolution entity;
                           am_location_x := location_x entity;
                           am_location_y := location_y entity;
                           am_location_z := location_z entity |} |}.

Section WithEnv.
Context (env : Env).

(** One iteration of the event loop: [timestamps[i] = timestamp] and
    [values.append(value)].  The index is below the length of
    [timestamps] throughout, the array having [item_count] cells. *)
Definition event_step (entity : NsEntity) (entity_id : Z)
    (acc : list pyfloat * list pyval) (i : Z) : M (list pyfloat * list pyval) :=
  r <- call (EvGetData entity_id [i]) (event_get_data entity i) ;;
  let '(timestamp, value) := r in
  ret (<[Z.to_nat i := timestamp]> acc.1, acc.2 ++ [value]).

(** [try: values = np.array(values)  except: pass]. *)
Definition to_array (values : list pyval) : EventValues :=
  match np_array env values with
  | Ok a => ValuesArray a
  | Raise _ => ValuesList values
  end.

Definition get_event_data (self : MCDFile) (entity_id : Z) : M EventRecord :=
  f <- require_open self ;;
  entity <- ns_get_entity f entity_id ;;
  check_type entity entity_id ENTITY_EVENT "an event" ;;
  let n_events := item_count entity in
  let timestamps := replicate n_events 0%float in
  acc <- for_fold (range n_events) (timestamps, []) (event_step entity entity_id) ;;
  ret {| ev_timestamps := acc.1;
         ev_values := to_array acc.2;
         ev_event_type := event_type entity;
         ev_label := label entity |}.

End WithEnv.

Definition get_segment_data (self : MCDFile) (entity_id index : Z) : M SegmentRecord :=
  f <- require_open self ;;
  entity <- ns_get_entity f entity_id ;;
  check_type entity entity_id ENTITY_SEGMENT "a segment" ;;
  r <- call (EvGetData entity_id [index]) (segment_get_data entity index) ;;
  let '(data, timestamp, sample_count, unit_id) := r in
  ret {| sg_data := data;
         sg_timestamp := timestamp;
         sg_sample_count := sample_count;
         sg_unit_id := unit_id;
         sg_source_count := source_count entity;
         sg_sample_rate := sample_rate entity;
         sg_label := label entity |}.

Definition get_all_segments (self : MCDFile) (entity_id : Z) : M (list SegmentRecord) :=
  f <- require_open self ;;
  entity <- ns_get_entity f entity_id ;;
  check_type entity entity_id ENTITY_SEGMENT "a segment" ;;
  for_collect (range (item_count entity)) (λ i, get_segment_data self entity_id i).

Definition get_neural_data (self : MCDFile) (entity_id start_index count : Z)
  : M NeuralRecord :=
  f <- require_open self ;;
  entity <- ns_get_entity f entity_id ;;
  check_type entity entity_id ENTITY_NEURAL "a neural" ;;
  let count := if bool_decide (count < 0) then Z.of_nat (item_count entity) else count in
  data <- call (EvGetData entity_id [start_index; count])
               (neural_get_data entity start_index count) ;;
  ret {| ne_timestamps := data; ne_label := label entity |}.

(** ** Opening a file: [MCDFile.__init__] *)

Section Opening.
Context (env : Env).

(** [os.path.exists(p)]. *)
Definition os_path_exists (p : string) : M bool :=
  call (EvPathExists p) (Ok (path_exists env p)).

(** [p.exists()] on a [Path]: the same test of the file system, but
    one that can raise. *)
Definition Path_exists_call (p : string) : M bool :=
  call (EvPathExists p) (Path_exists env p).

(** Platform-specific library names. *)
Definition lib_names : list string :=
  if String.eqb (platform env) "win32" then ["nsMCDLibrary64.dll"; "nsMCDLibrary.dll"]
  else if String.eqb (platform env) "darwin" then ["nsMCDLibrary.dylib"]
  else ["nsMCDLibrary.so"].

(** Default search locations, [cwd] being what [Path.cwd()] returned. *)
Definition search_paths (cwd : string) : list string :=
  [path_join env (path_join env (script_dir env) "Matlab-Import-Filter") "Matlab_Interface";
   cwd].

(** The inner loop of the search: the first library name that exists
    in [search_path]. *)
Fixpoint probe_names (search_path : string) (names : list string) : M (option string) :=
  match names with
  | [] => ret None
  | lib_name :: names' =>
      let lib_file := path_join env search_path lib_name in
      found <- Path_exists_call lib_file ;;
      if found then ret (Some lib_file) else probe_names search_path names'
  end.

(** The outer loop: directories that do not exist are skipped. *)
Fixpoint probe_paths (paths : list string) : M (option string) :=
  match paths with
  | [] => ret None
  | search_path :: paths' =>
      there <- Path_exists_call search_path ;;
      if negb there then probe_paths paths'
      else
        r <- probe_names search_path lib_names ;;
        match r with
        | Some lib_file => ret (Some lib_file)
        | None => probe_paths paths'
        end
  end.

Definition _find_library_path (library_path : option string) : M string :=
  given <- match library_path with
           | Some p => if truthy p then os_path_exists p else ret false
           | None => ret false
           end ;;
  if given then ret (default "" library_path)
  else
    cwd <- outcome (Path_cwd env) ;;
    let search_paths := search_paths cwd in
    r <- probe_paths search_paths ;;
    match r with
    | Some lib_file => ret lib_file
    | None =>
        (* not found: a default path, neuroshare may still find it *)
        ret (path_join env (default "" (head search_paths)) (default "" (head lib_names)))
    end.

(** [ns.File(self.filename)], stored in [self._file]. *)
Definition open_ns_file (self : MCDFile) (lib : option NsLibrary) : M MCDFile :=
  f <- call (EvNsFile (filename self)) (ns_File env (filename self)) ;;
  ret {| filename := filename self; library_path := library_path self;
         _lib := lib; _file := Some f |}.

Definition _open_file (self : MCDFile) : M MCDFile :=
  try_except
    (usable <- (if truthy (library_path self)
                then os_path_exists (library_path self) else ret false) ;;
     if usable then
       let lib_dir := dirname env (library_path self) in
       let lib_name := basename env (library_path self) in
       (if String.eqb (platform env) "win32" && truthy lib_dir
        then emit (EvPrependPath lib_dir) else ret tt) ;;
       (* the inner try: a library that fails to load is ignored *)
       lib <- try_except
                (l <- call (EvNsLibrary lib_name lib_dir) (ns_Library env lib_name lib_dir) ;;
                 ret (Some l))
                (λ _, ret None) ;;
       open_ns_file self lib
     else open_ns_file self (_lib self))
    (λ e, raise (OpenError e)).

Definition MCDFile_init (filename : string) (library_path : option string) : M MCDFile :=
  there <- os_path_exists filename ;;
  if negb there then raise (NotFound filename)
  else
    library_path <- _find_library_path library_path ;;
    _open_file {| filename := filename; library_path := library_path;
                  _lib := None; _file := None |}.

End Opening.

(** ** Class [MCD2HDF5Converter] *)

Record MCD2HDF5Converter := {
  mcd_filename : string;
  hdf5_filename : string
}.

(** A progress callback: [callback(current, total, message)] returns
    or raises. *)
Definition callback : Type := Z → Z → string → result unit.

(** [label.replace("/", "_")]. *)
Fixpoint replace_slash (s : string) : string :=
  match s with
  | EmptyString => EmptyString
  | String c s' =>
      String (if Ascii.eqb c "/"%char then "_"%char else c) (replace_slash s')
  end.

(** [f"{n:04d}"]: decimal digits, padded with zeros to four places. *)
Definition zfill4 (n : nat) : string :=
  let digits := NilZero.string_of_uint (Nat.to_uint n) in
  String.concat "" (replicate (4 - String.length digits) "0") +:+ digits.

(** [info.items()]: the entries of the [info()] dictionary, in
    insertion order. *)
Definition info_items (i : FileInfo) : list (string * attrval) :=
  [("file_type", AttrStr (fi_file_type i));
   ("entity_count", AttrInt (Z.of_nat (fi_entity_count i)));
   ("time_stamp_resolution", AttrFloat (fi_time_stamp_resolution i));
   ("time_span", AttrFloat (fi_time_span i));
   ("app_name", AttrStr (fi_app_name i));
   ("comment", AttrStr (fi_comment i));
   ("date", AttrDict (fi_date i))].

Definition warning (label : string) (e : exn) : string :=
  "Warning: Failed to convert entity " +:+ label +:+ ": " +:+ exn_str e.

Section Converting.
Context (env : Env).

(** An operation on the open container. *)
Definition h5 (op : h5op) : M unit :=
  λ tr, (h5_exec env tr op, tr ++ [EvH5 op]).

(** [print(line)]. *)
Definition print (line : string) : M unit :=
  call (EvPrint line) (stdout_write env line).

(** [if progress_callback: progress_callback(current, total, msg)]. *)
Definition report (progress_callback : option callback) (current total : Z)
    (msg : string) : M unit :=
  match progress_callback with
  | Some cb => call (EvProgress current total msg) (cb current total msg)
  | None => ret tt
  end.

(** The body of the inner loop over the segments of one entity. *)
Definition write_segment (grp : list string) (item : Z * SegmentRecord) : M unit :=
  let seg_grp := grp ++ ["segment_" +:+ zfill4 (Z.to_nat item.1)] in
  h5 (H5CreateGroup grp ("segment_" +:+ zfill4 (Z.to_nat item.1))) ;;
  h5 (H5CreateDataset seg_grp "data" (DataMatrix (sg_data item.2))) ;;
  h5 (H5SetAttr seg_grp "timestamp" (AttrFloat (sg_timestamp item.2))) ;;
  h5 (H5SetAttr seg_grp "unit_id" (AttrInt (sg_unit_id item.2))).

(** The guarded region of the loop body: the statements inside
    [try:], one branch per entity type. *)
Definition write_entity (mcd : MCDFile) (entity_id entity_type : Z) (label : string)
  : M unit :=
  if bool_decide (entity_type = ENTITY_EVENT) then
    data <- get_event_data env mcd entity_id ;;
    h5 (H5CreateGroup ["events"] label) ;;
    h5 (H5CreateDataset ["events"; label] "timestamps" (DataFloats (ev_timestamps data))) ;;
    match ev_values data with
    | ValuesArray a => h5 (H5CreateDataset ["events"; label] "values" (DataArray a))
    | ValuesList _ => ret tt
    end
  else if bool_decide (entity_type = ENTITY_ANALOG) then
    data <- get_analog_data mcd entity_id 0 (-1) ;;
    h5 (H5CreateGroup ["analog"] label) ;;
    h5 (H5CreateDataset ["analog"; label] "data" (DataFloats (an_data data))) ;;
    h5 (H5CreateDataset ["analog"; label] "timestamps" (DataFloats (an_timestamps data))) ;;
    h5 (H5SetAttr ["analog"; label] "sample_rate" (AttrFloat (an_sample_rate data))) ;;
    h5 (H5SetAttr ["analog"; label] "units" (AttrStr (an_units data)))
  else if bool_decide (entity_type = ENTITY_SEGMENT) then
    segments <- get_all_segments mcd entity_id ;;
    h5 (H5CreateGroup ["segments"] label) ;;
    for_each (enumerate segments) (write_segment ["segments"; label])
  else if bool_decide (entity_type = ENTITY_NEURAL) then
    data <- get_neural_data mcd entity_id 0 (-1) ;;
    h5 (H5CreateGroup ["neural"] label) ;;
    h5 (H5CreateDataset ["neural"; label] "timestamps" (DataFloats (ne_timestamps data)))
  else ret tt.

(** One iteration of the loop over the entities: the progress report,
    then the guarded region with its handler. *)
Definition convert_entity (mcd : MCDFile) (progress_callback : option callback)
    (total : Z) (item : Z * EntitySummary) : M unit :=
  let entity_info := item.2 in
  report progress_callback item.1 total ("Converting " +:+ es_label entity_info) ;;
  let entity_id := es_id entity_info in
  let entity_type := es_type entity_info in
  let label := replace_slash (es_label entity_info) in
  try_except (write_entity mcd entity_id entity_type label)
             (λ e, print (warning label e)).

(** [if key != "date": h5.attrs[key] = value]. *)
Definition write_attr (kv : string * attrval) : M unit :=
  if bool_decide (kv.1 ≠ "date") then h5 (H5SetAttr [] kv.1 kv.2) else ret tt.

(** The first statements of the body of the two [with] statements:
    the file attributes and the four groups. *)
Definition write_header (mcd : MCDFile) : M unit :=
  info <- info mcd ;;
  for_each (info_items info) write_attr ;;
  h5 (H5CreateGroup [] "events") ;;
  h5 (H5CreateGroup [] "analog") ;;
  h5 (H5CreateGroup [] "segments") ;;
  h5 (H5CreateGroup [] "neural").

(** The body of the two [with] statements. *)
Definition convert_body (mcd : MCDFile) (progress_callback : option callback) : M unit :=
  write_header mcd ;;
  entities <- list_entities mcd ;;
  let total := Z.of_nat (length entities) in
  for_each (enumerate entities) (convert_entity mcd progress_callback total) ;;
  report progress_callback total total "Conversion complete".

Definition import_h5py : M unit :=
  call EvImportH5py
       (if h5py_installed env then Ok tt
        else Raise (ImportError
               "h5py is required for conversion. Install with: pip install h5py")).

Definition convert (self : MCD2HDF5Converter) (progress_callback : option callback)
  : M unit :=
  import_h5py ;;
  mcd <- MCDFile_init env (mcd_filename self) None ;;
  with_exit
    (call (EvH5Open (hdf5_filename self)) (h5_File env (hdf5_filename self)) ;;
     with_exit (convert_body mcd progress_callback) (emit EvH5Close))
    (* MCDFile.__exit__: [mcd.close()], which calls nothing external *)
    (let _ := close mcd in ret tt).

End Converting.

(** ** Sample recordings

    Concrete environments on which the statements below are run. *)

Module Sample.

(** A binding whose segment reader answers every index with a
    one-sample waveform, and whose event reader rejects the indices
    outside [0, item_count). *)
Definition entity (lbl : string) (ty : Z) (n : nat) : NsEntity :=
  {| label := lbl; entity_type := ty; item_count := n; metadata_raw := ∅;
     sample_rate := 1000%float; min_value := 0%float; max_value := 1%float;
     units := "V"; resolution := 1%float;
     location_x := 0%float; location_y := 0%float; location_z := 0%float;
     source_count := 1; max_sample_count := 1; event_type := 0;
     analog_get_data := λ _ _,
       Ok (replicate n 1%float, replicate n 0%float, Z.of_nat n);
     event_get_data := λ i,
       if bool_decide (0 ≤ i < Z.of_nat n) then Ok (0%float, PyInt i)
       else Raise (ExternalError "IndexError" "bad index");
     segment_get_data := λ _, Ok ([[0%float]], 0%float, 1, 0);
     neural_get_data := λ _ count, Ok (replicate (Z.to_nat count) 0%float) |}.

(** Four entities: an analog channel, a trigger channel with two
    events, a spike channel with five segments, and a channel whose
    type code is outside the table of the wrapper. *)
Definition entities : list NsEntity :=
  [entity "Ch1" 2 3; entity "Trig/1" 1 2; entity "Spk" 3 5; entity "Aux" 5 0].

Definition lookup_entity (es : list NsEntity) (i : Z) : result NsEntity :=
  match (if bool_decide (0 ≤ i) then es !! Z.to_nat i else None) with
  | Some e => Ok e
  | None => Raise (ExternalError "IndexError" "no such entity")
  end.

Definition file : NsFile :=
  {| file_type := "MCD"; entity_count := 4;
     time_stamp_resolution := 1%float; time_span := 3%float;
     app_name := "MC_Rack"; comment := "";
     file_metadata_raw := <["Time_Year" := PyInt 2020]> ∅;
     get_entity := lookup_entity entities |}.

(** A recording whose second entity cannot be fetched. *)
Definition damaged_file : NsFile :=
  {| file_type := "MCD"; entity_count := 2;
     time_stamp_resolution := 1%float; time_span := 3%float;
     app_name := "MC_Rack"; comment := "";
     file_metadata_raw := ∅;
     get_entity := lookup_entity [entity "Ch1" 2 3] |}.

(** An empty recording. *)
Definition empty_file : NsFile :=
  {| file_type := "MCD"; entity_count := 0;
     time_stamp_resolution := 1%float; time_span := 0%float;
     app_name := "MC_Rack"; comment := "";
     file_metadata_raw := ∅;
     get_entity := lookup_entity [] |}.

Definition group_exists (tr : trace) (parent : list string) (name : string) : bool :=
  existsb (λ ev, match ev with
                 | EvH5 (H5CreateGroup p n) =>
                     bool_decide (p = parent) && String.eqb n name
                 | _ => false
                 end) tr.

Definition is_number (v : pyval) : bool :=
  match v with PyInt _ | PyFloat _ => true | _ => false end.

(** A Linux host with three recordings and no library file; creating
    a group twice fails, as it does in HDF5. *)
Definition exists_here (p : string) : bool :=
  String.eqb p "rec.mcd" || String.eqb p "damaged.mcd" || String.eqb p "empty.mcd".

Definition env : Env :=
  {| path_exists := exists_here;
     Path_exists := λ p, Ok (exists_here p);
     platform := "linux";
     script_dir := "/opt/mcd2dh5";
     Path_cwd := Ok "/home/user";
     stdout_write := λ _, Ok tt;
     path_join := λ a b, a +:+ "/" +:+ b;
     dirname := λ _, "";
     basename := λ p, p;
     ns_Library := λ name dir, Ok {| lib_name := name; lib_dir := dir |};
     ns_File := λ p, if String.eqb p "rec.mcd" then Ok file
                     else if String.eqb p "damaged.mcd" then Ok damaged_file
                     else if String.eqb p "empty.mcd" then Ok empty_file
                     else Raise (ExternalError "OSError" "cannot open");
     h5py_installed := true;
     h5_File := λ _, Ok tt;
     h5_exec := λ tr op,
       match op with
       | H5CreateGroup parent name =>
           if group_exists tr parent name
           then Raise (ValueError "Unable to create group (name already exists)")
           else Ok tt
       | _ => Ok tt
       end;
     np_array := λ vs, if forallb is_number vs then Ok (NdArray vs)
                       else Raise (ValueError "inhomogeneous values") |}.

(** The handle [MCDFile("rec.mcd")] returns on that host. *)
Definition handle : MCDFile :=
  {| filename := "rec.mcd";
     library_path := "/opt/mcd2dh5/Matlab-Import-Filter/Matlab_Interface/nsMCDLibrary.so";
     _lib := None; _file := Some file |}.

(** A callback that accepts every report. *)
Definition quiet : callback := λ _ _ _, Ok tt.

(** A callback that raises on the report of the entity at position 1. *)
Definition failing : callback :=
  λ current _ _, if bool_decide (current = 1)
                 then Raise (ExternalError "BrokenPipeError" "progress sink closed")
                 else Ok tt.

(** The listing entry of the fourth entity of [file]. *)
Definition aux_summary : EntitySummary :=
  {| es_id := 3; es_label := "Aux"; es_type := 5; es_type_name := "unknown";
     es_item_count := 0 |}.

(** A Windows host: the working directory holds the 32-bit library
    only, and loading it fails. *)
Definition exists_on_win (p : string) : bool :=
  String.eqb p "rec.mcd" || String.eqb p "C:/data"
  || String.eqb p "C:/data/nsMCDLibrary.dll".

Definition win_env : Env :=
  {| path_exists := exists_on_win;
     Path_exists := λ p, Ok (exists_on_win p);
     platform := "win32";
     script_dir := "C:/mcd2dh5";
     Path_cwd := Ok "C:/data";
     stdout_write := λ _, Ok tt;
     path_join := λ a b, a +:+ "/" +:+ b;
     dirname := λ _, "C:/data";
     basename := λ _, "nsMCDLibrary.dll";
     ns_Library := λ _ _, Raise (ExternalError "OSError" "not a valid Win32 application");
     ns_File := λ p, if String.eqb p "rec.mcd" then Ok file
                     else Raise (ExternalError "OSError" "cannot open");
     h5py_installed := false;
     h5_File := λ _, Ok tt;
     h5_exec := λ _ _, Ok tt;
     np_array := λ vs, Ok (NdArray vs) |}.

(** A recording with one spike-time channel of seven events. *)
Definition spikes_file : NsFile :=
  {| file_type := "MCD"; entity_count := 1;
     time_stamp_resolution := 1%float; time_span := 3%float;
     app_name := "MC_Rack"; comment := "";
     file_metadata_raw := ∅;
     get_entity := lookup_entity [entity "N1" 4 7] |}.

Definition spikes_handle : MCDFile :=
  {| filename := "spikes.mcd"; library_path := ""; _lib := None;
     _file := Some spikes_file |}.

(** A marker channel whose two events carry a number and a text: a
    list [np.array] of [env] refuses, and [np.array] of [numpy_env]
    below turns into an array of strings. *)
Definition marker_entity : NsEntity :=
  {| label := "Mark"; entity_type := 1; item_count := 2; metadata_raw := ∅;
     sample_rate := 0%float; min_value := 0%float; max_value := 0%float;
     units := ""; resolution := 0%float;
     location_x := 0%float; location_y := 0%float; location_z := 0%float;
     source_count := 0; max_sample_count := 0; event_type := 0;
     analog_get_data := λ _ _, Raise (ExternalError "AttributeError" "get_data");
     event_get_data := λ i,
       if bool_decide (i = 0) then Ok (0%float, PyInt 1)
       else if bool_decide (i = 1) then Ok (1%float, PyStr "start")
       else Raise (ExternalError "IndexError" "bad index");
     segment_get_data := λ _, Raise (ExternalError "AttributeError" "get_data");
     neural_get_data := λ _ _, Raise (ExternalError "AttributeError" "get_data") |}.

Definition markers_file : NsFile :=
  {| file_type := "MCD"; entity_count := 1;
     time_stamp_resolution := 1%float; time_span := 3%float;
     app_name := "MC_Rack"; comment := "";
     file_metadata_raw := ∅;
     get_entity := lookup_entity [marker_entity] |}.

Definition markers_handle : MCDFile :=
  {| filename := "markers.mcd"; library_path := ""; _lib := None;
     _file := Some markers_file |}.

Definition rec_converter : MCD2HDF5Converter :=
  {| mcd_filename := "rec.mcd"; hdf5_filename := "out.h5" |}.

Definition damaged_converter : MCD2HDF5Converter :=
  {| mcd_filename := "damaged.mcd"; hdf5_filename := "out.h5" |}.

(** A process whose working directory was removed: [Path.cwd()]
    raises. *)
Definition removed_cwd_env : Env :=
  {| path_exists := path_exists env;
     Path_exists := Path_exists env;
     platform := platform env;
     script_dir := script_dir env;
     Path_cwd := Raise (FileNotFoundError "[Errno 2] No such file or directory");
     stdout_write := stdout_write env;
     path_join := path_join env;
     dirname := dirname env;
     basename := basename env;
     ns_Library := ns_Library env;
     ns_File := ns_File env;
     h5py_installed := h5py_installed env;
     h5_File := h5_File env;
     h5_exec := h5_exec env;
     np_array := np_array env |}.

(** An installation whose directory may not be searched: below it
    [os.path.exists] answers [False] and [Path.exists()] raises. *)
Definition locked_env : Env :=
  {| path_exists := λ p, if String.prefix "/opt/mcd2dh5/" p then false
                         else path_exists env p;
     Path_exists := λ p, if String.prefix "/opt/mcd2dh5/" p
                         then Raise (ExternalError "PermissionError"
                                       "[Errno 13] Permission denied")
                         else Path_exists env p;
     platform := platform env;
     script_dir := script_dir env;
     Path_cwd := Path_cwd env;
     stdout_write := stdout_write env;
     path_join := path_join env;
     dirname := dirname env;
     basename := basename env;
     ns_Library := ns_Library env;
     ns_File := ns_File env;
     h5py_installed := h5py_installed env;
     h5_File := h5_File env;
     h5_exec := h5_exec env;
     np_array := np_array env |}.




End Sample.

(** ** Vocabulary of the statements *)

(** The outcome of a run of calls made one after the other, where the
    first failure ends the run. *)
Fixpoint sequence_results {A} (rs : list (result A)) : result (list A) :=
  match rs with
  | [] => Ok []
  | Ok a :: rs' => result_map (cons a) (sequence_results rs')
  | Raise e :: _ => Raise e
  end.

(** The dictionary [get_segment_data] builds from what the binding
    returned. *)
Definition segment_record (entity : NsEntity)
    (r : list (list pyfloat) * pyfloat * Z * Z) : SegmentRecord :=
  {| sg_data := r.1.1.1; sg_timestamp := r.1.1.2;
     sg_sample_count := r.1.2; sg_unit_id := r.2;
     sg_source_count := source_count entity;
     sg_sample_rate := sample_rate entity;
     sg_label := label entity |}.


(** The dictionary [list_entities] builds for the entity with
    identifier [i]. *)
Definition entity_summary (i : Z) (entity : NsEntity) : EntitySummary :=
  {| es_id := i;
     es_label := label entity;
     es_type := entity_type entity;
     es_type_name := type_name_of (entity_type entity);
     es_item_count := item_count entity |}.

(** How often [x] occurs in [l]. *)
Definition occurrences `{EqDecision A} (x : A) (l : list A) : nat :=
  length (filter (λ y, y = x) l).

(** The calls of the progress callback recorded in a trace, in
    order, each with its three arguments. *)
Definition progress_calls (tr : trace) : list (Z * Z * string) :=
  omap (λ ev, match ev with
              | EvProgress current total msg => Some (current, total, msg)
              | _ => None
              end) tr.

(** A callback that returns from every call (or no callback). *)
Definition accepts (progress_callback : option callback) : Prop :=
  match progress_callback with
  | Some cb => ∀ current total msg, cb current total msg = Ok tt
  | None => True
  end.

(** A computation that only appends to the trace, and appends no call
    of the progress callback. *)
Definition silent {A} (c : M A) : Prop :=
  ∀ tr, ∃ evs, (c tr).2 = tr ++ evs ∧ progress_calls evs = [].

(** The report in front of the conversion of [item]. *)
Definition report_of (total : Z) (item : Z * EntitySummary) : Z * Z * string :=
  (item.1, total, "Converting " +:+ es_label item.2).

(** A computation that only appends to the trace, and appends only
    events that satisfy [P]. *)
Definition only (P : event → Prop) {A} (c : M A) : Prop :=
  ∀ tr, ∃ evs, (c tr).2 = tr ++ evs ∧ Forall P evs.

(** The calls into the binding that concern the entity [entity_id]. *)
Definition reads_entity (entity_id : Z) (ev : event) : Prop :=
  ev = EvGetEntity entity_id ∨ ∃ args, ev = EvGetData entity_id args.

(** What opening a file may do: test paths, load the library, open
    the file, and, on Windows only, put a directory in front of
    [PATH]. *)
Definition opening_event (env : Env) (ev : event) : Prop :=
  match ev with
  | EvPathExists _ | EvNsLibrary _ _ | EvNsFile _ => True
  | EvPrependPath _ => platform env = "win32"
  | _ => False
  end.

(** The candidates of the library search, directory and file name,
    in the order in which the two loops visit them. *)
Definition candidates (env : Env) (paths : list string) : list (string * string) :=
  flat_map (λ search_path, pair search_path <$> lib_names env) paths.

(** A candidate is taken when its directory exists and the file exists
    in it. *)
Definition candidate_found (env : Env) (c : string * string) : bool :=
  path_exists env c.1 && path_exists env (path_join env c.1 c.2).

(** The path the caller gave is used when it is not empty and
    exists. *)
Definition explicit_usable (env : Env) (library_path : option string) : bool :=
  match library_path with
  | Some p => truthy p && path_exists env p
  | None => false
  end.

(** The path of the library when the working directory is [cwd]: the
    path the caller gave when it is usable; else the first candidate
    found; else the first name in the first directory. *)
Definition resolve_library (env : Env) (cwd : string) (library_path : option string)
  : string :=
  let searched :=
    match List.find (candidate_found env) (candidates env (search_paths env cwd)) with
    | Some c => path_join env c.1 c.2
    | None => path_join env (default "" (head (search_paths env cwd)))
                        (default "" (head (lib_names env)))
    end in
  if explicit_usable env library_path then default "" library_path else searched.

(** [Path.exists()] raises on no path: it answers what
    [os.path.exists] answers. *)
Definition Path_agrees (env : Env) : Prop :=
  ∀ p, Path_exists env p = Ok (path_exists env p).

(** The library object the handle keeps: the one [ns.Library] returned
    for the resolved path, when that path exists and the load did not
    raise. *)
Definition loaded_library (env : Env) (library_path : string) : option NsLibrary :=
  if truthy library_path && path_exists env library_path then
    match ns_Library env (basename env library_path) (dirname env library_path) with
    | Ok lib => Some lib
    | Raise _ => None
    end
  else None.

(** The five names of the type table. *)
Definition type_names : list string :=
  ["unknown"; "event"; "analog"; "segment"; "neural"].

(** How many calls of a run are made: the calls up to and including
    the first one that raises. *)
Fixpoint attempted {A} (rs : list (result A)) : nat :=
  match rs with
  | [] => 0
  | Ok _ :: rs' => S (attempted rs')
  | Raise _ :: _ => 1
  end.

(** The dictionary [get_analog_data] builds from what the binding
    returned. *)
Definition analog_record (entity : NsEntity)
    (r : list pyfloat * list pyfloat * Z) : AnalogRecord :=
  {| an_data := r.1.1;
     an_timestamps := r.1.2;
     an_continuous_count := r.2;
     an_sample_rate := sample_rate entity;
     an_units := units entity;
     an_label := label entity;
     an_metadata := {| am_min_value := min_value entity;
                       am_max_value := max_value entity;
                       am_resolution := resolution entity;
                       am_location_x := location_x entity;
                       am_location_y := location_y entity;
                       am_location_z := location_z entity |} |}.

(** The entries an entity detail shares with the listing. *)
Definition detail_summary (d : EntityDetail) : EntitySummary :=
  {| es_id := ed_id d; es_label := ed_label d; es_type := ed_type d;
     es_type_name := ed_type_name d; es_item_count := ed_item_count d |}.

(** Reading a decimal numeral back, as [int(s)] does for a string of
    digits. *)
Definition parse_nat (s : string) : option nat :=
  Nat.of_uint <$> NilZero.uint_of_string s.

(** The characters of a string. *)
Definition chars (s : string) : list ascii := list_ascii_of_string s.

(** A [str] of ASCII characters only: on such a string [lower] is
    [str.lower]. *)
Definition is_ascii (s : string) : bool :=
  forallb (λ c, (nat_of_ascii c <? 128)%nat) (chars s).

(** ** The grouping loop of [example_comprehensive_analysis]

    [entities_by_type[etype].append(entity)], after
    [entities_by_type[etype] = []] for a type name seen for the first
    time. *)
Definition group_step (entities_by_type : gmap string (list EntitySummary))
    (entity : EntitySummary) : gmap string (list EntitySummary) :=
  let etype := es_type_name entity in
  let entities_by_type :=
    match entities_by_type !! etype with
    | None => <[etype := []]> entities_by_type
    | Some _ => entities_by_type
    end in
  match entities_by_type !! etype with
  | Some l => <[etype := l ++ [entity]]> entities_by_type
  | None => entities_by_type
  end.

Definition group_by_type_name (entities : list EntitySummary)
  : gmap string (list EntitySummary) :=
  foldl group_step ∅ entities.

(** A dictionary entry that exists only for a non-empty list. *)
Definition nonempty {A} (l : list A) : option (list A) :=
  match l with [] => None | _ => Some l end.

(** Events that are not a call of [ns.File]. *)
Definition not_ns_file (ev : event) : Prop := ∀ p, ev ≠ EvNsFile p.

(** A standard output that takes every line. *)
Definition prints (env : Env) : Prop := ∀ line, stdout_write env line = Ok tt.

(** The guarded region of the conversion loop with its handler, for
    the listing entry [entity_info]:
    [try: <read and write the entity>  except Exception as e: print(...)]. *)
Definition guarded_region (env : Env) (mcd : MCDFile) (entity_info : EntitySummary)
  : M unit :=
  try_except
    (write_entity env mcd (es_id entity_info) (es_type entity_info)
       (replace_slash (es_label entity_info)))
    (λ e, print env (warning (replace_slash (es_label entity_info)) e)).

(** The trace after the conversion of [items], one after the other:
    for each item the progress report, and then its guarded region
    run from there. *)
Definition converted (env : Env) (mcd : MCDFile) (progress_callback : option callback)
    (total : Z) (items : list (Z * EntitySummary)) (tr : trace) : trace :=
  foldl (λ tr item,
           (guarded_region env mcd item.2
              (report progress_callback item.1 total
                 ("Converting " +:+ es_label item.2) tr).2).2)
        tr items.

(** * Properties *)

(** ** Running computations *)

Lemma bind_ok {A B} (c : M A) (k : A → M B) tr a tr' :
  c tr = (Ok a, tr') → bind c k tr = k a tr'.
Proof. intros H. unfold bind. by rewrite H. Qed.

Lemma bind_raise {A B} (c : M A) (k : A → M B) tr e tr' :
  c tr = (Raise e, tr') → bind c k tr = (Raise e, tr').
Proof. intros H. unfold bind. by rewrite H. Qed.

Lemma require_open_closed self tr :
  _file self = None → require_open self tr = (Raise NotOpen, tr).
Proof. intros H. unfold require_open. by rewrite H. Qed.

Lemma require_open_open self f tr :
  _file self = Some f → require_open self tr = (Ok f, tr).
Proof. intros H. unfold require_open. by rewrite H. Qed.

Lemma check_type_same entity entity_id expected kind tr :
  entity_type entity = expected →
  check_type entity entity_id expected kind tr = (Ok tt, tr).
Proof.
  intros H. unfold check_type.
  rewrite bool_decide_eq_false_2; [done | by intros Hne].
Qed.

Lemma check_type_other entity entity_id expected kind tr :
  entity_type entity ≠ expected →
  check_type entity entity_id expected kind tr = (Raise (TypeMismatch entity_id kind), tr).
Proof. intros H. unfold check_type. by rewrite bool_decide_eq_true_2. Qed.

(** What every typed accessor does first on an open file: fetch the
    entity, which is the only external call so far. *)
Lemma fetch_entity self f entity entity_id tr {B} (k : NsEntity → M B) :
  _file self = Some f → get_entity f entity_id = Ok entity →
  (f' <- require_open self ;; entity' <- ns_get_entity f' entity_id ;; k entity') tr
  = k entity (tr ++ [EvGetEntity entity_id]).
Proof.
  intros Hf He.
  rewrite (bind_ok _ _ _ _ _ (require_open_open _ _ _ Hf)).
  unfold ns_get_entity. erewrite bind_ok; [done |]. unfold call. by rewrite He.
Qed.

(** ** Closing *)

Lemma close_file_None self : _file (close self) = None.
Proof. destruct self as [fn lp l [f|]]; reflexivity. Qed.

Lemma close_lib_None self : _lib (close self) = None.
Proof. done. Qed.

Lemma close_close self : close (close self) = close self.
Proof. destruct self as [fn lp l [f|]]; reflexivity. Qed.

(** C6.  [close] is a total function of the object state: it calls
    nothing and raises nothing.  Whatever the state of the handle and
    however often [close] has been called (at least once), the handle
    is closed ([_file] and [_lib] are [None]), one more [close] changes
    nothing, and each of the eight read operations raises
    [RuntimeError("File is not open")] without any external call. *)
Theorem close_idempotent_then_NotOpen
    (env : Env) (self : MCDFile) (n : nat) (tr : trace)
    (entity_id index start_index count : Z) :
  let closed := Nat.iter (S n) close self in
  close closed = closed
  ∧ _file closed = None ∧ _lib closed = None
  ∧ info closed tr = (Raise NotOpen, tr)
  ∧ list_entities closed tr = (Raise NotOpen, tr)
  ∧ get_entity_info closed entity_id tr = (Raise NotOpen, tr)
  ∧ get_analog_data closed entity_id start_index count tr = (Raise NotOpen, tr)
  ∧ get_event_data env closed entity_id tr = (Raise NotOpen, tr)
  ∧ get_segment_data closed entity_id index tr = (Raise NotOpen, tr)
  ∧ get_all_segments closed entity_id tr = (Raise NotOpen, tr)
  ∧ get_neural_data closed entity_id start_index count tr = (Raise NotOpen, tr).
Proof.
  intros closed.
  assert (Hc : _file closed = None) by apply close_file_None.
  split; [apply close_close |].
  split; [exact Hc |]. split; [reflexivity |].
  repeat split;
    (eapply bind_raise; by apply require_open_closed).
Qed.

(** ** Opening *)

(** C5.  When the path does not exist, constructing the accessor
    raises [FileNotFoundError]; the trace grows by the existence test
    of the path itself and by nothing else, so neither the library
    search nor [ns.Library] nor [ns.File] has been called. *)
Theorem open_missing_path_NotFound
    (env : Env) (filename : string) (library_path : option string) (tr : trace) :
  path_exists env filename = false →
  MCDFile_init env filename library_path tr
  = (Raise (NotFound filename), tr ++ [EvPathExists filename]).
Proof.
  intros H. unfold MCDFile_init, os_path_exists, bind, call. by rewrite H.
Qed.

Lemma open_missing_path_NotFound_witness :
  path_exists Sample.env "missing.mcd" = false
  ∧ MCDFile_init Sample.env "missing.mcd" (Some "/usr/lib/nsMCDLibrary.so") []
    = (Raise (FileNotFoundError "MCD file not found: missing.mcd"),
       [EvPathExists "missing.mcd"]).
Proof.
  split; [reflexivity |].
  apply (open_missing_path_NotFound Sample.env "missing.mcd"). reflexivity.
Defined.

(** ** Typed accessors *)

(** C2.  On an open file, a typed accessor called on an entity whose
    type is not the accessor's raises the [ValueError] of the type
    check; the trace grows by the fetch of the entity only, so no
    [get_data] call has been made. *)
Theorem typed_accessor_mismatch
    (env : Env) (self : MCDFile) (f : NsFile) (entity : NsEntity)
    (entity_id : Z) (tr : trace) :
  _file self = Some f →
  get_entity f entity_id = Ok entity →
  (entity_type entity ≠ ENTITY_ANALOG →
   ∀ start_index count,
     get_analog_data self entity_id start_index count tr
     = (Raise (TypeMismatch entity_id "an analog"), tr ++ [EvGetEntity entity_id]))
  ∧ (entity_type entity ≠ ENTITY_EVENT →
     get_event_data env self entity_id tr
     = (Raise (TypeMismatch entity_id "an event"), tr ++ [EvGetEntity entity_id]))
  ∧ (entity_type entity ≠ ENTITY_SEGMENT →
     ∀ index,
       get_segment_data self entity_id index tr
       = (Raise (TypeMismatch entity_id "a segment"), tr ++ [EvGetEntity entity_id]))
  ∧ (entity_type entity ≠ ENTITY_SEGMENT →
     get_all_segments self entity_id tr
     = (Raise (TypeMismatch entity_id "a segment"), tr ++ [EvGetEntity entity_id]))
  ∧ (entity_type entity ≠ ENTITY_NEURAL →
     ∀ start_index count,
       get_neural_data self entity_id start_index count tr
       = (Raise (TypeMismatch entity_id "a neural"), tr ++ [EvGetEntity entity_id])).
Proof.
  intros Hf He.
  repeat split; intros Hty; intros;
    (unfold get_analog_data, get_event_data, get_segment_data,
       get_all_segments, get_neural_data;
     rewrite (fetch_entity _ _ _ _ _ _ Hf He);
     eapply bind_raise; by apply check_type_other).
Qed.

(** ** Loops *)

Lemma sequence_results_Ok {A} (rs : list (result A)) (l : list A) :
  sequence_results rs = Ok l ↔ rs = Ok <$> l.
Proof.
  revert l. induction rs as [|[a|e] rs IH]; intros l; simpl.
  - split; [intros [= <-]; done | by destruct l].
  - destruct (sequence_results rs) as [l'|e] eqn:E; simpl.
    + split.
      * intros [= <-]. simpl. f_equal. by apply IH.
      * destruct l as [|b l]; [done |]. intros [= -> H]. f_equal. f_equal.
        apply IH in H. congruence.
    + split; [done |]. destruct l as [|b l]; [done |]. intros [= -> H].
      apply IH in H. congruence.
  - split; [done | by destruct l].
Qed.

Lemma sequence_results_is_ok {A} (rs : list (result A)) :
  Forall (λ r, is_ok r = true) rs → is_ok (sequence_results rs) = true.
Proof.
  induction 1 as [|[a|e] rs Hr _ IH]; simpl; [done | | done].
  by destruct (sequence_results rs).
Qed.

(** A collecting loop whose body returns the same outcome whatever
    has happened before returns the run of those outcomes. *)
Lemma for_collect_results {A B} (body : A → M B) (g : A → result B) xs tr :
  (∀ x tr', (body x tr').1 = g x) →
  (for_collect xs body tr).1 = sequence_results (g <$> xs).
Proof.
  intros Hb. revert tr. induction xs as [|x xs IH]; intros tr; [done |].
  rewrite fmap_cons. cbn [for_collect sequence_results].
  unfold bind at 1. specialize (Hb x tr).
  destruct (body x tr) as [[y|e] tr1]; cbn [fst] in Hb; rewrite <- Hb; [| done].
  unfold bind. specialize (IH tr1).
  destruct (for_collect xs body tr1) as [[ys|e] tr2]; cbn [fst] in IH;
    by rewrite <- IH.
Qed.

Lemma range_length n : length (range n) = n.
Proof. unfold range. by rewrite length_fmap, length_seq. Qed.

Lemma range_lookup n i : (i < n)%nat → range n !! i = Some (Z.of_nat i).
Proof.
  intros H. unfold range. rewrite list_lookup_fmap, lookup_seq_lt; done.
Qed.

(** ** Segments *)

(** What [get_segment_data] does on a segment entity of an open file:
    one fetch of the entity, one read, and the outcome of the read. *)
Lemma get_segment_data_run self f entity entity_id index tr :
  _file self = Some f →
  get_entity f entity_id = Ok entity →
  entity_type entity = ENTITY_SEGMENT →
  get_segment_data self entity_id index tr
  = (result_map (segment_record entity) (segment_get_data entity index),
     tr ++ [EvGetEntity entity_id; EvGetData entity_id [index]]).
Proof.
  intros Hf He Hty. unfold get_segment_data.
  rewrite (fetch_entity _ _ _ _ _ _ Hf He).
  rewrite (bind_ok _ _ _ _ _ (check_type_same _ _ _ _ _ Hty)).
  unfold bind, call. rewrite <- app_assoc. simpl.
  by destruct (segment_get_data entity index) as [[[[d t] sc] u]|e].
Qed.

(** C4.  On a segment entity of an open file, [get_all_segments] is
    the loop of [get_segment_data] over the indices 0, 1, ...,
    [item_count - 1] in this order: its outcome is the run of the
    outcomes of these calls; when it returns, the list has exactly
    [item_count] records and the record at position [i] is the one
    [get_segment_data] returns for index [i]; and it returns whenever
    each of these calls returns. *)
Theorem get_all_segments_spec
    (self : MCDFile) (f : NsFile) (entity : NsEntity) (entity_id : Z) (tr : trace) :
  _file self = Some f →
  get_entity f entity_id = Ok entity →
  entity_type entity = ENTITY_SEGMENT →
  let n := item_count entity in
  get_all_segments self entity_id tr
  = for_collect (range n) (get_segment_data self entity_id) (tr ++ [EvGetEntity entity_id])
  ∧ (get_all_segments self entity_id tr).1
    = sequence_results ((λ i, (get_segment_data self entity_id i tr).1) <$> range n)
  ∧ (∀ segs, (get_all_segments self entity_id tr).1 = Ok segs →
       length segs = n
       ∧ ∀ i, (i < n)%nat →
           ∃ seg, segs !! i = Some seg
                  ∧ (get_segment_data self entity_id (Z.of_nat i) tr).1 = Ok seg)
  ∧ ((∀ i, (i < n)%nat →
        is_ok (get_segment_data self entity_id (Z.of_nat i) tr).1 = true) →
     is_ok (get_all_segments self entity_id tr).1 = true).
Proof.
  intros Hf He Hty n.
  assert (Hloop : get_all_segments self entity_id tr
    = for_collect (range n) (get_segment_data self entity_id)
        (tr ++ [EvGetEntity entity_id])).
  { unfold get_all_segments. rewrite (fetch_entity _ _ _ _ _ _ Hf He).
    by rewrite (bind_ok _ _ _ _ _ (check_type_same _ _ _ _ _ Hty)). }
  assert (Hres : (get_all_segments self entity_id tr).1
    = sequence_results ((λ i, (get_segment_data self entity_id i tr).1) <$> range n)).
  { rewrite Hloop. apply for_collect_results. intros i tr'.
    by rewrite !(get_segment_data_run _ _ _ _ _ _ Hf He Hty). }
  split; [exact Hloop |]. split; [exact Hres |]. split.
  - intros segs Hs. rewrite Hres in Hs. apply sequence_results_Ok in Hs.
    assert (Hlen : length segs = n).
    { apply (f_equal length) in Hs. rewrite !length_fmap, range_length in Hs. done. }
    split; [exact Hlen |]. intros i Hi.
    destruct (lookup_lt_is_Some_2 segs i) as [seg Hseg]; [lia |].
    exists seg. split; [done |].
    apply (f_equal (λ l, l !! i)) in Hs.
    rewrite !list_lookup_fmap, range_lookup, Hseg in Hs by done.
    simpl in Hs. congruence.
  - intros Hall. rewrite Hres. apply sequence_results_is_ok.
    apply Forall_fmap, Forall_lookup_2. intros i x Hx. simpl.
    assert (Hi : (i < n)%nat).
    { apply lookup_lt_Some in Hx. by rewrite range_length in Hx. }
    rewrite range_lookup in Hx by done. injection Hx as <-. by apply Hall.
Qed.

(** C3 (as amended).  [get_segment_data] never compares [index] with
    [item_count]: on a segment entity of an open file it fetches the
    entity, passes [index] to the segment reader of the binding, and
    returns or fails as that read does; an exception of the reader
    (such as the one a binding raises for an index past the last
    item) reaches the caller unchanged. *)
Theorem get_segment_data_index_delegated
    (self : MCDFile) (f : NsFile) (entity : NsEntity) (entity_id index : Z)
    (tr : trace) :
  _file self = Some f →
  get_entity f entity_id = Ok entity →
  entity_type entity = ENTITY_SEGMENT →
  get_segment_data self entity_id index tr
  = (result_map (segment_record entity) (segment_get_data entity index),
     tr ++ [EvGetEntity entity_id; EvGetData entity_id [index]])
  ∧ (∀ e, segment_get_data entity index = Raise e →
          (get_segment_data self entity_id index tr).1 = Raise e)
  ∧ (∀ r, segment_get_data entity index = Ok r →
          (get_segment_data self entity_id index tr).1 = Ok (segment_record entity r)).
Proof.
  intros Hf He Hty.
  rewrite (get_segment_data_run _ _ _ _ _ _ Hf He Hty).
  split; [done |]. split; intros x Hx; simpl; by rewrite Hx.
Qed.

(** ** Events *)

Lemma event_step_run entity entity_id acc i tr :
  event_step entity entity_id acc i tr
  = match event_get_data entity i with
    | Ok tv => (Ok (<[Z.to_nat i := tv.1]> acc.1, acc.2 ++ [tv.2]),
                tr ++ [EvGetData entity_id [i]])
    | Raise e => (Raise e, tr ++ [EvGetData entity_id [i]])
    end.
Proof.
  unfold event_step, bind, call.
  by destruct (event_get_data entity i) as [[t v]|e].
Qed.



(** ** Listing and filtering *)

Lemma list_entities_run self f tr :
  _file self = Some f →
  (list_entities self tr).1
  = sequence_results
      ((λ i, result_map (entity_summary i) (get_entity f i)) <$> range (entity_count f)).
Proof.
  intros Hf. unfold list_entities.
  rewrite (bind_ok _ _ _ _ _ (require_open_open _ _ _ Hf)).
  apply for_collect_results. intros i tr'.
  unfold ns_get_entity, bind, call, entity_summary.
  by destruct (get_entity f i).
Qed.

Lemma list_entities_open self tr es :
  (list_entities self tr).1 = Ok es → ∃ f, _file self = Some f.
Proof.
  destruct (_file self) as [f|] eqn:Hf; [by eexists |].
  unfold list_entities. by rewrite (bind_raise _ _ _ _ _ (require_open_closed _ _ Hf)).
Qed.

(** The listing has one summary per identifier, in identifier order,
    and the type name of a summary is the table entry of its type. *)
Lemma list_entities_shape self tr es :
  (list_entities self tr).1 = Ok es →
  es_id <$> es = range (length es)
  ∧ Forall (λ e, es_type_name e = type_name_of (es_type e)) es.
Proof.
  intros Hes. destruct (list_entities_open _ _ _ Hes) as [f Hf].
  rewrite (list_entities_run _ _ _ Hf) in Hes. apply sequence_results_Ok in Hes.
  assert (Hlen : length es = entity_count f).
  { apply (f_equal length) in Hes. rewrite !length_fmap, range_length in Hes. done. }
  assert (Hi : ∀ i e, es !! i = Some e →
            es_id e = Z.of_nat i ∧ es_type_name e = type_name_of (es_type e)).
  { intros i e He. pose proof (lookup_lt_Some _ _ _ He) as Hlt.
    apply (f_equal (λ l, l !! i)) in Hes.
    rewrite !list_lookup_fmap, range_lookup, He in Hes by lia. simpl in Hes.
    destruct (get_entity f (Z.of_nat i)) as [entity|]; simplify_eq/=. done. }
  split.
  - apply list_eq. intros i. rewrite list_lookup_fmap.
    destruct (es !! i) as [e|] eqn:He; simpl.
    + rewrite range_lookup by (by eapply lookup_lt_Some).
      f_equal. by apply (Hi i e).
    + symmetry. apply lookup_ge_None. rewrite range_length.
      by apply lookup_ge_None.
  - apply Forall_lookup_2. intros i e He. by apply (Hi i e).
Qed.

Lemma range_NoDup n : NoDup (range n).
Proof. unfold range. apply NoDup_fmap_2; [apply _ | apply NoDup_seq]. Qed.

Lemma list_entities_NoDup self tr es :
  (list_entities self tr).1 = Ok es → NoDup es.
Proof.
  intros Hes. apply (NoDup_fmap_1 es_id).
  destruct (list_entities_shape _ _ _ Hes) as [-> _]. apply range_NoDup.
Qed.

Lemma occurrences_NoDup `{EqDecision A} (x : A) (l : list A) :
  NoDup l → x ∈ l → occurrences x l = 1%nat.
Proof.
  unfold occurrences. induction 1 as [|y l Hy Hl IH]; intros Hx.
  - by apply not_elem_of_nil in Hx.
  - destruct (decide (y = x)) as [->|Hne].
    + rewrite filter_cons_True by done. simpl. f_equal.
      destruct (filter (λ y, y = x) l) as [|z l'] eqn:E; [done |].
      assert (Hz : z ∈ filter (λ y, y = x) l) by (rewrite E; left).
      apply list_elem_of_filter in Hz as [-> Hz]. done.
    + rewrite filter_cons_False by done. apply IH.
      apply elem_of_cons in Hx as [->|Hx]; done.
Qed.

(** Every type code of the table is found again under its own name. *)
Lemma type_map_name_of (t : Z) :
  0 ≤ t ≤ 4 → type_map !! lower (type_name_of t) = Some t.
Proof.
  intros Ht.
  assert (t = 0 ∨ t = 1 ∨ t = 2 ∨ t = 3 ∨ t = 4) as [->|[->|[->|[->| ->]]]] by lia;
    by vm_compute.
Qed.

Lemma sequence_results_Raise {A} (rs : list (result A)) e :
  sequence_results rs = Raise e → Raise e ∈ rs.
Proof.
  induction rs as [|[a|e'] rs IH]; simpl; [done | |].
  - destruct (sequence_results rs); [done |]. intros [= ->]. right. by apply IH.
  - intros [= ->]. left.
Qed.

(** [list_entities] raises on a closed handle, or what [get_entity]
    raised. *)
Lemma list_entities_raises self tr e :
  (list_entities self tr).1 = Raise e →
  (_file self = None ∧ e = NotOpen)
  ∨ ∃ f i, _file self = Some f ∧ get_entity f i = Raise e.
Proof.
  intros Hl. destruct (_file self) as [f|] eqn:Hf.
  - right. exists f. rewrite (list_entities_run _ _ _ Hf) in Hl.
    apply sequence_results_Raise, list_elem_of_fmap in Hl as (i & Hi & _).
    exists i. split; [done |]. destruct (get_entity f i); simpl in Hi; congruence.
  - left. unfold list_entities in Hl.
    rewrite (bind_raise _ _ _ _ _ (require_open_closed _ _ Hf)) in Hl.
    by injection Hl as <-.
Qed.

Lemma get_entities_by_type_run self (t : Z) (c : M Z) tr :
  c tr = (Ok t, tr) →
  (type_num <- c ;; all_entities <- list_entities self ;;
   ret (filter (λ e, es_type e = type_num) all_entities)) tr
  = (result_map (filter (λ e, es_type e = t)) (list_entities self tr).1,
     (list_entities self tr).2).
Proof.
  intros Hc. rewrite (bind_ok _ _ _ _ _ Hc). unfold bind, ret.
  by destruct (list_entities self tr) as [[es|e] tr'].
Qed.

(** C9.  Called with a number, [get_entities_by_type] performs no
    validation: for every integer [t], in the table or not, it is
    [list_entities] followed by the filter on [type == t].  Hence it
    raises only what [list_entities] raises, which is the
    [RuntimeError] of a closed handle or an exception of the binding's
    [get_entity], never the [ValueError] of an unrecognised name; and
    when the listing returns it returns exactly the listed entities of
    type [t], in listing order: the empty list when there is none. *)
Theorem get_entities_by_type_code (self : MCDFile) (t : Z) (tr : trace) :
  get_entities_by_type self (TypeCode t) tr
  = (result_map (filter (λ e, es_type e = t)) (list_entities self tr).1,
     (list_entities self tr).2)
  ∧ (∀ e, (get_entities_by_type self (TypeCode t) tr).1 = Raise e →
          (list_entities self tr).1 = Raise e
          ∧ ((_file self = None ∧ e = NotOpen)
             ∨ ∃ f i, _file self = Some f ∧ get_entity f i = Raise e))
  ∧ (∀ es, (list_entities self tr).1 = Ok es →
       ∃ members,
         (get_entities_by_type self (TypeCode t) tr).1 = Ok members
         ∧ members = filter (λ e, es_type e = t) es
         ∧ (∀ m, m ∈ members ↔ m ∈ es ∧ es_type m = t)
         ∧ sublist members es
         ∧ ((∀ m, m ∈ es → es_type m ≠ t) → members = [])).
Proof.
  assert (Hrun := get_entities_by_type_run self t (ret t) tr eq_refl).
  change (get_entities_by_type self (TypeCode t) tr
          = (result_map (filter (λ e, es_type e = t)) (list_entities self tr).1,
             (list_entities self tr).2)) in Hrun.
  split; [exact Hrun |]. rewrite Hrun. cbn [fst]. split.
  - intros e He.
    assert (Hl : (list_entities self tr).1 = Raise e)
      by (by destruct ((list_entities self tr).1)).
    split; [exact Hl |]. by apply list_entities_raises in Hl.
  - intros es ->. eexists. split; [done |]. split; [done |]. split; [| split].
    + intros m. rewrite list_elem_of_filter. tauto.
    + apply sublist_filter.
    + intros Hnone. destruct (filter _ es) as [|m l] eqn:E; [done |].
      assert (Hm : m ∈ filter (λ e, es_type e = t) es) by (rewrite E; left).
      apply list_elem_of_filter in Hm as [Hty Hm]. by apply Hnone in Hm.
Qed.

(** C1 (as amended).  For every entity [e] of the listing of an open
    file whose type code is one of the table (0 to 4), the call
    [get_entities_by_type(e.type_name)] returns the listed entities
    of the type of [e]: [e] occurs in it exactly once, every member
    has the type (and the type name) of [e], and the members come in
    the order of the listing, which is the order of the identifiers
    0, 1, 2, ... *)
Theorem get_entities_by_type_name_of_listed
    (self : MCDFile) (tr : trace) (es : list EntitySummary) (e : EntitySummary) :
  (list_entities self tr).1 = Ok es →
  e ∈ es →
  0 ≤ es_type e ≤ 4 →
  ∃ members,
    get_entities_by_type self (TypeName (es_type_name e)) tr
    = (Ok members, (list_entities self tr).2)
    ∧ members = filter (λ m, es_type m = es_type e) es
    ∧ occurrences e members = 1%nat
    ∧ Forall (λ m, es_type m = es_type e ∧ es_type_name m = es_type_name e) members
    ∧ sublist members es
    ∧ es_id <$> es = range (length es).
Proof.
  intros Hes He Ht.
  destruct (list_entities_shape _ _ _ Hes) as [Hids Hnames].
  assert (Hname : es_type_name e = type_name_of (es_type e)).
  { by apply (proj1 (Forall_forall _ _) Hnames). }
  exists (filter (λ m, es_type m = es_type e) es). split; [| split; [done |]].
  - unfold get_entities_by_type.
    erewrite get_entities_by_type_run; [by rewrite Hes |].
    by rewrite Hname, (type_map_name_of _ Ht).
  - split; [| split; [| split; [apply sublist_filter | done]]].
    + apply occurrences_NoDup.
      * apply NoDup_filter. by eapply list_entities_NoDup.
      * by apply list_elem_of_filter.
    + apply Forall_forall. intros m Hm.
      apply list_elem_of_filter in Hm as [Hty Hm]. split; [done |].
      rewrite Hname, <- Hty. by apply (proj1 (Forall_forall _ _) Hnames).
Qed.

(** ** The converter: failures of single entities *)

Lemma report_accepted progress_callback current total msg tr :
  accepts progress_callback →
  (report progress_callback current total msg tr).1 = Ok tt.
Proof.
  destruct progress_callback as [cb|]; [| done]. intros Hcb.
  unfold report, call. by rewrite Hcb.
Qed.

(** An iteration of the loop is the progress report followed by the
    guarded region. *)
Lemma convert_entity_run env mcd progress_callback total item tr :
  convert_entity env mcd progress_callback total item tr
  = match report progress_callback item.1 total
            ("Converting " +:+ es_label item.2) tr with
    | (Ok _, tr0) => guarded_region env mcd item.2 tr0
    | (Raise e, tr0) => (Raise e, tr0)
    end.
Proof. reflexivity. Qed.

(** What the guarded region does with an exception: it prints the
    warning, and returns if the printing does. *)
Lemma guarded_region_run env mcd entity_info tr :
  guarded_region env mcd entity_info tr
  = match write_entity env mcd (es_id entity_info) (es_type entity_info)
            (replace_slash (es_label entity_info)) tr with
    | (Ok u, tr1) => (Ok u, tr1)
    | (Raise e, tr1) =>
        (stdout_write env (warning (replace_slash (es_label entity_info)) e),
         tr1 ++ [EvPrint (warning (replace_slash (es_label entity_info)) e)])
    end.
Proof. reflexivity. Qed.

Lemma guarded_region_ok env mcd entity_info tr :
  prints env → (guarded_region env mcd entity_info tr).1 = Ok tt.
Proof.
  intros Hprint. rewrite guarded_region_run.
  destruct (write_entity _ _ _ _ _ _) as [[[]|e] tr1]; [done |]. apply Hprint.
Qed.

Lemma convert_entity_ok env mcd progress_callback total item tr :
  accepts progress_callback → prints env →
  convert_entity env mcd progress_callback total item tr
  = (Ok tt,
     (guarded_region env mcd item.2
        (report progress_callback item.1 total
           ("Converting " +:+ es_label item.2) tr).2).2).
Proof.
  intros Hcb Hprint. rewrite convert_entity_run.
  pose proof (report_accepted _ item.1 total
                ("Converting " +:+ es_label item.2) tr Hcb) as Hr.
  destruct (report _ _ _ _ tr) as [[[]|e] tr0]; [| done]. cbn [snd].
  pose proof (guarded_region_ok env mcd item.2 tr0 Hprint) as Hg.
  destruct (guarded_region env mcd item.2 tr0) as [r tr1]. simpl in Hg. by subst r.
Qed.

Lemma convert_loop_run env mcd progress_callback total items tr :
  accepts progress_callback → prints env →
  for_each items (convert_entity env mcd progress_callback total) tr
  = (Ok tt, converted env mcd progress_callback total items tr).
Proof.
  intros Hcb Hprint. revert tr.
  induction items as [|item items IH]; intros tr; [done |].
  cbn [for_each]. unfold converted. cbn [foldl]. unfold bind.
  rewrite convert_entity_ok by done. apply IH.
Qed.

(** An [__exit__] that cannot raise leaves the outcome of the body
    as it is. *)
Lemma with_exit_result {A} (body : M A) (exit : M unit) tr :
  (∀ tr', (exit tr').1 = Ok tt) → (with_exit body exit tr).1 = (body tr).1.
Proof.
  intros Hexit. unfold with_exit. destruct (body tr) as [[a|e] tr1];
    specialize (Hexit tr1); by destruct (exit tr1) as [[[]|e'] tr2].
Qed.

Lemma convert_body_run env mcd progress_callback tr :
  convert_body env mcd progress_callback tr
  = match write_header env mcd tr with
    | (Raise e, tr1) => (Raise e, tr1)
    | (Ok _, tr1) =>
        match list_entities mcd tr1 with
        | (Raise e, tr2) => (Raise e, tr2)
        | (Ok entities, tr2) =>
            let total := Z.of_nat (length entities) in
            match for_each (enumerate entities)
                    (convert_entity env mcd progress_callback total) tr2 with
            | (Raise e, tr3) => (Raise e, tr3)
            | (Ok _, tr3) => report progress_callback total total "Conversion complete" tr3
            end
        end
    end.
Proof. reflexivity. Qed.

Lemma convert_run env self progress_callback tr :
  convert env self progress_callback tr
  = match import_h5py env tr with
    | (Raise e, tr1) => (Raise e, tr1)
    | (Ok _, tr1) =>
        match MCDFile_init env (mcd_filename self) None tr1 with
        | (Raise e, tr2) => (Raise e, tr2)
        | (Ok mcd, tr2) =>
            match h5_File env (hdf5_filename self) with
            | Raise e => (Raise e, tr2 ++ [EvH5Open (hdf5_filename self)])
            | Ok _ =>
                ((convert_body env mcd progress_callback
                    (tr2 ++ [EvH5Open (hdf5_filename self)])).1,
                 (convert_body env mcd progress_callback
                    (tr2 ++ [EvH5Open (hdf5_filename self)])).2 ++ [EvH5Close])
            end
        end
    end.
Proof.
  unfold convert, bind at 1.
  destruct (import_h5py env tr) as [[[]|e] tr1]; [| done].
  unfold bind at 1.
  destruct (MCDFile_init env (mcd_filename self) None tr1) as [[mcd|e] tr2]; [| done].
  unfold with_exit, bind, call, emit, ret.
  destruct (h5_File env (hdf5_filename self)) as [[]|e]; [| done].
  by destruct (convert_body env mcd progress_callback _) as [[[]|e] tr3].
Qed.

(** C7 (as amended).  The guarded region of the conversion loop is
    the typed read of the entity together with its serialisation.

    - An exception raised in the guarded region is caught and the
      warning naming the entity is printed; the region then returns,
      unless the printing itself raises.
    - An iteration is the progress report followed by the guarded
      region; an exception of the callback ends the iteration before
      anything is read or written.
    - In [convert], the loop goes on with the next entity after every
      iteration that returned, and ends with the first iteration that
      raised, be it in the callback or in the printing of the warning;
      the body of [convert] is the header, the listing, this loop over
      all the listed entities in order and the final report, and each
      of the four can end it.
    - When the callback returns and [print] works, every iteration
      returns: the loop then runs the report and the guarded region of
      every listed entity, in listing order, whatever the guarded
      regions raised, and the body fails only in the header or in the
      listing.
    - [convert] itself fails in the import of the writer, in the
      opening of the source, in the opening of the container, or as
      its body does, and closes the container after the body. *)
Theorem convert_entity_failures_contained
    (env : Env) (progress_callback : option callback) :
  (∀ mcd entity_info tr,
     let label := replace_slash (es_label entity_info) in
     guarded_region env mcd entity_info tr
     = match write_entity env mcd (es_id entity_info) (es_type entity_info) label tr with
       | (Ok u, tr1) => (Ok u, tr1)
       | (Raise e, tr1) =>
           (stdout_write env (warning label e), tr1 ++ [EvPrint (warning label e)])
       end)
  ∧ (∀ mcd total item tr,
       convert_entity env mcd progress_callback total item tr
       = match report progress_callback item.1 total
               ("Converting " +:+ es_label item.2) tr with
         | (Ok _, tr0) => guarded_region env mcd item.2 tr0
         | (Raise e, tr0) => (Raise e, tr0)
         end)
  ∧ (∀ mcd tr,
       convert_body env mcd progress_callback tr
       = match write_header env mcd tr with
         | (Raise e, tr1) => (Raise e, tr1)
         | (Ok _, tr1) =>
             match list_entities mcd tr1 with
             | (Raise e, tr2) => (Raise e, tr2)
             | (Ok entities, tr2) =>
                 let total := Z.of_nat (length entities) in
                 match for_each (enumerate entities)
                         (convert_entity env mcd progress_callback total) tr2 with
                 | (Raise e, tr3) => (Raise e, tr3)
                 | (Ok _, tr3) =>
                     report progress_callback total total "Conversion complete" tr3
                 end
             end
         end)
  ∧ (∀ mcd total item items tr,
       for_each (item :: items) (convert_entity env mcd progress_callback total) tr
       = match convert_entity env mcd progress_callback total item tr with
         | (Ok _, tr1) =>
             for_each items (convert_entity env mcd progress_callback total) tr1
         | (Raise e, tr1) => (Raise e, tr1)
         end)
  ∧ (∀ mcd total item items tr e,
       (report progress_callback item.1 total
          ("Converting " +:+ es_label item.2) tr).1 = Raise e
       ∨ (convert_entity env mcd progress_callback total item tr).1 = Raise e →
       (for_each (item :: items) (convert_entity env mcd progress_callback total) tr).1
       = Raise e)
  ∧ (accepts progress_callback → prints env →
     (∀ mcd total items tr,
        for_each items (convert_entity env mcd progress_callback total) tr
        = (Ok tt, converted env mcd progress_callback total items tr))
     ∧ (∀ mcd tr,
          convert_body env mcd progress_callback tr
          = match write_header env mcd tr with
            | (Raise e, tr1) => (Raise e, tr1)
            | (Ok _, tr1) =>
                match list_entities mcd tr1 with
                | (Raise e, tr2) => (Raise e, tr2)
                | (Ok entities, tr2) =>
                    let total := Z.of_nat (length entities) in
                    (Ok tt,
                     (report progress_callback total total "Conversion complete"
                        (converted env mcd progress_callback total
                           (enumerate entities) tr2)).2)
                end
            end))
  ∧ (∀ self tr,
       convert env self progress_callback tr
       = match import_h5py env tr with
         | (Raise e, tr1) => (Raise e, tr1)
         | (Ok _, tr1) =>
             match MCDFile_init env (mcd_filename self) None tr1 with
             | (Raise e, tr2) => (Raise e, tr2)
             | (Ok mcd, tr2) =>
                 match h5_File env (hdf5_filename self) with
                 | Raise e => (Raise e, tr2 ++ [EvH5Open (hdf5_filename self)])
                 | Ok _ =>
                     ((convert_body env mcd progress_callback
                         (tr2 ++ [EvH5Open (hdf5_filename self)])).1,
                      (convert_body env mcd progress_callback
                         (tr2 ++ [EvH5Open (hdf5_filename self)])).2 ++ [EvH5Close])
                 end
             end
         end).
Proof.
  split; [intros; apply guarded_region_run |].
  split; [intros; apply convert_entity_run |].
  split; [intros; apply convert_body_run |].
  split; [| split; [| split; [| intros; apply convert_run]]].
  - intros mcd total item items tr. cbn [for_each]. unfold bind.
    by destruct (convert_entity env mcd progress_callback total item tr)
      as [[[]|e] tr1].
  - intros mcd total item items tr e Hraise. cbn [for_each]. unfold bind.
    assert (Hitem : (convert_entity env mcd progress_callback total item tr).1 = Raise e).
    { destruct Hraise as [Hrep | Hitem]; [| exact Hitem].
      rewrite convert_entity_run.
      destruct (report _ _ _ _ tr) as [[[]|e'] tr0]; simpl in Hrep |- *; [done | congruence]. }
    destruct (convert_entity env mcd progress_callback total item tr)
      as [[[]|e'] tr1]; simpl in Hitem; [done | by rewrite Hitem].
  - intros Hcb Hprint. split; [intros; by apply convert_loop_run |].
    intros mcd tr. rewrite convert_body_run.
    destruct (write_header env mcd tr) as [[[]|e] tr1]; [| done].
    destruct (list_entities mcd tr1) as [[entities|e] tr2]; [| done].
    cbv zeta. rewrite convert_loop_run by done.
    pose proof (report_accepted progress_callback (Z.of_nat (length entities))
                  (Z.of_nat (length entities)) "Conversion complete"
                  (converted env mcd progress_callback (Z.of_nat (length entities))
                     (enumerate entities) tr2) Hcb) as Hr.
    destruct (report _ _ _ _ _) as [r tr3]. simpl in Hr. by subst r.
Qed.

(** ** The converter: progress reports *)

Lemma progress_calls_app tr1 tr2 :
  progress_calls (tr1 ++ tr2) = progress_calls tr1 ++ progress_calls tr2.
Proof. apply omap_app. Qed.

Lemma silent_run {A} (c : M A) tr r tr' :
  silent c → c tr = (r, tr') → ∃ evs, tr' = tr ++ evs ∧ progress_calls evs = [].
Proof. intros Hc Hrun. destruct (Hc tr) as (evs & H & ?). rewrite Hrun in H. eauto. Qed.

Lemma silent_ret {A} (a : A) : silent (ret a).
Proof. intros tr. exists []. by rewrite app_nil_r. Qed.

Lemma silent_raise {A} e : silent (@raise A e).
Proof. intros tr. exists []. by rewrite app_nil_r. Qed.

Lemma silent_outcome {A} (r : result A) : silent (outcome r).
Proof. intros tr. exists []. by rewrite app_nil_r. Qed.

Lemma silent_call {A} ev (r : result A) : progress_calls [ev] = [] → silent (call ev r).
Proof. intros H tr. by exists [ev]. Qed.

Lemma silent_emit ev : progress_calls [ev] = [] → silent (emit ev).
Proof. intros H tr. by exists [ev]. Qed.

Lemma silent_h5 env op : silent (h5 env op).
Proof. intros tr. by exists [EvH5 op]. Qed.

Lemma silent_bind {A B} (c : M A) (k : A → M B) :
  silent c → (∀ a, silent (k a)) → silent (bind c k).
Proof.
  intros Hc Hk tr. destruct (Hc tr) as (evs & E & P). unfold bind.
  destruct (c tr) as [[a|e] tr1]; simpl in E; subst tr1; [| by exists evs].
  destruct (Hk a (tr ++ evs)) as (evs' & E' & P'). exists (evs ++ evs').
  by rewrite E', app_assoc, progress_calls_app, P, P'.
Qed.

Lemma silent_try_except {A} (c : M A) (h : exn → M A) :
  silent c → (∀ e, silent (h e)) → silent (try_except c h).
Proof.
  intros Hc Hh tr. destruct (Hc tr) as (evs & E & P). unfold try_except.
  destruct (c tr) as [[a|e] tr1]; simpl in E; subst tr1; [by exists evs |].
  destruct (Hh e (tr ++ evs)) as (evs' & E' & P'). exists (evs ++ evs').
  by rewrite E', app_assoc, progress_calls_app, P, P'.
Qed.

Lemma silent_for_each {A} (xs : list A) (body : A → M unit) :
  (∀ x, silent (body x)) → silent (for_each xs body).
Proof.
  intros Hb. induction xs as [|x xs IH]; [apply silent_ret |].
  apply silent_bind; [apply Hb | done].
Qed.

Lemma silent_for_collect {A B} (xs : list A) (body : A → M B) :
  (∀ x, silent (body x)) → silent (for_collect xs body).
Proof.
  intros Hb. induction xs as [|x xs IH]; [apply silent_ret |].
  apply silent_bind; [apply Hb | intros y].
  apply silent_bind; [apply IH | intros ys; apply silent_ret].
Qed.

Lemma silent_for_fold {A S} (xs : list A) (acc : S) (body : S → A → M S) :
  (∀ acc x, silent (body acc x)) → silent (for_fold xs acc body).
Proof.
  intros Hb. revert acc. induction xs as [|x xs IH]; intros acc; [apply silent_ret |].
  apply silent_bind; [apply Hb | done].
Qed.

Lemma silent_require_open self : silent (require_open self).
Proof. unfold require_open. destruct (_file self); [apply silent_ret | apply silent_raise]. Qed.

Lemma silent_ns_get_entity f entity_id : silent (ns_get_entity f entity_id).
Proof. by apply silent_call. Qed.

Lemma silent_check_type entity entity_id expected kind :
  silent (check_type entity entity_id expected kind).
Proof.
  unfold check_type. destruct (bool_decide _); [apply silent_raise | apply silent_ret].
Qed.

Lemma silent_os_path_exists env p : silent (os_path_exists env p).
Proof. by apply silent_call. Qed.

Lemma silent_Path_exists_call env p : silent (Path_exists_call env p).
Proof. by apply silent_call. Qed.

Lemma silent_print env line : silent (print env line).
Proof. by apply silent_call. Qed.

(** Takes a computation apart down to its external calls, none of
    which may be a progress report. *)
Ltac silence :=
  repeat first
    [ apply silent_ret | apply silent_raise | apply silent_h5
    | apply silent_require_open | apply silent_ns_get_entity
    | apply silent_check_type | apply silent_os_path_exists
    | apply silent_Path_exists_call | apply silent_print | apply silent_outcome
    | apply silent_call; reflexivity
    | apply silent_emit; reflexivity
    | apply silent_for_each; intros ?
    | apply silent_for_collect; intros ?
    | apply silent_for_fold; intros ? ?
    | apply silent_try_except; [| intros ?]
    | apply silent_bind; [| intros ?]
    | match goal with
      | |- silent (if ?b then _ else _) => destruct b
      | |- silent (match ?x with _ => _ end) => destruct x
      end ].

Lemma silent_get_segment_data self entity_id index :
  silent (get_segment_data self entity_id index).
Proof. unfold get_segment_data. silence. Qed.

Lemma silent_list_entities self : silent (list_entities self).
Proof. unfold list_entities. silence. Qed.

Lemma silent_write_header env mcd : silent (write_header env mcd).
Proof. unfold write_header, info, write_attr. silence. Qed.

Lemma silent_write_entity env mcd entity_id entity_type label :
  silent (write_entity env mcd entity_id entity_type label).
Proof.
  unfold write_entity, get_event_data, get_analog_data, get_all_segments,
    get_neural_data, event_step, write_segment.
  silence; apply silent_get_segment_data.
Qed.

Lemma silent_probe_names env search_path names :
  silent (probe_names env search_path names).
Proof.
  induction names as [|n names IH]; [apply silent_ret |].
  cbn [probe_names]. silence. apply IH.
Qed.

Lemma silent_probe_paths env paths : silent (probe_paths env paths).
Proof.
  induction paths as [|p paths IH]; [apply silent_ret |].
  cbn [probe_paths].
  apply silent_bind; [silence | intros there].
  destruct (negb there); [apply IH |].
  apply silent_bind; [apply silent_probe_names | intros [lib_file|]]; [silence | apply IH].
Qed.

Lemma silent_MCDFile_init env filename library_path :
  silent (MCDFile_init env filename library_path).
Proof.
  unfold MCDFile_init, _find_library_path, _open_file, open_ns_file.
  apply silent_bind; [silence | intros there].
  destruct (negb there); [silence |].
  apply silent_bind; [| intros lp; silence].
  apply silent_bind; [silence | intros given].
  destruct given; [silence |].
  apply silent_bind; [apply silent_outcome | intros cwd].
  apply silent_bind; [apply silent_probe_paths | intros r; silence].
Qed.

Lemma bind_inv_ok {A B} (c : M A) (k : A → M B) tr b tr' :
  bind c k tr = (Ok b, tr') → ∃ a tr1, c tr = (Ok a, tr1) ∧ k a tr1 = (Ok b, tr').
Proof. unfold bind. destruct (c tr) as [[a|e] tr1]; [eauto | done]. Qed.

Lemma with_exit_inv_ok {A} (body : M A) (exit : M unit) tr a tr' :
  with_exit body exit tr = (Ok a, tr') →
  ∃ tr1, body tr = (Ok a, tr1) ∧ (exit tr1).2 = tr'.
Proof.
  unfold with_exit. destruct (body tr) as [[a'|e] tr1].
  - destruct (exit tr1) as [[u|e] tr2] eqn:E; [| done].
    intros [= <- <-]. exists tr1. by rewrite E.
  - by destruct (exit tr1) as [[u|e'] tr2].
Qed.

Lemma silent_guarded_region env mcd entity_info :
  silent (guarded_region env mcd entity_info).
Proof.
  apply silent_try_except; [apply silent_write_entity | intros e; apply silent_print].
Qed.

Lemma converted_cons env mcd cb total item items tr :
  converted env mcd (Some cb) total (item :: items) tr
  = converted env mcd (Some cb) total items
      (guarded_region env mcd item.2
         (tr ++ [EvProgress item.1 total ("Converting " +:+ es_label item.2)])).2.
Proof. reflexivity. Qed.

(** A loop that returned has run, for each item, the report and then
    the guarded region. *)
Lemma convert_loop_trace env mcd progress_callback total items tr tr' :
  for_each items (convert_entity env mcd progress_callback total) tr = (Ok tt, tr') →
  tr' = converted env mcd progress_callback total items tr.
Proof.
  revert tr. induction items as [|item items IH]; intros tr Hrun.
  - by injection Hrun as <-.
  - cbn [for_each] in Hrun.
    apply bind_inv_ok in Hrun as ([] & tr1 & Hitem & Hrest).
    apply IH in Hrest as ->. unfold converted. cbn [foldl].
    rewrite convert_entity_run in Hitem.
    destruct (report _ _ _ _ tr) as [[[]|e] tr0]; [| done]. cbn [snd].
    by rewrite Hitem.
Qed.

Lemma converted_extends env mcd cb total items tr :
  ∃ evs, converted env mcd (Some cb) total items tr = tr ++ evs
         ∧ progress_calls evs = report_of total <$> items.
Proof.
  revert tr. induction items as [|item items IH]; intros tr.
  - exists []. by rewrite app_nil_r.
  - rewrite converted_cons.
    destruct (silent_guarded_region env mcd item.2
                (tr ++ [EvProgress item.1 total ("Converting " +:+ es_label item.2)]))
      as (chunk & -> & Hchunk).
    destruct (IH ((tr ++ [EvProgress item.1 total ("Converting " +:+ es_label item.2)])
                  ++ chunk)) as (evs & -> & Hevs).
    exists ([EvProgress item.1 total ("Converting " +:+ es_label item.2)] ++ chunk ++ evs).
    split; [by rewrite <- !app_assoc |].
    by rewrite !progress_calls_app, Hchunk, Hevs.
Qed.

(** C8 (as amended).  When [convert] is given a progress callback and
    runs to completion, then: the source was opened, the header was
    written and the entities were listed, without any report; the
    trace from there on is that of the conversion of the [N] listed
    entities in listing order, followed by the report
    [(N, N, "Conversion complete")] and the closing of the container.
    The conversion of an entity is the report
    [(i, N, "Converting <label>")] first and then the guarded region
    of that entity, run on the trace that already ends with its
    report; the guarded region makes no report.  So the callback is
    called exactly [N + 1] times, once in front of the conversion of
    each entity and once at the end. *)
Theorem convert_progress_reports
    (env : Env) (self : MCD2HDF5Converter) (cb : callback) (tr tr' : trace) :
  convert env self (Some cb) tr = (Ok tt, tr') →
  ∃ (mcd : MCDFile) (f : NsFile) (es : list EntitySummary)
    (t_open t_head pre : trace),
    MCDFile_init env (mcd_filename self) None (tr ++ [EvImportH5py]) = (Ok mcd, t_open)
    ∧ _file mcd = Some f
    ∧ write_header env mcd (t_open ++ [EvH5Open (hdf5_filename self)]) = (Ok tt, t_head)
    ∧ list_entities mcd t_head = (Ok es, tr ++ pre)
    ∧ length es = entity_count f
    ∧ progress_calls pre = []
    ∧ let N := Z.of_nat (entity_count f) in
      tr' = converted env mcd (Some cb) N (enumerate es) (tr ++ pre)
            ++ [EvProgress N N "Conversion complete"; EvH5Close]
      ∧ (∀ t, converted env mcd (Some cb) N [] t = t)
      ∧ (∀ item items t,
           converted env mcd (Some cb) N (item :: items) t
           = converted env mcd (Some cb) N items
               (guarded_region env mcd item.2
                  (t ++ [EvProgress item.1 N ("Converting " +:+ es_label item.2)])).2)
      ∧ (∀ entity_info t,
           ∃ chunk, (guarded_region env mcd entity_info t).2 = t ++ chunk
                    ∧ progress_calls chunk = [])
      ∧ progress_calls (drop (length tr) tr')
        = (report_of N <$> enumerate es) ++ [(N, N, "Conversion complete")]
      ∧ length (progress_calls (drop (length tr) tr')) = S (entity_count f).
Proof.
  intros Hrun. unfold convert in Hrun.
  apply bind_inv_ok in Hrun as ([] & t1 & Himp & Hrun).
  assert (t1 = tr ++ [EvImportH5py]) as -> by (unfold import_h5py, call in Himp; congruence).
  apply bind_inv_ok in Hrun as (mcd & t2 & Hinit & Hrun).
  destruct (silent_run _ _ _ _ (silent_MCDFile_init _ _ _) Hinit) as (e2 & Ht2 & He2).
  apply with_exit_inv_ok in Hrun as (t3 & Hrun & <-). cbn [ret snd].
  apply bind_inv_ok in Hrun as ([] & t4 & Hopen & Hrun).
  assert (t4 = t2 ++ [EvH5Open (hdf5_filename self)]) as ->.
  { unfold call in Hopen. by injection Hopen as _ <-. }
  apply with_exit_inv_ok in Hrun as (t5 & Hbody & <-). unfold emit. cbn [snd].
  unfold convert_body in Hbody.
  apply bind_inv_ok in Hbody as ([] & t6 & Hhead & Hbody).
  destruct (silent_run _ _ _ _ (silent_write_header _ _) Hhead) as (e6 & Ht6 & He6).
  apply bind_inv_ok in Hbody as (es & t7 & Hlist & Hbody).
  destruct (silent_run _ _ _ _ (silent_list_entities _) Hlist) as (e7 & Ht7 & He7).
  apply bind_inv_ok in Hbody as ([] & t8 & Hloop & Hlast).
  apply convert_loop_trace in Hloop as ->.
  unfold report, call in Hlast. injection Hlast as _ <-.
  assert (Hes : (list_entities mcd t6).1 = Ok es) by (by rewrite Hlist).
  destruct (list_entities_open _ _ _ Hes) as [f Hf].
  assert (Hcount : length es = entity_count f).
  { rewrite (list_entities_run _ _ _ Hf) in Hes. apply sequence_results_Ok in Hes.
    apply (f_equal length) in Hes. rewrite !length_fmap, range_length in Hes. done. }
  rewrite Hcount in *.
  set (pre := [EvImportH5py] ++ e2 ++ [EvH5Open (hdf5_filename self)] ++ e6 ++ e7).
  assert (Hpre : t7 = tr ++ pre).
  { subst t7 t6 t2 pre. by rewrite <- !app_assoc. }
  exists mcd, f, es, t2, t6, pre.
  split; [exact Hinit |]. split; [exact Hf |]. split; [exact Hhead |].
  split; [by rewrite Hlist, Hpre |]. split; [done |].
  split; [unfold pre; by rewrite !progress_calls_app, He2, He6, He7 |].
  set (N := Z.of_nat (entity_count f)).
  split; [by rewrite Hpre, <- app_assoc |].
  split; [done |]. split; [intros; apply converted_cons |].
  split; [intros; apply silent_guarded_region |].
  assert (Hcalls : progress_calls
      (drop (length tr)
         ((converted env mcd (Some cb) N (enumerate es) t7
           ++ [EvProgress N N "Conversion complete"]) ++ [EvH5Close]))
    = (report_of N <$> enumerate es) ++ [(N, N, "Conversion complete")]).
  { destruct (converted_extends env mcd cb N (enumerate es) t7) as (evs & -> & Hevs).
    rewrite Hpre, <- !app_assoc, drop_app_length, !progress_calls_app, Hevs.
    unfold pre. rewrite !progress_calls_app, He2, He6, He7. by rewrite app_nil_r. }
  split; [exact Hcalls |].
  rewrite Hcalls, length_app, length_fmap. unfold enumerate.
  rewrite length_imap, Hcount. simpl. lia.
Qed.

(** * The statements on the sample recordings *)

Lemma typed_accessor_mismatch_witness :
  _file Sample.handle = Some Sample.file
  ∧ get_entity Sample.file 0 = Ok (Sample.entity "Ch1" 2 3)
  ∧ entity_type (Sample.entity "Ch1" 2 3) ≠ ENTITY_EVENT
  ∧ get_event_data Sample.env Sample.handle 0 []
    = (Raise (ValueError "Entity 0 is not an event entity"), [EvGetEntity 0]).
Proof.
  split; [reflexivity |]. split; [reflexivity |]. split; [discriminate |].
  destruct (typed_accessor_mismatch Sample.env Sample.handle Sample.file
              (Sample.entity "Ch1" 2 3) 0 [] eq_refl eq_refl) as (_ & H & _).
  apply H. discriminate.
Defined.

Lemma get_all_segments_spec_witness :
  _file Sample.handle = Some Sample.file
  ∧ get_entity Sample.file 2 = Ok (Sample.entity "Spk" 3 5)
  ∧ entity_type (Sample.entity "Spk" 3 5) = ENTITY_SEGMENT
  ∧ ∀ segs, (get_all_segments Sample.handle 2 []).1 = Ok segs → length segs = 5%nat.
Proof.
  split; [reflexivity |]. split; [reflexivity |]. split; [reflexivity |].
  intros segs Hsegs.
  destruct (get_all_segments_spec Sample.handle Sample.file
              (Sample.entity "Spk" 3 5) 2 [] eq_refl eq_refl eq_refl)
    as (_ & _ & H & _).
  apply (H segs Hsegs).
Defined.



Lemma get_entities_by_type_code_witness :
  (list_entities Sample.handle []).1 ≠ Raise (InvalidArgument "7")
  ∧ (get_entities_by_type Sample.handle (TypeCode 7) []).1 ≠ Raise (InvalidArgument "7")
  ∧ (get_entities_by_type Sample.handle (TypeCode 5) []).1 = Ok [Sample.aux_summary].
Proof.
  split; [discriminate |]. split.
  - intros H.
    destruct (get_entities_by_type_code Sample.handle 7 []) as (_ & Hfail & _).
    apply Hfail in H as [H _]. discriminate H.
  - destruct (get_entities_by_type_code Sample.handle 5 []) as (-> & _).
    reflexivity.
Defined.

Lemma get_entities_by_type_name_of_listed_witness :
  (list_entities Sample.handle []).1
  = Ok [entity_summary 0 (Sample.entity "Ch1" 2 3);
        entity_summary 1 (Sample.entity "Trig/1" 1 2);
        entity_summary 2 (Sample.entity "Spk" 3 5);
        Sample.aux_summary]
  ∧ 0 ≤ es_type (entity_summary 2 (Sample.entity "Spk" 3 5)) ≤ 4
  ∧ ∃ members,
      get_entities_by_type Sample.handle (TypeName "segment") []
      = (Ok members, (list_entities Sample.handle []).2)
      ∧ occurrences (entity_summary 2 (Sample.entity "Spk" 3 5)) members = 1%nat.
Proof.
  split; [reflexivity |]. split; [simpl; lia |].
  destruct (get_entities_by_type_name_of_listed Sample.handle [] _
              (entity_summary 2 (Sample.entity "Spk" 3 5)) eq_refl)
    as (members & Hrun & _ & Hocc & _).
  - do 2 right. left.
  - simpl. lia.
  - exists members. split; [exact Hrun | exact Hocc].
Defined.

(** C1, as stated, fails on an entity whose type code is not in the
    table: its type name is the fallback ["unknown"], and the filter
    by that name selects the entities of type 0. *)
Lemma get_entities_by_type_name_counterexample :
  (list_entities Sample.handle []).1
  = Ok [entity_summary 0 (Sample.entity "Ch1" 2 3);
        entity_summary 1 (Sample.entity "Trig/1" 1 2);
        entity_summary 2 (Sample.entity "Spk" 3 5);
        Sample.aux_summary]
  ∧ es_type_name Sample.aux_summary = "unknown"
  ∧ (get_entities_by_type Sample.handle (TypeName (es_type_name Sample.aux_summary)) []).1
    = Ok [].
Proof. split; [reflexivity |]. split; reflexivity. Qed.

Lemma get_segment_data_index_delegated_witness :
  _file Sample.handle = Some Sample.file
  ∧ get_entity Sample.file 2 = Ok (Sample.entity "Spk" 3 5)
  ∧ entity_type (Sample.entity "Spk" 3 5) = ENTITY_SEGMENT
  ∧ get_segment_data Sample.handle 2 4 []
    = (Ok (segment_record (Sample.entity "Spk" 3 5) ([[0%float]], 0%float, 1, 0)),
       [EvGetEntity 2; EvGetData 2 [4]]).
Proof.
  split; [reflexivity |]. split; [reflexivity |]. split; [reflexivity |].
  destruct (get_segment_data_index_delegated Sample.handle Sample.file
              (Sample.entity "Spk" 3 5) 2 4 [] eq_refl eq_refl eq_refl) as (-> & _).
  reflexivity.
Defined.

(** C3, as stated, fails where the reader of the binding answers an
    index past the last item: the segment entity has five items and
    the call with index 10 returns a record. *)
Lemma get_segment_data_out_of_range_counterexample :
  _file Sample.handle = Some Sample.file
  ∧ get_entity Sample.file 2 = Ok (Sample.entity "Spk" 3 5)
  ∧ entity_type (Sample.entity "Spk" 3 5) = ENTITY_SEGMENT
  ∧ item_count (Sample.entity "Spk" 3 5) = 5%nat
  ∧ get_segment_data Sample.handle 2 10 []
    = (Ok (segment_record (Sample.entity "Spk" 3 5) ([[0%float]], 0%float, 1, 0)),
       [EvGetEntity 2; EvGetData 2 [10]]).
Proof. repeat split. Qed.

Lemma convert_entity_failures_contained_witness :
  accepts (Some Sample.quiet)
  ∧ prints Sample.env
  ∧ ∀ total items tr,
      for_each items (convert_entity Sample.env Sample.handle (Some Sample.quiet) total) tr
      = (Ok tt, converted Sample.env Sample.handle (Some Sample.quiet) total items tr).
Proof.
  assert (Hcb : accepts (Some Sample.quiet)) by (intros current total msg; reflexivity).
  assert (Hprint : prints Sample.env) by (intros line; reflexivity).
  split; [exact Hcb |]. split; [exact Hprint |]. intros total items tr.
  destruct (convert_entity_failures_contained Sample.env (Some Sample.quiet))
    as (_ & _ & _ & _ & _ & H & _).
  destruct (H Hcb Hprint) as (Hloop & _).
  apply (Hloop Sample.handle total items tr).
Defined.

(** C7, as stated, fails in two ways.  A recording whose second
    entity cannot be fetched opens, and so does the container, but
    the listing in front of the loop raises and [convert] raises with
    it: the first entity is never converted.  And an exception of the
    progress callback at the second entity ends the loop: the third
    and fourth entities are never converted. *)
Lemma convert_fatal_failures_counterexample :
  is_ok (MCDFile_init Sample.env "damaged.mcd" None [EvImportH5py]).1 = true
  ∧ h5_File Sample.env "out.h5" = Ok tt
  ∧ convert Sample.env Sample.damaged_converter None []
    = (Raise (ExternalError "IndexError" "no such entity"),
       [EvImportH5py; EvPathExists "damaged.mcd";
        EvPathExists "/opt/mcd2dh5/Matlab-Import-Filter/Matlab_Interface";
        EvPathExists "/home/user";
        EvPathExists "/opt/mcd2dh5/Matlab-Import-Filter/Matlab_Interface/nsMCDLibrary.so";
        EvNsFile "damaged.mcd"; EvH5Open "out.h5";
        EvH5 (H5SetAttr [] "file_type" (AttrStr "MCD"));
        EvH5 (H5SetAttr [] "entity_count" (AttrInt 2));
        EvH5 (H5SetAttr [] "time_stamp_resolution" (AttrFloat 1%float));
        EvH5 (H5SetAttr [] "time_span" (AttrFloat 3%float));
        EvH5 (H5SetAttr [] "app_name" (AttrStr "MC_Rack"));
        EvH5 (H5SetAttr [] "comment" (AttrStr ""));
        EvH5 (H5CreateGroup [] "events"); EvH5 (H5CreateGroup [] "analog");
        EvH5 (H5CreateGroup [] "segments"); EvH5 (H5CreateGroup [] "neural");
        EvGetEntity 0; EvGetEntity 1; EvH5Close])
  ∧ (convert Sample.env Sample.rec_converter (Some Sample.failing) []).1
    = Raise (ExternalError "BrokenPipeError" "progress sink closed")
  ∧ progress_calls (convert Sample.env Sample.rec_converter (Some Sample.failing) []).2
    = [(0, 4, "Converting Ch1"); (1, 4, "Converting Trig/1")].
Proof. repeat split; by vm_compute. Qed.

Lemma convert_progress_reports_witness :
  ∃ tr',
    convert Sample.env Sample.rec_converter (Some Sample.quiet) [] = (Ok tt, tr')
    ∧ length (progress_calls (drop (length (@nil event)) tr')) = 5%nat.
Proof.
  exists (convert Sample.env Sample.rec_converter (Some Sample.quiet) []).2.
  assert (Hrun : convert Sample.env Sample.rec_converter (Some Sample.quiet) []
                 = (Ok tt, (convert Sample.env Sample.rec_converter
                              (Some Sample.quiet) []).2))
    by (vm_compute; reflexivity).
  split; [exact Hrun |].
  destruct (convert_progress_reports Sample.env Sample.rec_converter Sample.quiet
              [] _ Hrun)
    as (mcd & f & es & t_open & t_head & pre & Hinit & Hf & _ & _ & _ & _ & H).
  assert (Hmcd : Ok Sample.handle = Ok mcd).
  { change (Ok Sample.handle)
      with (MCDFile_init Sample.env (mcd_filename Sample.rec_converter) None
              ([] ++ [EvImportH5py])).1.
    by rewrite Hinit. }
  injection Hmcd as <-. injection Hf as <-.
  destruct H as (_ & _ & _ & _ & _ & H). exact H.
Defined.

(** C8, as stated, fails on the message of the last report: it is
    ["Conversion complete"], not ["done"].  And on the same recording
    of four entities a conversion that the callback itself ends has
    made two reports, not five. *)
Lemma convert_last_report_counterexample :
  length (progress_calls
            (convert Sample.env Sample.rec_converter (Some Sample.failing) []).2)
  = 2%nat
  ∧ (convert Sample.env Sample.rec_converter (Some Sample.quiet) []).1 = Ok tt
  ∧ progress_calls (convert Sample.env Sample.rec_converter (Some Sample.quiet) []).2
    = [(0, 4, "Converting Ch1"); (1, 4, "Converting Trig/1");
       (2, 4, "Converting Spk"); (3, 4, "Converting Aux");
       (4, 4, "Conversion complete")]
  ∧ last (progress_calls
            (convert Sample.env Sample.rec_converter (Some Sample.quiet) []).2)
    ≠ Some (4, 4, "done").
Proof. repeat split; by vm_compute. Qed.

(** * Further properties of the accessor and of the converter *)

(** ** Which external calls a computation makes *)

Section Only.
Context (P : event → Prop).

Lemma only_ret {A} (a : A) : only P (ret a).
Proof. intros tr. exists []. by rewrite app_nil_r. Qed.

Lemma only_raise {A} e : only P (@raise A e).
Proof. intros tr. exists []. by rewrite app_nil_r. Qed.

Lemma only_call {A} ev (r : result A) : P ev → only P (call ev r).
Proof. intros H tr. exists [ev]. split; [done | by constructor]. Qed.

Lemma only_emit ev : P ev → only P (emit ev).
Proof. intros H tr. exists [ev]. split; [done | by constructor]. Qed.

Lemma only_outcome {A} (r : result A) : only P (outcome r).
Proof. intros tr. exists []. by rewrite app_nil_r. Qed.

Lemma only_bind {A B} (c : M A) (k : A → M B) :
  only P c → (∀ a, only P (k a)) → only P (bind c k).
Proof.
  intros Hc Hk tr. destruct (Hc tr) as (evs & E & HP). unfold bind.
  destruct (c tr) as [[a|e] tr1]; simpl in E; subst tr1; [| by exists evs].
  destruct (Hk a (tr ++ evs)) as (evs' & E' & HP'). exists (evs ++ evs').
  rewrite E', app_assoc. split; [done | by apply Forall_app].
Qed.

Lemma only_try_except {A} (c : M A) (h : exn → M A) :
  only P c → (∀ e, only P (h e)) → only P (try_except c h).
Proof.
  intros Hc Hh tr. destruct (Hc tr) as (evs & E & HP). unfold try_except.
  destruct (c tr) as [[a|e] tr1]; simpl in E; subst tr1; [by exists evs |].
  destruct (Hh e (tr ++ evs)) as (evs' & E' & HP'). exists (evs ++ evs').
  rewrite E', app_assoc. split; [done | by apply Forall_app].
Qed.

Lemma only_with_exit {A} (body : M A) (exit : M unit) :
  only P body → only P exit → only P (with_exit body exit).
Proof.
  intros Hb Hx tr. destruct (Hb tr) as (evs & E & HP). unfold with_exit.
  destruct (body tr) as [[a|e] tr1]; simpl in E; subst tr1;
    destruct (Hx (tr ++ evs)) as (evs' & E' & HP');
    destruct (exit (tr ++ evs)) as [[u|e'] tr2]; simpl in E'; subst tr2;
    exists (evs ++ evs'); rewrite app_assoc; (split; [done | by apply Forall_app]).
Qed.

Lemma only_for_each {A} (xs : list A) (body : A → M unit) :
  (∀ x, only P (body x)) → only P (for_each xs body).
Proof.
  intros Hb. induction xs as [|x xs IH]; [apply only_ret |].
  apply only_bind; [apply Hb | done].
Qed.

Lemma only_for_collect {A B} (xs : list A) (body : A → M B) :
  (∀ x, only P (body x)) → only P (for_collect xs body).
Proof.
  intros Hb. induction xs as [|x xs IH]; [apply only_ret |].
  apply only_bind; [apply Hb | intros y].
  apply only_bind; [apply IH | intros ys; apply only_ret].
Qed.

Lemma only_for_fold {A S} (xs : list A) (acc : S) (body : S → A → M S) :
  (∀ acc x, only P (body acc x)) → only P (for_fold xs acc body).
Proof.
  intros Hb. revert acc. induction xs as [|x xs IH]; intros acc; [apply only_ret |].
  apply only_bind; [apply Hb | done].
Qed.

Lemma only_require_open self : only P (require_open self).
Proof. unfold require_open. destruct (_file self); [apply only_ret | apply only_raise]. Qed.

Lemma only_check_type entity entity_id expected kind :
  only P (check_type entity entity_id expected kind).
Proof.
  unfold check_type. destruct (bool_decide _); [apply only_raise | apply only_ret].
Qed.

End Only.

(** Takes a computation apart down to its external calls; [solve]
    shows that a call is a permitted one. *)
Ltac confine solve :=
  repeat first
    [ apply only_ret | apply only_raise | apply only_outcome
    | apply only_require_open | apply only_check_type
    | apply only_call; solve
    | apply only_emit; solve
    | apply only_for_each; intros ?
    | apply only_for_collect; intros ?
    | apply only_for_fold; intros ? ?
    | apply only_try_except; [| intros ?]
    | apply only_bind; [| intros ?]
    | match goal with
      | |- only _ (if ?b then _ else _) => destruct b
      | |- only _ (match ?x with _ => _ end) => destruct x
      end ].

Lemma only_get_segment_data self entity_id index :
  only (reads_entity entity_id) (get_segment_data self entity_id index).
Proof.
  unfold get_segment_data, ns_get_entity.
  confine ltac:(first [by left | right; by eexists]).
Qed.

(** X1.  A read operation that names an entity calls the binding for
    that entity only: each external call it makes is
    [get_entity(entity_id)] or a [get_data] of that entity.  It opens
    no file, tests no path, writes nothing and prints nothing. *)
Theorem reads_touch_only_requested_entity
    (env : Env) (self : MCDFile) (entity_id index start_index count : Z) :
  only (reads_entity entity_id) (get_entity_info self entity_id)
  ∧ only (reads_entity entity_id) (get_analog_data self entity_id start_index count)
  ∧ only (reads_entity entity_id) (get_event_data env self entity_id)
  ∧ only (reads_entity entity_id) (get_segment_data self entity_id index)
  ∧ only (reads_entity entity_id) (get_all_segments self entity_id)
  ∧ only (reads_entity entity_id) (get_neural_data self entity_id start_index count).
Proof.
  repeat split;
    unfold get_entity_info, get_analog_data, get_event_data, get_all_segments,
      get_neural_data, ns_get_entity, event_step;
    try apply only_get_segment_data;
    confine ltac:(first [by left | right; by eexists]);
    apply only_get_segment_data.
Qed.

(** ** Opening: the library search and the native open *)

Lemma only_os_path_exists env (P : event → Prop) p :
  P (EvPathExists p) → only P (os_path_exists env p).
Proof. intros H. by apply only_call. Qed.

Lemma only_Path_exists_call env (P : event → Prop) p :
  P (EvPathExists p) → only P (Path_exists_call env p).
Proof. intros H. by apply only_call. Qed.

Lemma only_probe_names env search_path names :
  only (opening_event env) (probe_names env search_path names).
Proof.
  induction names as [|n names IH]; [apply only_ret |].
  cbn [probe_names]. apply only_bind; [by apply only_Path_exists_call | intros found].
  destruct found; [apply only_ret | apply IH].
Qed.

Lemma only_probe_paths env paths :
  only (opening_event env) (probe_paths env paths).
Proof.
  induction paths as [|p paths IH]; [apply only_ret |].
  cbn [probe_paths]. apply only_bind; [by apply only_Path_exists_call | intros there].
  destruct (negb there); [apply IH |].
  apply only_bind; [apply only_probe_names | intros [lib_file|]];
    [apply only_ret | apply IH].
Qed.

Lemma only_MCDFile_init env filename library_path :
  only (opening_event env) (MCDFile_init env filename library_path).
Proof.
  unfold MCDFile_init.
  apply only_bind; [by apply only_os_path_exists | intros there].
  destruct (negb there); [apply only_raise |].
  apply only_bind.
  - unfold _find_library_path. apply only_bind.
    + destruct library_path as [p|]; [| apply only_ret].
      destruct (truthy p); [by apply only_os_path_exists | apply only_ret].
    + intros given. destruct given; [apply only_ret |].
      apply only_bind; [apply only_outcome | intros cwd].
      apply only_bind; [apply only_probe_paths | intros [lib_file|]; apply only_ret].
  - intros lp. unfold _open_file, open_ns_file. apply only_try_except;
      [| intros e; apply only_raise].
    apply only_bind.
    + destruct (truthy _); [by apply only_os_path_exists | apply only_ret].
    + intros usable. destruct usable; [| confine ltac:(exact I)].
      apply only_bind.
      * destruct (String.eqb (platform env) "win32") eqn:Hwin; [| apply only_ret].
        destruct (truthy _); [| apply only_ret].
        apply only_emit. simpl. by apply String.eqb_eq.
      * intros _. confine ltac:(exact I).
Qed.

(** X2.  Constructing the accessor only tests paths, calls
    [ns.Library] and calls [ns.File]; it changes [PATH] on Windows
    only, and it never fetches an entity or reads data. *)
Theorem MCDFile_init_events
    (env : Env) (filename : string) (library_path : option string) (tr : trace) :
  ∃ evs, (MCDFile_init env filename library_path tr).2 = tr ++ evs
         ∧ Forall (opening_event env) evs
         ∧ (platform env ≠ "win32" → ∀ dir, EvPrependPath dir ∉ evs)
         ∧ (∀ i, EvGetEntity i ∉ evs) ∧ (∀ i args, EvGetData i args ∉ evs).
Proof.
  destruct (only_MCDFile_init env filename library_path tr) as (evs & Hevs & Hall).
  exists evs. split; [exact Hevs |]. split; [exact Hall |].
  rewrite Forall_forall in Hall. repeat split.
  - intros Hplat dir Hin. by apply Hall in Hin.
  - intros i Hin. by apply Hall in Hin.
  - intros i args Hin. by apply Hall in Hin.
Qed.

Lemma find_app_first {A} (f : A → bool) (l1 l2 : list A) :
  List.find f (l1 ++ l2)
  = match List.find f l1 with Some x => Some x | None => List.find f l2 end.
Proof. induction l1 as [|x l1 IH]; simpl; [done |]. by destruct (f x). Qed.

Lemma probe_names_run env search_path names tr :
  Path_agrees env →
  (probe_names env search_path names tr).1
  = Ok ((λ c : string * string, path_join env c.1 c.2)
          <$> List.find (λ c, path_exists env (path_join env c.1 c.2))
                        (pair search_path <$> names)).
Proof.
  intros Hag. revert tr. induction names as [|n names IH]; intros tr; [done |].
  cbn [probe_names]. unfold bind, Path_exists_call, call. rewrite Hag.
  rewrite fmap_cons. cbn [List.find fst snd].
  destruct (path_exists env (path_join env search_path n)); [done | apply IH].
Qed.

Lemma probe_paths_run env paths tr :
  Path_agrees env →
  (probe_paths env paths tr).1
  = Ok ((λ c : string * string, path_join env c.1 c.2)
          <$> List.find (candidate_found env) (candidates env paths)).
Proof.
  intros Hag. revert tr. induction paths as [|p paths IH]; intros tr; [done |].
  cbn [probe_paths]. unfold bind at 1, Path_exists_call, call. rewrite Hag.
  unfold candidates. cbn [flat_map]. rewrite find_app_first.
  fold (candidates env paths).
  assert (Hfind : List.find (candidate_found env) (pair p <$> lib_names env)
    = if path_exists env p
      then List.find (λ c, path_exists env (path_join env c.1 c.2))
                     (pair p <$> lib_names env)
      else None).
  { unfold candidate_found. induction (lib_names env) as [|n names IHn]; simpl.
    - by destruct (path_exists env p).
    - destruct (path_exists env p); simpl; [| exact IHn].
      destruct (path_exists env (path_join env p n)); [done | exact IHn]. }
  rewrite Hfind. destruct (path_exists env p); cbn [negb]; [| apply IH].
  unfold bind.
  pose proof (probe_names_run env p (lib_names env) (tr ++ [EvPathExists p]) Hag) as Hn.
  destruct (probe_names env p (lib_names env) _) as [[r|e] tr1]; simpl in Hn; [| done].
  injection Hn as ->.
  clear Hfind.
  destruct (List.find (λ c : string * string, path_exists env (path_join env c.1 c.2))
              (pair p <$> lib_names env)) as [c|]; simpl; [done | apply IH].
Qed.

Lemma probe_names_raises env search_path names tr e :
  (probe_names env search_path names tr).1 = Raise e → ∃ p, Path_exists env p = Raise e.
Proof.
  revert tr. induction names as [|n names IH]; intros tr; [done |].
  cbn [probe_names]. unfold bind, Path_exists_call, call.
  destruct (Path_exists env (path_join env search_path n)) as [[|]|e'] eqn:Hp.
  - done.
  - apply IH.
  - intros [= <-]. by eexists.
Qed.

Lemma probe_paths_raises env paths tr e :
  (probe_paths env paths tr).1 = Raise e → ∃ p, Path_exists env p = Raise e.
Proof.
  revert tr. induction paths as [|p paths IH]; intros tr; [done |].
  cbn [probe_paths]. unfold bind at 1, Path_exists_call, call.
  destruct (Path_exists env p) as [[|]|e'] eqn:Hp; cbn [negb].
  - unfold bind.
    pose proof (probe_names_raises env p (lib_names env) (tr ++ [EvPathExists p])) as Hn.
    destruct (probe_names env p (lib_names env) _) as [[[lib_file|]|e1] tr1];
      simpl in Hn |- *.
    + done.
    + apply IH.
    + intros [= <-]. by apply Hn.
  - apply IH.
  - intros [= <-]. by eexists.
Qed.

(** The trace in front of the search: the test of the path the caller
    gave, when it gave one that is not empty. *)
Lemma _find_library_path_run env library_path tr :
  _find_library_path env library_path tr
  = if explicit_usable env library_path
    then (Ok (default "" library_path), tr ++ [EvPathExists (default "" library_path)])
    else
      let tr0 := match library_path with
                 | Some p => if truthy p then tr ++ [EvPathExists p] else tr
                 | None => tr
                 end in
      match Path_cwd env with
      | Raise e => (Raise e, tr0)
      | Ok cwd =>
          match probe_paths env (search_paths env cwd) tr0 with
          | (Ok (Some lib_file), tr1) => (Ok lib_file, tr1)
          | (Ok None, tr1) =>
              (Ok (path_join env (default "" (head (search_paths env cwd)))
                             (default "" (head (lib_names env)))), tr1)
          | (Raise e, tr1) => (Raise e, tr1)
          end
      end.
Proof.
  assert (Hsearch : ∀ tr0,
    (cwd <- outcome (Path_cwd env) ;;
     r <- probe_paths env (search_paths env cwd) ;;
     match r with
     | Some lib_file => ret lib_file
     | None => ret (path_join env (default "" (head (search_paths env cwd)))
                              (default "" (head (lib_names env))))
     end) tr0
    = match Path_cwd env with
      | Raise e => (Raise e, tr0)
      | Ok cwd =>
          match probe_paths env (search_paths env cwd) tr0 with
          | (Ok (Some lib_file), tr1) => (Ok lib_file, tr1)
          | (Ok None, tr1) =>
              (Ok (path_join env (default "" (head (search_paths env cwd)))
                             (default "" (head (lib_names env)))), tr1)
          | (Raise e, tr1) => (Raise e, tr1)
          end
      end).
  { intros tr0. unfold bind, outcome. destruct (Path_cwd env) as [cwd|e]; [| done].
    by destruct (probe_paths env (search_paths env cwd) tr0) as [[[lib_file|]|e] tr1]. }
  unfold _find_library_path, explicit_usable. unfold bind at 1.
  destruct library_path as [p|]; [| apply Hsearch].
  destruct (truthy p); cbn [andb]; [| apply Hsearch].
  unfold os_path_exists, call. cbn [default].
  destruct (path_exists env p); [done | apply Hsearch].
Qed.

Lemma resolve_library_found env cwd library_path :
  path_exists env (resolve_library env cwd library_path) = true
  ∨ resolve_library env cwd library_path
    = path_join env (default "" (head (search_paths env cwd)))
                (default "" (head (lib_names env))).
Proof.
  unfold resolve_library, explicit_usable.
  assert (Hsearched :
    path_exists env
      match List.find (candidate_found env) (candidates env (search_paths env cwd)) with
      | Some c => path_join env c.1 c.2
      | None => path_join env (default "" (head (search_paths env cwd)))
                          (default "" (head (lib_names env)))
      end = true
    ∨ match List.find (candidate_found env) (candidates env (search_paths env cwd)) with
      | Some c => path_join env c.1 c.2
      | None => path_join env (default "" (head (search_paths env cwd)))
                          (default "" (head (lib_names env)))
      end = path_join env (default "" (head (search_paths env cwd)))
                      (default "" (head (lib_names env)))).
  { destruct (List.find _ _) as [c|] eqn:Hfind; [left | by right].
    apply List.find_some in Hfind as [_ Hc]. unfold candidate_found in Hc.
    by apply andb_prop in Hc as [_ Hc]. }
  destruct library_path as [p|]; [| exact Hsearched].
  destruct (truthy p && path_exists env p) eqn:Hgiven; [| exact Hsearched].
  left. by apply andb_prop in Hgiven as [_ Hgiven].
Qed.

Lemma _find_library_path_resolved env library_path tr cwd :
  Path_cwd env = Ok cwd → Path_agrees env →
  (_find_library_path env library_path tr).1 = Ok (resolve_library env cwd library_path).
Proof.
  intros Hcwd Hag. rewrite _find_library_path_run. unfold resolve_library.
  destruct (explicit_usable env library_path); [done |]. cbv zeta. rewrite Hcwd.
  set (tr0 := match library_path with Some _ => _ | None => _ end).
  pose proof (probe_paths_run env (search_paths env cwd) tr0 Hag) as Hp.
  destruct (probe_paths env (search_paths env cwd) tr0) as [[r|e] tr1]; simpl in Hp;
    [| done].
  injection Hp as ->. by destruct (List.find _ _).
Qed.

Lemma _find_library_path_raises env library_path tr e :
  (_find_library_path env library_path tr).1 = Raise e →
  explicit_usable env library_path = false
  ∧ (Path_cwd env = Raise e ∨ ∃ p, Path_exists env p = Raise e).
Proof.
  rewrite _find_library_path_run.
  destruct (explicit_usable env library_path); [done |]. cbv zeta.
  intros H. split; [done |].
  destruct (Path_cwd env) as [cwd|e0]; [right | left; simpl in H; congruence].
  set (tr0 := match library_path with Some _ => _ | None => _ end) in H.
  pose proof (probe_paths_raises env (search_paths env cwd) tr0 e) as Hp.
  destruct (probe_paths env (search_paths env cwd) tr0) as [[[lib_file|]|e1] tr1];
    simpl in H, Hp; try done.
  apply Hp. congruence.
Qed.

(** X3.  The library search.  A path the caller gave is returned
    after one test when it is not empty and exists.  Otherwise the
    working directory is asked for, and an exception of [Path.cwd()]
    leaves the search; so does an exception of the test of the first
    directory; and the search raises nothing but what [Path.cwd()] or
    a [Path.exists()] raised.  When the working directory is known and
    [Path.exists()] raises on no path, the search returns, and what it
    returns is the first library file found, where the directories are
    tried in order (the interface directory of the installation, then
    the working directory), a directory that does not exist is skipped
    with all its names, and inside a directory the platform's names
    are tried in order; when nothing is found it is the first name in
    the first directory. *)
Theorem find_library_path_first_match
    (env : Env) (library_path : option string) (tr : trace) :
  (explicit_usable env library_path = true →
     _find_library_path env library_path tr
     = (Ok (default "" library_path), tr ++ [EvPathExists (default "" library_path)]))
  ∧ (explicit_usable env library_path = false → ∀ e, Path_cwd env = Raise e →
       (_find_library_path env library_path tr).1 = Raise e)
  ∧ (explicit_usable env library_path = false → ∀ cwd e, Path_cwd env = Ok cwd →
       Path_exists env (default "" (head (search_paths env cwd))) = Raise e →
       (_find_library_path env library_path tr).1 = Raise e)
  ∧ (∀ e, (_find_library_path env library_path tr).1 = Raise e →
       explicit_usable env library_path = false
       ∧ (Path_cwd env = Raise e ∨ ∃ p, Path_exists env p = Raise e))
  ∧ (∀ cwd, Path_cwd env = Ok cwd → Path_agrees env →
       (_find_library_path env library_path tr).1
       = Ok (resolve_library env cwd library_path)
       ∧ (path_exists env (resolve_library env cwd library_path) = true
          ∨ resolve_library env cwd library_path
            = path_join env (default "" (head (search_paths env cwd)))
                        (default "" (head (lib_names env))))).
Proof.
  split; [| split; [| split; [| split]]].
  - intros Hgiven. by rewrite _find_library_path_run, Hgiven.
  - intros Hgiven e Hcwd. by rewrite _find_library_path_run, Hgiven, Hcwd.
  - intros Hgiven cwd e Hcwd Hdir. rewrite _find_library_path_run, Hgiven, Hcwd.
    cbv zeta. unfold search_paths in Hdir |- *. simpl in Hdir. cbn [probe_paths].
    unfold bind at 1, Path_exists_call, call. by rewrite Hdir.
  - apply _find_library_path_raises.
  - intros cwd Hcwd Hag. split; [by apply _find_library_path_resolved |].
    apply resolve_library_found.
Qed.

Lemma open_ns_file_run env self lib tr :
  (open_ns_file env self lib tr).1
  = match ns_File env (filename self) with
    | Ok f => Ok {| filename := filename self; library_path := library_path self;
                    _lib := lib; _file := Some f |}
    | Raise e => Raise e
    end.
Proof. unfold open_ns_file, bind, call. by destruct (ns_File env (filename self)). Qed.

Lemma _open_file_run env self tr :
  _lib self = None →
  (_open_file env self tr).1
  = match ns_File env (filename self) with
    | Ok f => Ok {| filename := filename self; library_path := library_path self;
                    _lib := loaded_library env (library_path self); _file := Some f |}
    | Raise e => Raise (OpenError e)
    end.
Proof.
  intros Hlib. unfold _open_file, loaded_library, try_except.
  assert (Hwrap : ∀ lib tr',
    (let (r, tr'') := open_ns_file env self lib tr' in
     match r with
     | Ok a => (Ok a, tr'')
     | Raise e => raise (OpenError e) tr''
     end).1
    = match ns_File env (filename self) with
      | Ok f => Ok {| filename := filename self; library_path := library_path self;
                      _lib := lib; _file := Some f |}
      | Raise e => Raise (OpenError e)
      end).
  { intros lib tr'. pose proof (open_ns_file_run env self lib tr') as H.
    destruct (open_ns_file env self lib tr') as [[a|e] tr'']; simpl in H;
      destruct (ns_File env (filename self)); by simplify_eq. }
  unfold bind at 1.
  destruct (truthy (library_path self)); cbn [andb];
    [unfold os_path_exists, call; destruct (path_exists env (library_path self)) |];
    [| rewrite Hlib; apply Hwrap ..].
  unfold bind at 1.
  set (prepend := if String.eqb (platform env) "win32" && truthy _ then _ else _).
  assert (∃ tr1, prepend (tr ++ [EvPathExists (library_path self)]) = (Ok tt, tr1))
    as [tr1 ->].
  { unfold prepend. destruct (_ && _); by eexists. }
  unfold bind at 1, try_except, bind, call.
  destruct (ns_Library env _ _) as [lib|e]; apply Hwrap.
Qed.

Lemma MCDFile_init_run env filename library_path tr :
  (MCDFile_init env filename library_path tr).1
  = if path_exists env filename then
      match (_find_library_path env library_path (tr ++ [EvPathExists filename])).1 with
      | Ok found =>
          match ns_File env filename with
          | Ok f =>
              Ok {| filename := filename;
                    library_path := found;
                    _lib := loaded_library env found;
                    _file := Some f |}
          | Raise e => Raise (RuntimeError ("Failed to open MCD file: " +:+ exn_str e))
          end
      | Raise e => Raise e
      end
    else Raise (FileNotFoundError ("MCD file not found: " +:+ filename)).
Proof.
  unfold MCDFile_init, bind at 1, os_path_exists, call.
  destruct (path_exists env filename); cbn [negb]; [| done].
  unfold bind.
  destruct (_find_library_path env library_path _) as [[lp|e] tr1]; cbn [fst]; [| done].
  by rewrite _open_file_run.
Qed.

(** X4.  Constructing the accessor.  A path that does not exist gives
    [FileNotFoundError].  Otherwise the library is searched for, and
    an exception of the search leaves the constructor as it is: it is
    raised outside the [try] of [_open_file] and is not wrapped.  When
    the search returns, the constructor succeeds exactly when
    [ns.File] opens the recording: a library that cannot be found or
    loaded is never a reason to fail.  The handle it returns keeps the
    file name, the path the search returned, the library object if one
    was loaded, and the open file.  When [ns.File] raises, the failure
    is a [RuntimeError] whose message is ["Failed to open MCD file: "]
    followed by the text of that exception.  When the working
    directory is known and [Path.exists()] raises on no path, the
    search returns the resolved path. *)
Theorem MCDFile_init_outcome
    (env : Env) (filename : string) (library_path : option string) (tr : trace) :
  (MCDFile_init env filename library_path tr).1
  = (if path_exists env filename then
       match (_find_library_path env library_path (tr ++ [EvPathExists filename])).1 with
       | Ok found =>
           match ns_File env filename with
           | Ok f =>
               Ok {| filename := filename;
                     library_path := found;
                     _lib := loaded_library env found;
                     _file := Some f |}
           | Raise e => Raise (RuntimeError ("Failed to open MCD file: " +:+ exn_str e))
           end
       | Raise e => Raise e
       end
     else Raise (FileNotFoundError ("MCD file not found: " +:+ filename)))
  ∧ (path_exists env filename = true → explicit_usable env library_path = false →
     ∀ e, Path_cwd env = Raise e →
       (MCDFile_init env filename library_path tr).1 = Raise e)
  ∧ (∀ cwd, Path_cwd env = Ok cwd → Path_agrees env →
       (MCDFile_init env filename library_path tr).1
       = if path_exists env filename then
           match ns_File env filename with
           | Ok f =>
               Ok {| filename := filename;
                     library_path := resolve_library env cwd library_path;
                     _lib := loaded_library env (resolve_library env cwd library_path);
                     _file := Some f |}
           | Raise e => Raise (RuntimeError ("Failed to open MCD file: " +:+ exn_str e))
           end
         else Raise (FileNotFoundError ("MCD file not found: " +:+ filename))).
Proof.
  split; [apply MCDFile_init_run |]. split.
  - intros Hex Hgiven e Hcwd. rewrite MCDFile_init_run, Hex.
    by rewrite _find_library_path_run, Hgiven, Hcwd.
  - intros cwd Hcwd Hag. rewrite MCDFile_init_run.
    by rewrite (_find_library_path_resolved env library_path _ cwd Hcwd Hag).
Qed.

(** ** The type table and the filter by name *)

Lemma ENTITY_TYPE_NAMES_lookup (t : Z) :
  ENTITY_TYPE_NAMES !! t
  = if bool_decide (t = 4) then Some "neural"
    else if bool_decide (t = 3) then Some "segment"
    else if bool_decide (t = 2) then Some "analog"
    else if bool_decide (t = 1) then Some "event"
    else if bool_decide (t = 0) then Some "unknown"
    else None.
Proof.
  unfold ENTITY_TYPE_NAMES.
  repeat (case_bool_decide; [subst; by simplify_map_eq |]).
  by simplify_map_eq.
Qed.

Lemma type_map_items :
  map_to_list type_map
  = [("segment", 3); ("unknown", 0); ("event", 1); ("analog", 2); ("neural", 4)].
Proof. by vm_compute. Qed.

(** X5.  The table used for a name filter is the inverse of the type
    table: a name is mapped to a code exactly when the type table
    gives that name to that code.  So the names a filter accepts are
    the five names of the table and no other. *)
Theorem type_map_inverse (name : string) (t : Z) :
  type_map !! name = Some t ↔ ENTITY_TYPE_NAMES !! t = Some name.
Proof.
  rewrite <- elem_of_map_to_list, type_map_items, ENTITY_TYPE_NAMES_lookup.
  rewrite !elem_of_cons, elem_of_nil. split.
  - intros [H|[H|[H|[H|[H|[]]]]]]; by simplify_eq.
  - repeat case_bool_decide; intros Hname; simplify_eq; tauto.
Qed.

Lemma type_map_None (name : string) :
  name ∉ type_names → type_map !! name = None.
Proof.
  intros Hname. destruct (type_map !! name) as [t|] eqn:Ht; [| done].
  apply type_map_inverse in Ht. rewrite ENTITY_TYPE_NAMES_lookup in Ht.
  exfalso. apply Hname. unfold type_names.
  repeat case_bool_decide; simplify_eq; set_solver.
Qed.

(** X6.  A name filter is validated before anything else: when the
    name has ASCII characters only and, lower-cased, is not one of the
    five names of the table, [get_entities_by_type] raises the
    [ValueError] that quotes the lower-cased name, without any
    external call, whether the handle is open or closed. *)
Theorem get_entities_by_type_invalid_name
    (self : MCDFile) (name : string) (tr : trace) :
  is_ascii name = true →
  lower name ∉ type_names →
  get_entities_by_type self (TypeName name) tr
  = (Raise (ValueError ("Invalid entity type: " +:+ lower name)), tr).
Proof.
  intros _ Hname. unfold get_entities_by_type.
  by rewrite (type_map_None _ Hname).
Qed.

Lemma get_entities_by_type_invalid_name_witness :
  is_ascii "Spikes" = true
  ∧ (lower "Spikes" ∉ type_names)
  ∧ get_entities_by_type (close Sample.handle) (TypeName "Spikes") []
    = (Raise (ValueError "Invalid entity type: spikes"), []).
Proof.
  assert (H : lower "Spikes" ∉ type_names).
  { unfold type_names. rewrite !not_elem_of_cons. repeat split; try discriminate.
    apply not_elem_of_nil. }
  split; [reflexivity |]. split; [exact H |].
  apply (get_entities_by_type_invalid_name (close Sample.handle) "Spikes" []
           eq_refl H).
Defined.

(** X7.  A name filter is a code filter: when the lower-cased name is
    the table's name of the code [t], filtering by the name is
    filtering by [t], with the same result and the same external
    calls.  Upper and lower case in the name make no difference. *)
Theorem get_entities_by_type_name_is_code
    (self : MCDFile) (name : string) (t : Z) (tr : trace) :
  ENTITY_TYPE_NAMES !! t = Some (lower name) →
  get_entities_by_type self (TypeName name) tr
  = get_entities_by_type self (TypeCode t) tr.
Proof.
  intros Ht. apply type_map_inverse in Ht.
  unfold get_entities_by_type. by rewrite Ht.
Qed.

Lemma get_entities_by_type_name_is_code_witness :
  ENTITY_TYPE_NAMES !! 2 = Some (lower "ANALOG")
  ∧ get_entities_by_type Sample.handle (TypeName "ANALOG") []
    = get_entities_by_type Sample.handle (TypeCode 2) [].
Proof.
  assert (H : ENTITY_TYPE_NAMES !! 2 = Some (lower "ANALOG")) by (by vm_compute).
  split; [exact H |].
  apply (get_entities_by_type_name_is_code Sample.handle "ANALOG" 2 [] H).
Defined.

Lemma type_name_of_cases (t : Z) :
  type_name_of t ∈ type_names
  ∧ (type_name_of t = "unknown" ↔ ¬ (1 ≤ t ≤ 4)).
Proof.
  unfold type_name_of, type_names. rewrite ENTITY_TYPE_NAMES_lookup.
  repeat case_bool_decide; subst; simpl; (split; [set_solver |]);
    split; (done || lia || (intros; lia)).
Qed.

(** X8.  In a listing, the type name of an entity is one of the five
    names of the table, and it is ["unknown"] exactly when the type
    code is not 1, 2, 3 or 4: code 0 and every code outside the table
    are listed under the same name. *)
Theorem list_entities_type_names
    (self : MCDFile) (tr : trace) (es : list EntitySummary) (e : EntitySummary) :
  (list_entities self tr).1 = Ok es →
  e ∈ es →
  es_type_name e ∈ type_names
  ∧ (es_type_name e = "unknown" ↔ ¬ (1 ≤ es_type e ≤ 4)).
Proof.
  intros Hes He. destruct (list_entities_shape _ _ _ Hes) as [_ Hnames].
  rewrite (proj1 (Forall_forall _ _) Hnames e He). apply type_name_of_cases.
Qed.

Lemma list_entities_type_names_witness :
  (list_entities Sample.handle []).1
  = Ok [entity_summary 0 (Sample.entity "Ch1" 2 3);
        entity_summary 1 (Sample.entity "Trig/1" 1 2);
        entity_summary 2 (Sample.entity "Spk" 3 5);
        Sample.aux_summary]
  ∧ (es_type_name Sample.aux_summary = "unknown"
     ↔ ¬ (1 ≤ es_type Sample.aux_summary ≤ 4)).
Proof.
  split; [reflexivity |].
  eapply (list_entities_type_names Sample.handle [] _ Sample.aux_summary eq_refl).
  do 3 right. left.
Defined.

(** ** What the loops of the accessor call, and where they stop *)

Lemma attempted_all_ok {A} (rs : list (result A)) :
  Forall (λ r, is_ok r = true) rs → attempted rs = length rs.
Proof. induction 1 as [|[a|e] rs Hr _ IH]; simpl; [done | by rewrite IH | done]. Qed.

Lemma attempted_result_map {A B C} (f : C → A → B) (g : C → result A) (xs : list C) :
  attempted ((λ x, result_map (f x) (g x)) <$> xs) = attempted (g <$> xs).
Proof.
  induction xs as [|x xs IH]; [done |]. rewrite !fmap_cons. simpl.
  destruct (g x); simpl; by rewrite ?IH.
Qed.

(** A collecting loop whose body makes the calls [ev x] and returns
    [g x] makes the calls of its iterations in order and stops after
    the first iteration that raises. *)
Lemma for_collect_trace {A B} (body : A → M B) (g : A → result B)
    (ev : A → list event) xs tr :
  (∀ x tr', body x tr' = (g x, tr' ++ ev x)) →
  for_collect xs body tr
  = (sequence_results (g <$> xs),
     tr ++ concat (ev <$> take (attempted (g <$> xs)) xs)).
Proof.
  intros Hb. revert tr. induction xs as [|x xs IH]; intros tr.
  - simpl. by rewrite app_nil_r.
  - rewrite fmap_cons. cbn [for_collect sequence_results attempted].
    unfold bind at 1. rewrite Hb. destruct (g x) as [y|e].
    + unfold bind. rewrite IH. cbn [take]. rewrite fmap_cons. cbn [concat].
      rewrite <- !app_assoc. by destruct (sequence_results (g <$> xs)).
    + simpl. by rewrite app_nil_r.
Qed.

Lemma concat_singletons {A B} (f : A → B) (xs : list A) :
  concat ((λ x, [f x]) <$> xs) = f <$> xs.
Proof. induction xs as [|x xs IH]; [done |]. rewrite !fmap_cons. simpl. by rewrite IH. Qed.

(** X9.  On an open file, [list_entities] fetches the entities 0, 1,
    2, ... in this order and stops at the first one the binding
    refuses, whose exception it raises.  When it returns, the list has
    [entity_count] entries and entry [i] is the summary of entity [i];
    it returns whenever every entity below [entity_count] can be
    fetched, after exactly one [get_entity] call per entity. *)
Theorem list_entities_spec (self : MCDFile) (f : NsFile) (tr : trace) :
  _file self = Some f →
  let n := entity_count f in
  list_entities self tr
  = (sequence_results ((λ i, result_map (entity_summary i) (get_entity f i)) <$> range n),
     tr ++ (EvGetEntity <$> take (attempted (get_entity f <$> range n)) (range n)))
  ∧ (∀ es, (list_entities self tr).1 = Ok es →
       length es = n
       ∧ ∀ i, (i < n)%nat →
           ∃ entity, get_entity f (Z.of_nat i) = Ok entity
                     ∧ es !! i = Some (entity_summary (Z.of_nat i) entity))
  ∧ ((∀ i, (i < n)%nat → is_ok (get_entity f (Z.of_nat i)) = true) →
     is_ok (list_entities self tr).1 = true
     ∧ (list_entities self tr).2 = tr ++ (EvGetEntity <$> range n)).
Proof.
  intros Hf n.
  assert (Hrun : list_entities self tr
    = (sequence_results
         ((λ i, result_map (entity_summary i) (get_entity f i)) <$> range n),
       tr ++ (EvGetEntity <$> take (attempted (get_entity f <$> range n)) (range n)))).
  { unfold list_entities.
    rewrite (bind_ok _ _ _ _ _ (require_open_open _ _ _ Hf)). fold n.
    rewrite (for_collect_trace _
               (λ i, result_map (entity_summary i) (get_entity f i))
               (λ i, [EvGetEntity i])).
    - by rewrite attempted_result_map, concat_singletons.
    - intros i tr'. unfold ns_get_entity, bind, call, entity_summary.
      by destruct (get_entity f i). }
  split; [exact Hrun |]. rewrite Hrun. cbn [fst snd]. split.
  - intros es Hes. apply sequence_results_Ok in Hes.
    assert (Hlen : length es = n).
    { apply (f_equal length) in Hes. rewrite !length_fmap, range_length in Hes. done. }
    split; [exact Hlen |]. intros i Hi.
    apply (f_equal (λ l, l !! i)) in Hes.
    rewrite !list_lookup_fmap, range_lookup in Hes by done. simpl in Hes.
    destruct (get_entity f (Z.of_nat i)) as [entity|e]; simpl in Hes.
    + exists entity. split; [done |].
      destruct (es !! i); simpl in Hes; congruence.
    + destruct (es !! i); simpl in Hes; congruence.
  - intros Hall.
    assert (Hok : Forall (λ r, is_ok r = true) (get_entity f <$> range n)).
    { apply Forall_fmap, Forall_lookup_2. intros i x Hx. simpl.
      assert (Hi : (i < n)%nat).
      { apply lookup_lt_Some in Hx. by rewrite range_length in Hx. }
      rewrite range_lookup in Hx by done. injection Hx as <-. by apply Hall. }
    split.
    + apply sequence_results_is_ok, Forall_fmap.
      apply Forall_fmap in Hok. eapply Forall_impl; [exact Hok |].
      intros i Hi. simpl in *. by destruct (get_entity f i).
    + rewrite (attempted_all_ok _ Hok), length_fmap, range_length.
      by rewrite take_ge by (by rewrite range_length).
Qed.

Lemma list_entities_spec_witness :
  _file Sample.handle = Some Sample.file
  ∧ (list_entities Sample.handle []).2
    = [EvGetEntity 0; EvGetEntity 1; EvGetEntity 2; EvGetEntity 3].
Proof.
  split; [reflexivity |].
  destruct (list_entities_spec Sample.handle Sample.file [] eq_refl) as (-> & _).
  reflexivity.
Defined.

(** X10.  On a segment entity of an open file, [get_all_segments]
    fetches the entity once for itself and once more for every segment
    it reads, each fetch followed by the read of one segment; the
    indices go up from 0 and the loop stops after the first read that
    raises.  A run in which [k] reads are attempted thus makes
    [1 + 2 * k] calls into the binding, and an entity without segments
    costs one fetch and yields the empty list. *)
Theorem get_all_segments_calls
    (self : MCDFile) (f : NsFile) (entity : NsEntity) (entity_id : Z) (tr : trace) :
  _file self = Some f →
  get_entity f entity_id = Ok entity →
  entity_type entity = ENTITY_SEGMENT →
  let n := item_count entity in
  let k := attempted (segment_get_data entity <$> range n) in
  (get_all_segments self entity_id tr).2
  = tr ++ EvGetEntity entity_id
       :: concat ((λ i, [EvGetEntity entity_id; EvGetData entity_id [i]])
                    <$> take k (range n))
  ∧ length (get_all_segments self entity_id tr).2 = (length tr + 1 + 2 * k)%nat
  ∧ (k ≤ n)%nat
  ∧ (n = 0%nat → get_all_segments self entity_id tr = (Ok [], tr ++ [EvGetEntity entity_id])).
Proof.
  intros Hf He Hty n k.
  assert (Hrun : get_all_segments self entity_id tr
    = (sequence_results
         ((λ i, result_map (segment_record entity) (segment_get_data entity i))
            <$> range n),
       (tr ++ [EvGetEntity entity_id])
       ++ concat ((λ i, [EvGetEntity entity_id; EvGetData entity_id [i]])
                    <$> take k (range n)))).
  { unfold get_all_segments. rewrite (fetch_entity _ _ _ _ _ _ Hf He).
    rewrite (bind_ok _ _ _ _ _ (check_type_same _ _ _ _ _ Hty)). fold n.
    rewrite (for_collect_trace _
               (λ i, result_map (segment_record entity) (segment_get_data entity i))
               (λ i, [EvGetEntity entity_id; EvGetData entity_id [i]])).
    - unfold k. by rewrite attempted_result_map.
    - intros i tr'. apply (get_segment_data_run _ _ _ _ _ _ Hf He Hty). }
  assert (Hk : (k ≤ n)%nat).
  { unfold k. rewrite <- (range_length n) at 2.
    generalize (range n). intros l.
    induction l as [|i l IH]; [done |]. rewrite fmap_cons.
    cbn [attempted length]. destruct (segment_get_data entity i); lia. }
  rewrite Hrun. cbn [snd]. split; [by rewrite <- app_assoc |]. split; [| split].
  - rewrite !length_app. simpl.
    assert (Hlen : ∀ l : list Z,
      length (concat ((λ i, [EvGetEntity entity_id; EvGetData entity_id [i]]) <$> l))
      = (2 * length l)%nat).
    { induction l as [|i l IH]; [done |]. rewrite fmap_cons. simpl. rewrite IH. lia. }
    rewrite Hlen, length_take, range_length. lia.
  - exact Hk.
  - intros Hn. assert (k = 0%nat) as -> by lia. rewrite Hn. simpl.
    by rewrite app_nil_r.
Qed.

Lemma get_all_segments_calls_witness :
  _file Sample.handle = Some Sample.file
  ∧ get_entity Sample.file 2 = Ok (Sample.entity "Spk" 3 5)
  ∧ entity_type (Sample.entity "Spk" 3 5) = ENTITY_SEGMENT
  ∧ length (get_all_segments Sample.handle 2 []).2 = 11%nat.
Proof.
  split; [reflexivity |]. split; [reflexivity |]. split; [reflexivity |].
  destruct (get_all_segments_calls Sample.handle Sample.file
              (Sample.entity "Spk" 3 5) 2 [] eq_refl eq_refl eq_refl)
    as (_ & H & _).
  exact H.
Defined.

(** ** Ranges of samples *)

(** X11.  On a neural entity of an open file, [get_neural_data]
    replaces a negative [count] by [item_count], whatever
    [start_index] is, and passes every other [count] on as it is; the
    binding is asked once, for [(start_index, count)], and its
    timestamps or its exception are what the caller gets.  A call with
    a negative count is the call with [count = item_count]. *)
Theorem get_neural_data_count
    (self : MCDFile) (f : NsFile) (entity : NsEntity)
    (entity_id start_index count : Z) (tr : trace) :
  _file self = Some f →
  get_entity f entity_id = Ok entity →
  entity_type entity = ENTITY_NEURAL →
  let asked := if bool_decide (count < 0) then Z.of_nat (item_count entity) else count in
  get_neural_data self entity_id start_index count tr
  = (result_map (λ data, {| ne_timestamps := data; ne_label := label entity |})
       (neural_get_data entity start_index asked),
     tr ++ [EvGetEntity entity_id; EvGetData entity_id [start_index; asked]])
  ∧ (count < 0 →
     get_neural_data self entity_id start_index count tr
     = get_neural_data self entity_id start_index (Z.of_nat (item_count entity)) tr).
Proof.
  intros Hf He Hty asked.
  assert (Hrun : ∀ c,
    get_neural_data self entity_id start_index c tr
    = (result_map (λ data, {| ne_timestamps := data; ne_label := label entity |})
         (neural_get_data entity start_index
            (if bool_decide (c < 0) then Z.of_nat (item_count entity) else c)),
       tr ++ [EvGetEntity entity_id;
              EvGetData entity_id
                [start_index;
                 if bool_decide (c < 0) then Z.of_nat (item_count entity) else c]])).
  { intros c. unfold get_neural_data. rewrite (fetch_entity _ _ _ _ _ _ Hf He).
    rewrite (bind_ok _ _ _ _ _ (check_type_same _ _ _ _ _ Hty)).
    unfold bind, call. rewrite <- app_assoc. simpl.
    by destruct (neural_get_data entity start_index _). }
  split; [apply Hrun |]. intros Hneg. rewrite !Hrun.
  rewrite (bool_decide_eq_true_2 _ Hneg).
  by rewrite (bool_decide_eq_false_2 (Z.of_nat (item_count entity) < 0)) by lia.
Qed.

Lemma get_neural_data_count_witness :
  _file Sample.spikes_handle = Some Sample.spikes_file
  ∧ get_entity Sample.spikes_file 0 = Ok (Sample.entity "N1" 4 7)
  ∧ entity_type (Sample.entity "N1" 4 7) = ENTITY_NEURAL
  ∧ (get_neural_data Sample.spikes_handle 0 2 (-1) []).2
    = [EvGetEntity 0; EvGetData 0 [2; 7]].
Proof.
  split; [reflexivity |]. split; [reflexivity |]. split; [reflexivity |].
  destruct (get_neural_data_count Sample.spikes_handle Sample.spikes_file
              (Sample.entity "N1" 4 7) 0 2 (-1) [] eq_refl eq_refl eq_refl)
    as (-> & _).
  reflexivity.
Defined.

(** X12.  On an analog entity of an open file, [get_analog_data]
    passes [start_index] and [count] to the binding as they are (the
    default [count = -1] is not resolved by the wrapper), asks once,
    and returns the binding's samples, timestamps and continuous count
    unchanged next to the attributes of the entity; an exception of
    the read reaches the caller unchanged. *)
Theorem get_analog_data_delegated
    (self : MCDFile) (f : NsFile) (entity : NsEntity)
    (entity_id start_index count : Z) (tr : trace) :
  _file self = Some f →
  get_entity f entity_id = Ok entity →
  entity_type entity = ENTITY_ANALOG →
  get_analog_data self entity_id start_index count tr
  = (result_map (analog_record entity) (analog_get_data entity start_index count),
     tr ++ [EvGetEntity entity_id; EvGetData entity_id [start_index; count]])
  ∧ (∀ r, (get_analog_data self entity_id start_index count tr).1 = Ok r →
       analog_get_data entity start_index count
       = Ok (an_data r, an_timestamps r, an_continuous_count r)).
Proof.
  intros Hf He Hty.
  assert (Hrun : get_analog_data self entity_id start_index count tr
    = (result_map (analog_record entity) (analog_get_data entity start_index count),
       tr ++ [EvGetEntity entity_id; EvGetData entity_id [start_index; count]])).
  { unfold get_analog_data. rewrite (fetch_entity _ _ _ _ _ _ Hf He).
    rewrite (bind_ok _ _ _ _ _ (check_type_same _ _ _ _ _ Hty)).
    unfold bind, call. rewrite <- app_assoc. simpl.
    by destruct (analog_get_data entity start_index count) as [[[d t] c]|e]. }
  split; [exact Hrun |]. rewrite Hrun. cbn [fst]. intros r Hr.
  destruct (analog_get_data entity start_index count) as [[[d t] c]|e]; [| done].
  by injection Hr as <-.
Qed.

Lemma get_analog_data_delegated_witness :
  _file Sample.handle = Some Sample.file
  ∧ get_entity Sample.file 0 = Ok (Sample.entity "Ch1" 2 3)
  ∧ entity_type (Sample.entity "Ch1" 2 3) = ENTITY_ANALOG
  ∧ (get_analog_data Sample.handle 0 0 (-1) []).2
    = [EvGetEntity 0; EvGetData 0 [0; -1]].
Proof.
  split; [reflexivity |]. split; [reflexivity |]. split; [reflexivity |].
  destruct (get_analog_data_delegated Sample.handle Sample.file
              (Sample.entity "Ch1" 2 3) 0 0 (-1) [] eq_refl eq_refl eq_refl)
    as (-> & _).
  reflexivity.
Defined.

(** ** Metadata *)

(** X13.  On an open file, [get_entity_info] fetches the entity and
    reads no data.  The detail it returns echoes the identifier it was
    given and agrees with the summary of that entity on label, type,
    type name and item count, so that it is the entry of
    [list_entities] at that position; it carries the analog fields
    exactly for type 2, the segment fields exactly for type 3, and no
    type-specific field for any other type.  An exception of
    [get_entity] reaches the caller unchanged. *)
Theorem get_entity_info_spec
    (self : MCDFile) (f : NsFile) (entity_id : Z) (tr : trace) :
  _file self = Some f →
  (∀ e, get_entity f entity_id = Raise e →
        get_entity_info self entity_id tr = (Raise e, tr ++ [EvGetEntity entity_id]))
  ∧ (∀ entity, get_entity f entity_id = Ok entity →
       ∃ d, get_entity_info self entity_id tr = (Ok d, tr ++ [EvGetEntity entity_id])
            ∧ detail_summary d = entity_summary entity_id entity
            ∧ ed_metadata_raw d = metadata_raw entity
            ∧ (entity_type entity = 2 →
               ed_specific d = AnalogFields (sample_rate entity) (min_value entity)
                                 (max_value entity) (units entity) (resolution entity))
            ∧ (entity_type entity = 3 →
               ed_specific d = SegmentFields (source_count entity)
                                 (max_sample_count entity) (sample_rate entity))
            ∧ (entity_type entity ≠ 2 → entity_type entity ≠ 3 →
               ed_specific d = NoFields)
            ∧ (∀ es tr', (list_entities self tr').1 = Ok es → 0 ≤ entity_id →
                 (Z.to_nat entity_id < length es)%nat →
                 es !! Z.to_nat entity_id = Some (detail_summary d))).
Proof.
  intros Hf. split.
  - intros e He. unfold get_entity_info.
    rewrite (bind_ok _ _ _ _ _ (require_open_open _ _ _ Hf)).
    eapply bind_raise. unfold ns_get_entity, call. by rewrite He.
  - intros entity He. eexists. split.
    { unfold get_entity_info. rewrite (fetch_entity _ _ _ _ _ _ Hf He). reflexivity. }
    split; [done |]. split; [done |]. cbn [ed_specific]. unfold ENTITY_ANALOG, ENTITY_SEGMENT.
    split; [| split; [| split]].
    + intros Hty. by rewrite bool_decide_eq_true_2.
    + intros Hty. rewrite bool_decide_eq_false_2 by lia. by rewrite bool_decide_eq_true_2.
    + intros H2 H3. by rewrite !bool_decide_eq_false_2.
    + intros es tr' Hes Hpos Hlt.
      rewrite (list_entities_run _ _ _ Hf) in Hes. apply sequence_results_Ok in Hes.
      assert (Hn : (Z.to_nat entity_id < entity_count f)%nat).
      { apply (f_equal length) in Hes.
        rewrite !length_fmap, range_length in Hes. lia. }
      apply (f_equal (λ l, l !! Z.to_nat entity_id)) in Hes.
      rewrite !list_lookup_fmap, range_lookup in Hes by done. simpl in Hes.
      rewrite Z2Nat.id, He in Hes by done. simpl in Hes.
      destruct (es !! Z.to_nat entity_id) as [e'|]; simpl in Hes; [| done].
      by injection Hes as <-.
Qed.

Lemma get_entity_info_spec_witness :
  _file Sample.handle = Some Sample.file
  ∧ get_entity Sample.file 2 = Ok (Sample.entity "Spk" 3 5)
  ∧ ∃ d, get_entity_info Sample.handle 2 [] = (Ok d, [EvGetEntity 2])
         ∧ ed_specific d = SegmentFields 1 1 1000%float.
Proof.
  split; [reflexivity |]. split; [reflexivity |].
  destruct (get_entity_info_spec Sample.handle Sample.file 2 [] eq_refl) as (_ & H).
  destruct (H (Sample.entity "Spk" 3 5) eq_refl) as (d & Hrun & _ & _ & _ & Hseg & _).
  exists d. split; [exact Hrun |]. apply Hseg. reflexivity.
Defined.

(** X14.  On an open file, [info] calls nothing and returns the
    attributes of the file object, each under its own key: the file
    type, the entity count, the timestamp resolution, the time span,
    the application name and the comment.  Each of the six calendar
    fields is the entry of the file metadata under its own key (
    [Time_Year], [Time_Month], [Time_Day], [Time_Hour], [Time_Min],
    [Time_Sec]), and 0 when the metadata lacks that key, so a file
    without metadata has a date of six zeros.  The entity count is the
    length of every listing that [list_entities] returns on that
    handle. *)
Theorem info_spec (self : MCDFile) (f : NsFile) (tr : trace) :
  _file self = Some f →
  ∃ i, info self tr = (Ok i, tr)
       ∧ fi_file_type i = file_type f
       ∧ fi_entity_count i = entity_count f
       ∧ fi_time_stamp_resolution i = time_stamp_resolution f
       ∧ fi_time_span i = time_span f
       ∧ fi_app_name i = app_name f
       ∧ fi_comment i = comment f
       ∧ year (fi_date i) = default (PyInt 0) (file_metadata_raw f !! "Time_Year")
       ∧ month (fi_date i) = default (PyInt 0) (file_metadata_raw f !! "Time_Month")
       ∧ day (fi_date i) = default (PyInt 0) (file_metadata_raw f !! "Time_Day")
       ∧ hour (fi_date i) = default (PyInt 0) (file_metadata_raw f !! "Time_Hour")
       ∧ minute (fi_date i) = default (PyInt 0) (file_metadata_raw f !! "Time_Min")
       ∧ second (fi_date i) = default (PyInt 0) (file_metadata_raw f !! "Time_Sec")
       ∧ (∀ es tr', (list_entities self tr').1 = Ok es →
                    length es = fi_entity_count i)
       ∧ (file_metadata_raw f = ∅ →
          fi_date i = {| year := PyInt 0; month := PyInt 0; day := PyInt 0;
                         hour := PyInt 0; minute := PyInt 0; second := PyInt 0 |}).
Proof.
  intros Hf. eexists. split.
  { unfold info. rewrite (bind_ok _ _ _ _ _ (require_open_open _ _ _ Hf)). reflexivity. }
  do 12 (split; [reflexivity |]). split.
  - intros es tr' Hes. cbn [fi_entity_count].
    rewrite (list_entities_run _ _ _ Hf) in Hes. apply sequence_results_Ok in Hes.
    apply (f_equal length) in Hes. rewrite !length_fmap, range_length in Hes. done.
  - intros Hempty. cbn. unfold metadata_get. by rewrite Hempty, !lookup_empty.
Qed.

Lemma info_spec_witness :
  _file Sample.handle = Some Sample.file
  ∧ ∃ i, info Sample.handle [] = (Ok i, [])
         ∧ fi_entity_count i = 4%nat
         ∧ fi_app_name i = "MC_Rack"
         ∧ year (fi_date i) = PyInt 2020
         ∧ second (fi_date i) = PyInt 0.
Proof.
  split; [reflexivity |].
  destruct (info_spec Sample.handle Sample.file [] eq_refl)
    as (i & Hrun & _ & Hcount & _ & _ & Happ & _ & Hyear & _ & _ & _ & _ & Hsec & _).
  exists i. split; [exact Hrun |]. split; [exact Hcount |]. split; [exact Happ |].
  split; [rewrite Hyear | rewrite Hsec]; reflexivity.
Defined.

(** ** Names in the container *)

(** X15.  The group name made from a label has the length of the
    label and is the label with every slash replaced by an
    underscore, position by position: it contains no slash, it is the
    label itself when the label has none, and replacing twice is
    replacing once. *)
Theorem replace_slash_spec (s : string) :
  chars (replace_slash s)
  = (λ c, if Ascii.eqb c "/"%char then "_"%char else c) <$> chars s
  ∧ String.length (replace_slash s) = String.length s
  ∧ ("/"%char ∉ chars (replace_slash s))
  ∧ ("/"%char ∉ chars s → replace_slash s = s)
  ∧ replace_slash (replace_slash s) = replace_slash s.
Proof.
  unfold chars. induction s as [|c s (IH1 & IH2 & IH3 & IH4 & IH5)].
  - repeat split; try done. apply not_elem_of_nil.
  - cbn [replace_slash list_ascii_of_string String.length]. rewrite fmap_cons.
    split; [by rewrite IH1 |]. split; [by rewrite IH2 |]. split; [| split].
    + rewrite not_elem_of_cons. split; [| exact IH3].
      destruct (Ascii.eqb c "/") eqn:E; [done |]. intros <-.
      by rewrite Ascii.eqb_refl in E.
    + rewrite not_elem_of_cons. intros [Hc Hs]. rewrite IH4 by done.
      destruct (Ascii.eqb c "/") eqn:E; [| done].
      apply Ascii.eqb_eq in E. congruence.
    + rewrite IH5. f_equal. destruct (Ascii.eqb c "/") eqn:E; [done | by rewrite E].
Qed.

Lemma zeros_S (k : nat) :
  String.concat "" (replicate (S k) "0")
  = String "0" (String.concat "" (replicate k "0")).
Proof. by destruct k. Qed.

Lemma string_length_app (a b : string) :
  String.length (a +:+ b) = (String.length a + String.length b)%nat.
Proof. induction a as [|c a IH]; simpl; [done | by rewrite IH]. Qed.

Lemma string_app_inj_l (p a b : string) : p +:+ a = p +:+ b → a = b.
Proof. induction p as [|c p IH]; simpl; [done |]. intros [= H]. by apply IH. Qed.

Lemma zeros_length (k : nat) :
  String.length (String.concat "" (replicate k "0")) = k.
Proof.
  induction k as [|k IH]; [done |]. rewrite zeros_S. simpl. by rewrite IH.
Qed.

Lemma digits_nonempty (d : Decimal.uint) : NilZero.string_of_uint d ≠ "".
Proof. by destruct d. Qed.

Lemma parse_nat_digits (n : nat) :
  parse_nat (NilZero.string_of_uint (Nat.to_uint n)) = Some n.
Proof.
  unfold parse_nat. pose proof (DecimalNat.Unsigned.of_to n) as Hn.
  destruct (Nat.to_uint n) as [| | | | | | | | | |] eqn:E;
    try (rewrite NilZero.usu by done; simpl; by rewrite Hn).
  simpl in *. by rewrite <- Hn.
Qed.

Lemma parse_nat_zeros (k : nat) (s : string) :
  s ≠ "" → parse_nat (String.concat "" (replicate k "0") +:+ s) = parse_nat s.
Proof.
  intros Hs. induction k as [|k IH]; [done |].
  rewrite zeros_S.
  change (String "0" (String.concat "" (replicate k "0")) +:+ s)
    with (String "0" (String.concat "" (replicate k "0") +:+ s)).
  rewrite <- IH. unfold parse_nat.
  destruct (String.concat "" (replicate k "0") +:+ s) as [|c t] eqn:E.
  - exfalso. destruct (String.concat "" (replicate k "0")); [by simpl in E | done].
  - change (NilZero.uint_of_string (String "0" (String c t)))
      with (option_map Decimal.D0 (NilZero.uint_of_string (String c t))).
    by destruct (NilZero.uint_of_string (String c t)).
Qed.

(** X16.  The four-place number in the name of a segment group reads
    back as the index it was made from, so different indices give
    different names; it has at least four characters, and an index of
    four or more digits is written without padding. *)
Theorem zfill4_spec (n : nat) :
  parse_nat (zfill4 n) = Some n
  ∧ (4 ≤ String.length (zfill4 n))%nat
  ∧ (∀ m, "segment_" +:+ zfill4 n = "segment_" +:+ zfill4 m → n = m)
  ∧ ((4 ≤ String.length (NilZero.string_of_uint (Nat.to_uint n)))%nat →
     zfill4 n = NilZero.string_of_uint (Nat.to_uint n)).
Proof.
  assert (Hparse : ∀ k, parse_nat (zfill4 k) = Some k).
  { intros k. unfold zfill4.
    rewrite parse_nat_zeros by apply digits_nonempty. apply parse_nat_digits. }
  split; [apply Hparse |]. split; [| split].
  - unfold zfill4. rewrite string_length_app, zeros_length. lia.
  - intros m Hm. apply string_app_inj_l in Hm.
    pose proof (Hparse n) as Hn. rewrite Hm, Hparse in Hn. congruence.
  - intros Hlen. unfold zfill4.
    by replace (4 - _)%nat with 0%nat by lia.
Qed.

(** ** The converter: resources and skipped work *)

Lemma only_h5 (P : event → Prop) env op : P (EvH5 op) → only P (h5 env op).
Proof. intros H tr. exists [EvH5 op]. split; [done | by constructor]. Qed.

Ltac confine_io solve :=
  repeat first [ apply only_h5; solve | progress confine solve ].

Lemma convert_body_appends env mcd progress_callback :
  only (λ _, True) (convert_body env mcd progress_callback).
Proof.
  unfold convert_body, write_header, info, write_attr, list_entities, ns_get_entity,
    convert_entity, report, write_entity, get_event_data, get_analog_data,
    get_all_segments, get_neural_data, get_segment_data, ns_get_entity, event_step,
    write_segment.
  confine_io ltac:(exact I).
Qed.

(** X17.  Once [convert] has opened the container, it closes it on
    every path: whether the body returns or raises, the last thing
    [convert] does is the closing of the container, and its outcome is
    the outcome of the body.  When the container cannot be opened,
    nothing is written and nothing is closed. *)
Theorem convert_closes_container
    (env : Env) (self : MCD2HDF5Converter) (progress_callback : option callback)
    (mcd : MCDFile) (tr tr2 : trace) :
  h5py_installed env = true →
  MCDFile_init env (mcd_filename self) None (tr ++ [EvImportH5py]) = (Ok mcd, tr2) →
  (h5_File env (hdf5_filename self) = Ok tt →
   ∃ evs,
     convert env self progress_callback tr
     = ((convert_body env mcd progress_callback
           (tr2 ++ [EvH5Open (hdf5_filename self)])).1,
        tr2 ++ [EvH5Open (hdf5_filename self)] ++ evs ++ [EvH5Close]))
  ∧ (∀ e, h5_File env (hdf5_filename self) = Raise e →
          convert env self progress_callback tr
          = (Raise e, tr2 ++ [EvH5Open (hdf5_filename self)])).
Proof.
  intros Hh5 Hinit.
  assert (Hstart : ∀ k : MCDFile → M unit,
    (import_h5py env ;; mcd' <- MCDFile_init env (mcd_filename self) None ;; k mcd') tr
    = k mcd tr2).
  { intros k. unfold bind at 1, import_h5py, call. rewrite Hh5.
    unfold bind. by rewrite Hinit. }
  unfold convert. rewrite Hstart. split.
  - intros Hopen.
    destruct (convert_body_appends env mcd progress_callback
                (tr2 ++ [EvH5Open (hdf5_filename self)])) as (evs & Hevs & _).
    exists evs. unfold with_exit, bind, call, emit, ret. rewrite Hopen.
    destruct (convert_body env mcd progress_callback _) as [[[]|e] tr3];
      simpl in Hevs; subst tr3; cbn [fst]; by rewrite <- !app_assoc.
  - intros e Hopen. unfold with_exit, bind, call, ret. by rewrite Hopen.
Qed.

Lemma convert_closes_container_witness :
  h5py_installed Sample.env = true
  ∧ (MCDFile_init Sample.env "damaged.mcd" None [EvImportH5py]).1 = Ok
      {| filename := "damaged.mcd";
         library_path :=
           "/opt/mcd2dh5/Matlab-Import-Filter/Matlab_Interface/nsMCDLibrary.so";
         _lib := None; _file := Some Sample.damaged_file |}
  ∧ h5_File Sample.env "out.h5" = Ok tt
  ∧ last (convert Sample.env Sample.damaged_converter None []).2 = Some EvH5Close.
Proof.
  split; [reflexivity |]. split; [reflexivity |]. split; [reflexivity |].
  destruct (convert_closes_container Sample.env Sample.damaged_converter None
              {| filename := "damaged.mcd";
                 library_path :=
                   "/opt/mcd2dh5/Matlab-Import-Filter/Matlab_Interface/nsMCDLibrary.so";
                 _lib := None; _file := Some Sample.damaged_file |}
              [] _ eq_refl eq_refl) as (H & _).
  destruct (H eq_refl) as (evs & ->). cbn [snd].
  rewrite !app_assoc. apply last_snoc.
Defined.

(** X18.  [convert] touches the container only after the writer was
    imported and the source was opened.  Without [h5py] it raises the
    [ImportError] and does nothing else.  When the source cannot be
    opened it raises what the accessor raised, having made only the
    calls of the opening: the container is neither created nor
    truncated. *)
Theorem convert_source_first
    (env : Env) (self : MCD2HDF5Converter) (progress_callback : option callback)
    (tr : trace) :
  (h5py_installed env = false →
   convert env self progress_callback tr
   = (Raise (ImportError
        "h5py is required for conversion. Install with: pip install h5py"),
      tr ++ [EvImportH5py]))
  ∧ (h5py_installed env = true →
     ∀ e tr2,
       MCDFile_init env (mcd_filename self) None (tr ++ [EvImportH5py]) = (Raise e, tr2) →
       convert env self progress_callback tr = (Raise e, tr2)
       ∧ ∃ evs, tr2 = tr ++ EvImportH5py :: evs ∧ Forall (opening_event env) evs)
  ∧ (h5py_installed env = true →
     path_exists env (mcd_filename self) = false →
     convert env self progress_callback tr
     = (Raise (FileNotFoundError ("MCD file not found: " +:+ mcd_filename self)),
        tr ++ [EvImportH5py; EvPathExists (mcd_filename self)])).
Proof.
  split; [| split].
  - intros Hh5. unfold convert, bind at 1, import_h5py, call. by rewrite Hh5.
  - intros Hh5 e tr2 Hinit. split.
    + unfold convert, bind at 1, import_h5py, call. rewrite Hh5.
      unfold bind. by rewrite Hinit.
    + destruct (only_MCDFile_init env (mcd_filename self) None (tr ++ [EvImportH5py]))
        as (evs & Hevs & Hall).
      rewrite Hinit in Hevs. simpl in Hevs. exists evs.
      by rewrite Hevs, <- app_assoc.
  - intros Hh5 Hmissing. unfold convert, bind at 1, import_h5py, call. rewrite Hh5.
    unfold bind at 1, MCDFile_init, bind, os_path_exists, call.
    rewrite Hmissing. cbn [negb raise]. by rewrite <- app_assoc.
Qed.

Lemma convert_source_first_witness :
  h5py_installed Sample.win_env = false
  ∧ h5py_installed Sample.env = true
  ∧ path_exists Sample.env "nowhere.mcd" = false
  ∧ convert Sample.win_env Sample.rec_converter None []
    = (Raise (ImportError
         "h5py is required for conversion. Install with: pip install h5py"),
       [EvImportH5py])
  ∧ convert Sample.env {| mcd_filename := "nowhere.mcd"; hdf5_filename := "out.h5" |}
      None []
    = (Raise (FileNotFoundError "MCD file not found: nowhere.mcd"),
       [EvImportH5py; EvPathExists "nowhere.mcd"]).
Proof.
  split; [reflexivity |]. split; [reflexivity |]. split; [reflexivity |]. split.
  - destruct (convert_source_first Sample.win_env Sample.rec_converter None [])
      as (H & _).
    apply H. reflexivity.
  - destruct (convert_source_first Sample.env
                {| mcd_filename := "nowhere.mcd"; hdf5_filename := "out.h5" |} None [])
      as (_ & _ & H).
    apply H; reflexivity.
Defined.

Lemma silent_with_exit {A} (body : M A) (exit : M unit) :
  silent body → silent exit → silent (with_exit body exit).
Proof.
  intros Hb Hx tr. destruct (Hb tr) as (evs & E & HP). unfold with_exit.
  destruct (body tr) as [[a|e] tr1]; simpl in E; subst tr1;
    destruct (Hx (tr ++ evs)) as (evs' & E' & HP');
    destruct (exit (tr ++ evs)) as [[u|e'] tr2]; simpl in E'; subst tr2;
    exists (evs ++ evs'); by rewrite app_assoc, progress_calls_app, HP, HP'.
Qed.

(** X19.  Without a progress callback, [convert] makes no progress
    report at all, on any path. *)
Theorem convert_without_callback_silent
    (env : Env) (self : MCD2HDF5Converter) (tr : trace) :
  ∃ evs, (convert env self None tr).2 = tr ++ evs ∧ progress_calls evs = [].
Proof.
  assert (H : silent (convert env self None)); [| apply H].
  unfold convert. apply silent_bind; [by apply silent_call | intros _].
  apply silent_bind; [apply silent_MCDFile_init | intros mcd].
  apply silent_with_exit; [| apply silent_ret].
  apply silent_bind; [by apply silent_call | intros _].
  apply silent_with_exit; [| by apply silent_emit].
  unfold convert_body.
  apply silent_bind; [apply silent_write_header | intros _].
  apply silent_bind; [apply silent_list_entities | intros es].
  apply silent_bind; [| intros _; apply silent_ret].
  apply silent_for_each. intros item. unfold convert_entity.
  apply silent_bind; [apply silent_ret | intros _].
  apply silent_try_except; [apply silent_write_entity | intros e; by apply silent_emit].
Qed.

(** X20.  In the conversion loop, an entity whose type code is not 1,
    2, 3 or 4 is skipped without a trace: after the progress report,
    nothing is read, nothing is written and no warning is printed. *)
Theorem convert_entity_skips_other_types
    (env : Env) (mcd : MCDFile) (progress_callback : option callback)
    (total : Z) (item : Z * EntitySummary) (tr : trace) :
  ¬ (1 ≤ es_type item.2 ≤ 4) →
  convert_entity env mcd progress_callback total item tr
  = report progress_callback item.1 total ("Converting " +:+ es_label item.2) tr.
Proof.
  intros Hty. unfold convert_entity, bind, write_entity, try_except.
  unfold ENTITY_EVENT, ENTITY_ANALOG, ENTITY_SEGMENT, ENTITY_NEURAL.
  rewrite !bool_decide_eq_false_2 by lia.
  by destruct (report _ _ _ _ tr) as [[[]|e] tr1].
Qed.

Lemma convert_entity_skips_other_types_witness :
  ¬ (1 ≤ es_type (3, Sample.aux_summary).2 ≤ 4)
  ∧ convert_entity Sample.env Sample.handle (Some Sample.quiet) 4
      (3, Sample.aux_summary) []
    = (Ok tt, [EvProgress 3 4 "Converting Aux"]).
Proof.
  assert (H : ¬ (1 ≤ es_type (3, Sample.aux_summary).2 ≤ 4)) by (simpl; lia).
  split; [exact H |].
  rewrite (convert_entity_skips_other_types Sample.env Sample.handle
             (Some Sample.quiet) 4 (3, Sample.aux_summary) [] H).
  reflexivity.
Defined.

(** X21.  When the values of an event entity stayed a list (because
    [np.array] raised), the conversion of that entity writes no
    ["values"] dataset: after the read, the only operations on the
    container are the creation of the group of the entity and of its
    ["timestamps"] dataset. *)
Theorem write_entity_event_list_values
    (env : Env) (mcd : MCDFile) (entity_id : Z) (label : string)
    (data : EventRecord) (l : list pyval) (tr tr1 : trace) :
  get_event_data env mcd entity_id tr = (Ok data, tr1) →
  ev_values data = ValuesList l →
  ∃ evs,
    (write_entity env mcd entity_id ENTITY_EVENT label tr).2 = tr1 ++ evs
    ∧ Forall (λ ev, ev = EvH5 (H5CreateGroup ["events"] label)
                    ∨ ev = EvH5 (H5CreateDataset ["events"; label] "timestamps"
                                   (DataFloats (ev_timestamps data)))) evs
    ∧ (length evs ≤ 2)%nat.
Proof.
  intros Hread Hvalues. unfold write_entity.
  rewrite bool_decide_eq_true_2 by done.
  rewrite (bind_ok _ _ _ _ _ Hread). rewrite Hvalues.
  unfold bind, h5, ret.
  destruct (h5_exec env tr1 _) as [[]|e].
  - destruct (h5_exec env _ _) as [[]|e];
      (cbn [snd]; rewrite <- app_assoc; eexists; split; [reflexivity |];
       split; [| simpl; lia];
       apply Forall_cons; split; [by left |];
       apply Forall_cons; split; [by right | by apply Forall_nil]).
  - cbn [snd]. eexists. split; [reflexivity |]. split; [| simpl; lia].
    apply Forall_cons; split; [by left | by apply Forall_nil].
Qed.

Lemma write_entity_event_list_values_witness :
  get_event_data Sample.env Sample.markers_handle 0 []
  = (Ok {| ev_timestamps := [0%float; 1%float];
           ev_values := ValuesList [PyInt 1; PyStr "start"];
           ev_event_type := 0; ev_label := "Mark" |},
     [EvGetEntity 0; EvGetData 0 [0]; EvGetData 0 [1]])
  ∧ ∃ evs,
      (write_entity Sample.env Sample.markers_handle 0 ENTITY_EVENT "Mark" []).2
      = [EvGetEntity 0; EvGetData 0 [0]; EvGetData 0 [1]] ++ evs
      ∧ (length evs ≤ 2)%nat.
Proof.
  split; [reflexivity |].
  destruct (write_entity_event_list_values Sample.env Sample.markers_handle 0 "Mark"
              _ _ [] _ eq_refl eq_refl) as (evs & Hevs & _ & Hlen).
  exists evs. split; [exact Hevs | exact Hlen].
Defined.

(** ** The grouping of a listing by type name *)

Lemma group_step_lookup m e k :
  group_step m e !! k
  = if decide (k = es_type_name e) then Some (default [] (m !! k) ++ [e])
    else m !! k.
Proof.
  unfold group_step. destruct (m !! es_type_name e) as [l|] eqn:Hl.
  - rewrite Hl. destruct (decide (k = es_type_name e)) as [->|Hk].
    + by rewrite lookup_insert_eq, Hl.
    + by rewrite lookup_insert_ne.
  - rewrite lookup_insert_eq. destruct (decide (k = es_type_name e)) as [->|Hk].
    + by rewrite lookup_insert_eq, Hl.
    + by rewrite !lookup_insert_ne.
Qed.

Lemma default_nonempty {A} (l : list A) : default [] (nonempty l) = l.
Proof. by destruct l. Qed.

Lemma group_by_type_name_lookup es k :
  group_by_type_name es !! k = nonempty (filter (λ e, es_type_name e = k) es).
Proof.
  unfold group_by_type_name. induction es as [|e es IH] using rev_ind; [done |].
  rewrite foldl_app. cbn [foldl]. rewrite group_step_lookup, filter_app, IH.
  destruct (decide (k = es_type_name e)) as [->|Hk].
  - rewrite default_nonempty, filter_cons_True by done.
    by destruct (filter _ es).
  - rewrite filter_cons_False by done. by rewrite app_nil_r.
Qed.

(** X22.  The grouping loop of the analysis example files every
    entity under its type name: a name is a key exactly when the
    listing has an entity of that name, and its entry is the listed
    entities of that name in listing order.  On the listing of an open
    file, the entry of the name of a code 1, 2, 3 or 4 is the list of
    the entities of that code (what a filter on that code selects),
    while the entry ["unknown"] collects every other code. *)
Theorem group_by_type_name_spec (entities : list EntitySummary) :
  (∀ k, group_by_type_name entities !! k
        = nonempty (filter (λ e, es_type_name e = k) entities))
  ∧ (∀ k l, group_by_type_name entities !! k = Some l →
            l ≠ [] ∧ sublist l entities ∧ Forall (λ e, es_type_name e = k) l)
  ∧ (∀ self tr, (list_entities self tr).1 = Ok entities →
       (∀ t, 1 ≤ t ≤ 4 →
             group_by_type_name entities !! type_name_of t
             = nonempty (filter (λ e, es_type e = t) entities))
       ∧ group_by_type_name entities !! "unknown"
         = nonempty (filter (λ e, ¬ (1 ≤ es_type e ≤ 4)) entities)).
Proof.
  split; [apply group_by_type_name_lookup |]. split.
  - intros k l. rewrite group_by_type_name_lookup. intros Hl.
    assert (l = filter (λ e, es_type_name e = k) entities) as ->.
    { destruct (filter _ entities); simpl in Hl; congruence. }
    split; [by destruct (filter _ entities) |]. split; [apply sublist_filter |].
    apply Forall_forall. intros e He. by apply list_elem_of_filter in He as [? _].
  - intros self tr Hes. destruct (list_entities_shape _ _ _ Hes) as [_ Hnames].
    assert (Hsame : ∀ (P Q : EntitySummary → Prop)
                      `{!∀ e, Decision (P e)} `{!∀ e, Decision (Q e)},
              (∀ e, e ∈ entities → P e ↔ Q e) →
              filter P entities = filter Q entities).
    { intros P Q ?? HPQ. clear Hes Hnames. induction entities as [|e es IH]; [done |].
      rewrite !filter_cons.
      destruct (decide (P e)) as [HP|HP], (decide (Q e)) as [HQ|HQ].
      - f_equal. apply IH. intros e' He'. apply HPQ. by right.
      - exfalso. apply HQ, HPQ; [left | done].
      - exfalso. apply HP, HPQ; [left | done].
      - apply IH. intros e' He'. apply HPQ. by right. }
    rewrite Forall_forall in Hnames. split.
    + intros t Ht. rewrite group_by_type_name_lookup. f_equal.
      apply Hsame. intros e He. rewrite (Hnames e He).
      destruct (type_name_of_cases t) as [_ Hunk_t].
      destruct (type_name_of_cases (es_type e)) as [_ Hunk_e].
      split; [| by intros ->]. intros Heq.
      assert (Hin : 1 ≤ es_type e ≤ 4).
      { destruct (decide (1 ≤ es_type e ≤ 4)) as [?|Hout]; [done |].
        apply Hunk_e in Hout. rewrite Hout in Heq. symmetry in Heq.
        apply Hunk_t in Heq. lia. }
      revert Heq. unfold type_name_of. rewrite !ENTITY_TYPE_NAMES_lookup.
      repeat case_bool_decide; simpl; intros; simplify_eq; lia.
    + rewrite group_by_type_name_lookup. f_equal. apply Hsame. intros e He.
      rewrite (Hnames e He). apply type_name_of_cases.
Qed.

(** ** Reads of events, and the native open *)

Lemma event_loop_trace entity entity_id (ids : list Z) acc tr :
  (for_fold ids acc (event_step entity entity_id) tr).2
  = tr ++ ((λ i, EvGetData entity_id [i])
             <$> take (attempted (event_get_data entity <$> ids)) ids).
Proof.
  revert acc tr. induction ids as [|i ids IH]; intros acc tr.
  - simpl. by rewrite app_nil_r.
  - rewrite fmap_cons. cbn [for_fold attempted]. unfold bind.
    rewrite event_step_run. destruct (event_get_data entity i) as [tv|e].
    + rewrite IH. cbn [take]. rewrite fmap_cons. by rewrite <- app_assoc.
    + done.
Qed.

(** X23.  On an event entity of an open file, [get_event_data]
    fetches the entity once and then reads the items 0, 1, 2, ... one
    by one, each exactly once, stopping after the first read that
    raises; with [item_count = 0] it reads nothing and returns an empty
    timestamp array and the conversion of the empty list. *)
Theorem get_event_data_calls
    (env : Env) (self : MCDFile) (f : NsFile) (entity : NsEntity)
    (entity_id : Z) (tr : trace) :
  _file self = Some f →
  get_entity f entity_id = Ok entity →
  entity_type entity = ENTITY_EVENT →
  let n := item_count entity in
  let k := attempted (event_get_data entity <$> range n) in
  (get_event_data env self entity_id tr).2
  = tr ++ EvGetEntity entity_id :: ((λ i, EvGetData entity_id [i]) <$> take k (range n))
  ∧ ((∀ i, (i < n)%nat → is_ok (event_get_data entity (Z.of_nat i)) = true) →
     (get_event_data env self entity_id tr).2
     = tr ++ EvGetEntity entity_id :: ((λ i, EvGetData entity_id [i]) <$> range n))
  ∧ (n = 0%nat →
     get_event_data env self entity_id tr
     = (Ok {| ev_timestamps := []; ev_values := to_array env [];
              ev_event_type := event_type entity; ev_label := label entity |},
        tr ++ [EvGetEntity entity_id])).
Proof.
  intros Hf He Hty n k.
  assert (Hrun : (get_event_data env self entity_id tr).2
    = tr ++ EvGetEntity entity_id
         :: ((λ i, EvGetData entity_id [i]) <$> take k (range n))).
  { unfold get_event_data. rewrite (fetch_entity _ _ _ _ _ _ Hf He).
    rewrite (bind_ok _ _ _ _ _ (check_type_same _ _ _ _ _ Hty)). fold n.
    unfold bind.
    pose proof (event_loop_trace entity entity_id (range n)
                  (replicate n 0%float, []) (tr ++ [EvGetEntity entity_id])) as Hloop.
    destruct (for_fold _ _ _ _) as [[acc|e] tr1]; simpl in Hloop; subst tr1;
      cbn [snd ret]; by rewrite <- app_assoc. }
  split; [exact Hrun |]. split.
  - intros Hall. rewrite Hrun. unfold k. rewrite attempted_all_ok.
    + by rewrite length_fmap, take_ge by done.
    + apply Forall_fmap, Forall_lookup_2. intros i x Hx. simpl.
      assert (Hi : (i < n)%nat).
      { apply lookup_lt_Some in Hx. by rewrite range_length in Hx. }
      rewrite range_lookup in Hx by done. injection Hx as <-. by apply Hall.
  - intros Hn. unfold get_event_data. rewrite (fetch_entity _ _ _ _ _ _ Hf He).
    rewrite (bind_ok _ _ _ _ _ (check_type_same _ _ _ _ _ Hty)). fold n.
    by rewrite Hn.
Qed.

Lemma get_event_data_calls_witness :
  _file Sample.handle = Some Sample.file
  ∧ get_entity Sample.file 1 = Ok (Sample.entity "Trig/1" 1 2)
  ∧ entity_type (Sample.entity "Trig/1" 1 2) = ENTITY_EVENT
  ∧ (get_event_data Sample.env Sample.handle 1 []).2
    = [EvGetEntity 1; EvGetData 1 [0]; EvGetData 1 [1]].
Proof.
  split; [reflexivity |]. split; [reflexivity |]. split; [reflexivity |].
  destruct (get_event_data_calls Sample.env Sample.handle Sample.file
              (Sample.entity "Trig/1" 1 2) 1 [] eq_refl eq_refl eq_refl) as (-> & _).
  reflexivity.
Defined.

Lemma only_not_ns_file_probe_names env search_path names :
  only not_ns_file (probe_names env search_path names).
Proof.
  induction names as [|n names IH]; [apply only_ret |].
  cbn [probe_names]. apply only_bind; [by apply only_Path_exists_call | intros found].
  destruct found; [apply only_ret | apply IH].
Qed.

Lemma only_not_ns_file_probe_paths env paths :
  only not_ns_file (probe_paths env paths).
Proof.
  induction paths as [|p paths IH]; [apply only_ret |].
  cbn [probe_paths]. apply only_bind; [by apply only_Path_exists_call | intros there].
  destruct (negb there); [apply IH |].
  apply only_bind; [apply only_not_ns_file_probe_names | intros [lib_file|]];
    [apply only_ret | apply IH].
Qed.

Lemma _find_library_path_no_open env library_path :
  only not_ns_file (_find_library_path env library_path).
Proof.
  unfold _find_library_path. apply only_bind.
  - destruct library_path as [p|]; [| apply only_ret].
    destruct (truthy p); [by apply only_os_path_exists | apply only_ret].
  - intros given. destruct given; [apply only_ret |].
    apply only_bind; [apply only_outcome | intros cwd].
    apply only_bind; [apply only_not_ns_file_probe_paths
                     | intros [lib_file|]; apply only_ret].
Qed.

Lemma _open_file_last_call env self tr :
  ∃ evs, (_open_file env self tr).2 = tr ++ evs ++ [EvNsFile (filename self)]
         ∧ Forall not_ns_file evs.
Proof.
  assert (Hopen : ∀ lib tr',
    (try_except (open_ns_file env self lib) (λ e, raise (OpenError e)) tr').2
    = tr' ++ [EvNsFile (filename self)]).
  { intros lib tr'. unfold try_except, open_ns_file, bind, call.
    by destruct (ns_File env (filename self)). }
  assert (Hstep : ∀ (c : M unit) lib evs tr',
    c tr' = (Ok tt, tr' ++ evs) →
    (try_except (c ;; open_ns_file env self lib) (λ e, raise (OpenError e)) tr').2
    = tr' ++ evs ++ [EvNsFile (filename self)]).
  { intros c lib evs tr' Hc. unfold try_except, bind. rewrite Hc.
    pose proof (Hopen lib (tr' ++ evs)) as H. unfold try_except in H.
    by rewrite H, <- app_assoc. }
  unfold _open_file.
  destruct (truthy (library_path self)) eqn:Htruthy.
  - unfold try_except, bind at 1, os_path_exists, call.
    destruct (path_exists env (library_path self)).
    + set (prepend := if String.eqb (platform env) "win32" && truthy _ then _ else _).
      assert (∃ evs0, prepend (tr ++ [EvPathExists (library_path self)])
                      = (Ok tt, (tr ++ [EvPathExists (library_path self)]) ++ evs0)
                      ∧ Forall not_ns_file evs0) as (evs0 & Hp & Hevs0).
      { unfold prepend. destruct (_ && _).
        - eexists [_]. split; [done |]. by repeat constructor.
        - exists []. split; [by rewrite app_nil_r | constructor]. }
      unfold bind at 1. rewrite Hp. unfold bind at 1, try_except, bind, call.
      destruct (ns_Library env _ _) as [lib|e]; cbn [ret];
        (pose proof (Hopen (Some lib) ((((tr ++ [EvPathExists (library_path self)])
             ++ evs0) ++ [EvNsLibrary (basename env (library_path self))
                            (dirname env (library_path self))]))) as H
         || pose proof (Hopen None ((((tr ++ [EvPathExists (library_path self)])
             ++ evs0) ++ [EvNsLibrary (basename env (library_path self))
                            (dirname env (library_path self))]))) as H);
        unfold try_except in H; rewrite H;
        exists ([EvPathExists (library_path self)] ++ evs0
                ++ [EvNsLibrary (basename env (library_path self))
                      (dirname env (library_path self))]);
        (split; [by rewrite <- !app_assoc |]);
        repeat (apply Forall_app; split); try done; by repeat constructor.
    + pose proof (Hopen (_lib self) (tr ++ [EvPathExists (library_path self)])) as H.
      unfold try_except in H. rewrite H.
      exists [EvPathExists (library_path self)].
      split; [by rewrite <- !app_assoc | by repeat constructor].
  - exists []. split; [| constructor].
    pose proof (Hopen (_lib self) tr) as H. unfold try_except, bind, ret in *.
    exact H.
Qed.

Lemma MCDFile_init_trace env filename library_path tr :
  path_exists env filename = true →
  match (_find_library_path env library_path (tr ++ [EvPathExists filename])).1 with
  | Ok _ =>
      ∃ evs, (MCDFile_init env filename library_path tr).2
             = tr ++ evs ++ [EvNsFile filename]
             ∧ Forall not_ns_file evs
  | Raise e =>
      (MCDFile_init env filename library_path tr).1 = Raise e
      ∧ ∃ evs, (MCDFile_init env filename library_path tr).2 = tr ++ evs
               ∧ Forall not_ns_file evs
  end.
Proof.
  intros Hex. unfold MCDFile_init, bind at 1 3 5, os_path_exists, call.
  rewrite Hex. cbn [negb]. unfold bind.
  destruct (_find_library_path_no_open env library_path (tr ++ [EvPathExists filename]))
    as (evs1 & Hevs1 & Hall1).
  destruct (_find_library_path env library_path _) as [[lp|e] tr1];
    simpl in Hevs1; subst tr1; cbn [fst snd].
  - destruct (_open_file_last_call env
                {| filename := filename; library_path := lp; _lib := None; _file := None |}
                ((tr ++ [EvPathExists filename]) ++ evs1)) as (evs2 & Hevs2 & Hall2).
    exists ([EvPathExists filename] ++ evs1 ++ evs2).
    split; [by rewrite Hevs2, <- !app_assoc |].
    repeat (apply Forall_app; split); try done. by repeat constructor.
  - split; [done |]. exists ([EvPathExists filename] ++ evs1).
    split; [by rewrite <- !app_assoc |].
    apply Forall_app; split; [by repeat constructor | done].
Qed.

(** X24.  When the path of the recording exists and the library
    search returns, constructing the accessor calls [ns.File] exactly
    once, on that path, as its last external call: after the library
    search, and also after a library load that failed.  When the
    library search raises, the constructor raises the same exception
    and [ns.File] is not called at all.  The search returns when the
    working directory is known and [Path.exists()] raises on no
    path. *)
Theorem MCDFile_init_opens_once
    (env : Env) (filename : string) (library_path : option string) (tr : trace) :
  path_exists env filename = true →
  match (_find_library_path env library_path (tr ++ [EvPathExists filename])).1 with
  | Ok _ =>
      ∃ evs, (MCDFile_init env filename library_path tr).2
             = tr ++ evs ++ [EvNsFile filename]
             ∧ Forall not_ns_file evs
  | Raise e =>
      (MCDFile_init env filename library_path tr).1 = Raise e
      ∧ ∃ evs, (MCDFile_init env filename library_path tr).2 = tr ++ evs
               ∧ Forall not_ns_file evs
  end
  ∧ (∀ cwd, Path_cwd env = Ok cwd → Path_agrees env →
       ∃ evs, (MCDFile_init env filename library_path tr).2
              = tr ++ evs ++ [EvNsFile filename]
              ∧ Forall not_ns_file evs).
Proof.
  intros Hex. pose proof (MCDFile_init_trace env filename library_path tr Hex) as H.
  split; [exact H |]. intros cwd Hcwd Hag.
  by rewrite (_find_library_path_resolved env library_path _ cwd Hcwd Hag) in H.
Qed.

Lemma MCDFile_init_opens_once_witness :
  path_exists Sample.win_env "rec.mcd" = true
  ∧ Path_cwd Sample.win_env = Ok "C:/data"
  ∧ Path_agrees Sample.win_env
  ∧ (MCDFile_init Sample.win_env "rec.mcd" None []).2
    = [EvPathExists "rec.mcd";
       EvPathExists "C:/mcd2dh5/Matlab-Import-Filter/Matlab_Interface";
       EvPathExists "C:/data";
       EvPathExists "C:/data/nsMCDLibrary64.dll";
       EvPathExists "C:/data/nsMCDLibrary.dll";
       EvPathExists "C:/data/nsMCDLibrary.dll";
       EvPrependPath "C:/data";
       EvNsLibrary "nsMCDLibrary.dll" "C:/data";
       EvNsFile "rec.mcd"]
  ∧ last (MCDFile_init Sample.win_env "rec.mcd" None []).2 = Some (EvNsFile "rec.mcd").
Proof.
  assert (Hag : Path_agrees Sample.win_env) by (intros p; reflexivity).
  split; [reflexivity |]. split; [reflexivity |]. split; [exact Hag |].
  split; [reflexivity |].
  destruct (MCDFile_init_opens_once Sample.win_env "rec.mcd" None [] eq_refl)
    as (_ & H).
  destruct (H "C:/data" eq_refl Hag) as (evs & -> & _).
  rewrite app_nil_l, last_snoc. reflexivity.
Defined.

Lemma find_library_path_first_match_witness :
  explicit_usable Sample.win_env (Some "C:/data/nsMCDLibrary.dll") = true
  ∧ _find_library_path Sample.win_env (Some "C:/data/nsMCDLibrary.dll") []
    = (Ok "C:/data/nsMCDLibrary.dll", [EvPathExists "C:/data/nsMCDLibrary.dll"])
  ∧ Path_cwd Sample.win_env = Ok "C:/data"
  ∧ Path_agrees Sample.win_env
  ∧ (_find_library_path Sample.win_env None []).1 = Ok "C:/data/nsMCDLibrary.dll"
  ∧ explicit_usable Sample.removed_cwd_env None = false
  ∧ Path_cwd Sample.removed_cwd_env
    = Raise (FileNotFoundError "[Errno 2] No such file or directory")
  ∧ (_find_library_path Sample.removed_cwd_env None []).1
    = Raise (FileNotFoundError "[Errno 2] No such file or directory")
  ∧ Path_cwd Sample.locked_env = Ok "/home/user"
  ∧ Path_exists Sample.locked_env
      (default "" (head (search_paths Sample.locked_env "/home/user")))
    = Raise (ExternalError "PermissionError" "[Errno 13] Permission denied")
  ∧ (_find_library_path Sample.locked_env None []).1
    = Raise (ExternalError "PermissionError" "[Errno 13] Permission denied").
Proof.
  assert (Hag : Path_agrees Sample.win_env) by (intros p; reflexivity).
  split; [reflexivity |]. split.
  { destruct (find_library_path_first_match Sample.win_env
                (Some "C:/data/nsMCDLibrary.dll") []) as (H & _).
    exact (H eq_refl). }
  split; [reflexivity |]. split; [exact Hag |]. split.
  { destruct (find_library_path_first_match Sample.win_env None [])
      as (_ & _ & _ & _ & H).
    destruct (H "C:/data" eq_refl Hag) as (-> & _). reflexivity. }
  split; [reflexivity |]. split; [reflexivity |]. split.
  { destruct (find_library_path_first_match Sample.removed_cwd_env None [])
      as (_ & H & _).
    exact (H eq_refl _ eq_refl). }
  split; [reflexivity |]. split; [reflexivity |].
  destruct (find_library_path_first_match Sample.locked_env None [])
    as (_ & _ & H & _).
  exact (H eq_refl "/home/user" _ eq_refl eq_refl).
Defined.

Lemma MCDFile_init_outcome_witness :
  path_exists Sample.removed_cwd_env "rec.mcd" = true
  ∧ explicit_usable Sample.removed_cwd_env None = false
  ∧ Path_cwd Sample.removed_cwd_env
    = Raise (FileNotFoundError "[Errno 2] No such file or directory")
  ∧ (MCDFile_init Sample.removed_cwd_env "rec.mcd" None []).1
    = Raise (FileNotFoundError "[Errno 2] No such file or directory")
  ∧ Path_cwd Sample.env = Ok "/home/user"
  ∧ Path_agrees Sample.env
  ∧ (MCDFile_init Sample.env "rec.mcd" None []).1 = Ok Sample.handle.
Proof.
  assert (Hag : Path_agrees Sample.env) by (intros p; reflexivity).
  split; [reflexivity |]. split; [reflexivity |]. split; [reflexivity |]. split.
  { destruct (MCDFile_init_outcome Sample.removed_cwd_env "rec.mcd" None [])
      as (_ & H & _).
    exact (H eq_refl eq_refl _ eq_refl). }
  split; [reflexivity |]. split; [exact Hag |].
  destruct (MCDFile_init_outcome Sample.env "rec.mcd" None []) as (_ & _ & H).
  rewrite (H "/home/user" eq_refl Hag). reflexivity.
Defined.

Lemma MCDFile_init_events_witness :
  platform Sample.env ≠ "win32"
  ∧ ∃ evs, (MCDFile_init Sample.env "rec.mcd" None []).2 = [] ++ evs
           ∧ ∀ dir, EvPrependPath dir ∉ evs.
Proof.
  assert (Hplat : platform Sample.env ≠ "win32") by discriminate.
  split; [exact Hplat |].
  destruct (MCDFile_init_events Sample.env "rec.mcd" None [])
    as (evs & Hevs & _ & Hpath & _).
  exists evs. split; [exact Hevs | exact (Hpath Hplat)].
Defined.

Lemma replace_slash_spec_witness :
  ("/"%char ∉ chars "Ch1")
  ∧ replace_slash "Ch1" = "Ch1"
  ∧ replace_slash "Trig/1" = "Trig_1".
Proof.
  assert (H : "/"%char ∉ chars "Ch1").
  { unfold chars. simpl. rewrite !not_elem_of_cons.
    repeat split; try discriminate. apply not_elem_of_nil. }
  split; [exact H |]. split; [| reflexivity].
  destruct (replace_slash_spec "Ch1") as (_ & _ & _ & Hsame & _).
  exact (Hsame H).
Defined.

Lemma zfill4_spec_witness :
  (4 ≤ String.length (NilZero.string_of_uint (Nat.to_uint 4321)))%nat
  ∧ zfill4 4321 = "4321"
  ∧ zfill4 7 = "0007".
Proof.
  assert (H : (4 ≤ String.length (NilZero.string_of_uint (Nat.to_uint 4321)))%nat)
    by (vm_compute; lia).
  split; [exact H |]. split; [| reflexivity].
  destruct (zfill4_spec 4321) as (_ & _ & _ & Hlong).
  rewrite (Hlong H). by vm_compute.
Defined.

Lemma group_by_type_name_spec_witness :
  (list_entities Sample.handle []).1
  = Ok [entity_summary 0 (Sample.entity "Ch1" 2 3);
        entity_summary 1 (Sample.entity "Trig/1" 1 2);
        entity_summary 2 (Sample.entity "Spk" 3 5);
        Sample.aux_summary]
  ∧ 1 ≤ 3 ≤ 4
  ∧ group_by_type_name
      [entity_summary 0 (Sample.entity "Ch1" 2 3);
       entity_summary 1 (Sample.entity "Trig/1" 1 2);
       entity_summary 2 (Sample.entity "Spk" 3 5);
       Sample.aux_summary] !! "segment"
    = Some [entity_summary 2 (Sample.entity "Spk" 3 5)].
Proof.
  split; [reflexivity |]. split; [lia |].
  destruct (group_by_type_name_spec
              [entity_summary 0 (Sample.entity "Ch1" 2 3);
               entity_summary 1 (Sample.entity "Trig/1" 1 2);
               entity_summary 2 (Sample.entity "Spk" 3 5);
               Sample.aux_summary]) as (_ & _ & H).
  destruct (H Sample.handle [] eq_refl) as (Hcode & _).
  change "segment" with (type_name_of 3). rewrite (Hcode 3) by lia.
  reflexivity.
Defined.
